(** * App Store Server Notifications to Pushover: a shallow embedding

    The development follows the TypeScript sources module by module:
    [env.ts], [dedupeStore.ts], [subscriptionStateStore.ts],
    [eventClassifier.ts], [messageBuilder.ts], [pushover.ts],
    [appleVerifier.ts] and [webhookHandler.ts].  Definitions keep the names
    of the functions they embed.

    Conventions.
    - A JavaScript [string] is the sequence of its UTF-16 code units.  The
      embedding holds the strings whose code units are below 256, one
      [ascii] for each code unit, so that [length], [slice] and [trim] count
      and cut as the sources do.
    - A JavaScript [number] is [Finite z] for a double whose value is the
      integer [z], or one of the three non-finite values.  Timestamps
      (milliseconds), prices (milliunits) and counters are integers in the
      payloads Apple sends.  Every integer up to 2^53 in magnitude is a
      double; above that the doubles thin out, and [jsAdd] is the addition
      of the sources: the exact sum rounded to the nearest double.  What
      the runtime prints for a number is a field of [JsRuntime], with a law
      for the numbers that print as their plain digits.
    - A value of type [unknown] is a [JSValue].
    - A thrown value is an [Error] carrying its message.
    - Library calls (JSON, base64, the Apple verifier, the file system) are
      fields of the classes [JsRuntime], [FileSystem] and [AppleLibrary]. *)

From Stdlib Require Import ZArith QArith String Ascii List Bool Lia DecimalString DecimalPos.
From stdpp Require Import base option gmap strings.
Import ListNotations.

Open Scope string_scope.
Open Scope Z_scope.

Set Warnings "-register-all".

(** ** JavaScript values *)

Inductive number : Type :=
| Finite (z : Z)
| NaN
| Infinity
| NegInfinity.

Definition Number_isFinite (n : number) : bool :=
  match n with Finite _ => true | _ => false end.

(** The double nearest to an integer, the tie going to the even
    significand.  A double has 53 significant bits: up to 2^53 every
    integer is one; above, the doubles around [m] are the multiples of
    [2 ^ (log2 m - 52)]. *)
Definition roundToDouble (z : Z) : Z :=
  let m := Z.abs z in
  if m <=? 2 ^ 53 then z
  else
    let ulp := 2 ^ (Z.log2 m - 52) in
    let q := m / ulp in
    let r := m mod ulp in
    let q' := if (ulp <? 2 * r) || ((2 * r =? ulp) && Z.odd q) then q + 1 else q in
    Z.sgn z * (q' * ulp).

(** The spacing of the doubles around a magnitude above 2^53. *)
Definition ulpOf (m : Z) : Z := 2 ^ (Z.log2 m - 52).


(** [a + b] on integer-valued doubles.  The sources add 0 or 1 to a count,
    which stays finite: the largest double plus one rounds to itself. *)
Definition jsAdd (a b : Z) : Z := roundToDouble (a + b).

Inductive JSValue : Type :=
| VUndefined
| VNull
| VBool (b : bool)
| VNumber (n : number)
| VString (s : string)
| VArray (items : list JSValue)
| VObject (fields : list (string * JSValue)).

Record Error : Type := mkError { message : string }.

Inductive Result (A : Type) : Type :=
| Ok (a : A)
| Threw (e : Error).
Arguments Ok {A} a.
Arguments Threw {A} e.

Definition isOk {A} (r : Result A) : bool :=
  match r with Ok _ => true | Threw _ => false end.

(** [obj[key]] for an own property held in an association list. *)
Fixpoint assoc (key : string) (fields : list (string * JSValue)) : JSValue :=
  match fields with
  | [] => VUndefined
  | (k, v) :: rest => if String.eqb k key then v else assoc key rest
  end.

(** Property read [value.key] on a value already known not to be
    [null]/[undefined]: primitives and arrays have no such own property. *)
Definition prop (value : JSValue) (key : string) : JSValue :=
  match value with
  | VObject fields => assoc key fields
  | _ => VUndefined
  end.

(** [typeof v === "object"] (true for [null], arrays and objects). *)
Definition typeofObject (v : JSValue) : bool :=
  match v with
  | VNull | VArray _ | VObject _ => true
  | _ => false
  end.

(** JavaScript truthiness. *)
Definition truthy (v : JSValue) : bool :=
  match v with
  | VUndefined | VNull => false
  | VBool b => b
  | VNumber (Finite z) => negb (z =? 0)
  | VNumber NaN => false
  | VNumber _ => true
  | VString s => negb (String.eqb s EmptyString)
  | VArray _ | VObject _ => true
  end.

Definition nonEmpty (s : string) : bool := negb (String.eqb s EmptyString).

(** Truthiness of a [string | undefined]. *)
Definition truthyString (s : option string) : bool :=
  match s with Some x => nonEmpty x | None => false end.

Definition optString_eqb (a : option string) (b : string) : bool :=
  match a with Some x => String.eqb x b | None => false end.

(** ** String helpers *)

(** The white space and line terminators that [String.prototype.trim]
    strips, among the code units below 256: TAB, LF, VT, FF, CR, SPACE and
    NO-BREAK SPACE (U+00A0). *)
Definition isWhiteSpace (c : ascii) : bool :=
  let n := nat_of_ascii c in
  ((9 <=? n) && (n <=? 13))%nat || (n =? 32)%nat || (n =? 160)%nat.

Fixpoint trimStart (s : string) : string :=
  match s with
  | String c rest => if isWhiteSpace c then trimStart rest else s
  | EmptyString => EmptyString
  end.

Fixpoint trimEnd (s : string) : string :=
  match s with
  | EmptyString => EmptyString
  | String c rest =>
      match trimEnd rest with
      | EmptyString => if isWhiteSpace c then EmptyString else String c EmptyString
      | rest' => String c rest'
      end
  end.

(** [String.prototype.trim]. *)
Definition trim (s : string) : string := trimEnd (trimStart s).

(** [parts.join(sep)]. *)
Fixpoint join (sep : string) (parts : list string) : string :=
  match parts with
  | [] => EmptyString
  | [p] => p
  | p :: rest => p +:+ sep +:+ join sep rest
  end.

(** [s.split(".")]. *)
Fixpoint splitDot (s : string) : list string :=
  match s with
  | EmptyString => [EmptyString]
  | String c rest =>
      if Ascii.eqb c "."%char then EmptyString :: splitDot rest
      else match splitDot rest with
           | [] => [String c EmptyString]
           | p :: ps => String c p :: ps
           end
  end.

(** [haystack.includes(needle)]. *)
Fixpoint includes (needle haystack : string) : bool :=
  String.prefix needle haystack ||
  match haystack with
  | EmptyString => false
  | String _ rest => includes needle rest
  end.

(** The decimal digits of an integer, with its sign. *)
Definition Z_toString (z : Z) : string := NilZero.string_of_int (Z.to_int z).

(** The decimal numeral of [milli / 1000]: at most three decimals, printed
    without trailing zeros and without a point when there are none. *)
Definition fractionDigits (thousandths : Z) : string :=
  let d1 := thousandths / 100 in
  let d2 := (thousandths / 10) mod 10 in
  let d3 := thousandths mod 10 in
  if negb (d3 =? 0) then Z_toString d1 +:+ Z_toString d2 +:+ Z_toString d3
  else if negb (d2 =? 0) then Z_toString d1 +:+ Z_toString d2
  else Z_toString d1.

Definition formatThousandths (milli : Z) : string :=
  let magnitude := Z.abs milli in
  let whole := magnitude / 1000 in
  let thousandths := magnitude mod 1000 in
  (if milli <? 0 then "-" else EmptyString)
  +:+ Z_toString whole
  +:+ (if thousandths =? 0 then EmptyString else "." +:+ fractionDigits thousandths).

(** ** Library interfaces *)

(** The JavaScript built-ins the sources call.  [JSON_parse] returns [None]
    where [JSON.parse] throws.
    - [Number_toString n] is [String(n)], which is also what a template
      literal prints for [n].
    - [formatMilliunits milli] is [new Intl.NumberFormat("en-US",
      {minimumFractionDigits: 0, maximumFractionDigits: 3, useGrouping:
      false}).format(milli / 1000)], the division being the one of doubles.
    The laws record that a JSON text denoting a string is longer than the
    string it denotes (it carries the quotes); that an integer up to 2^53 in
    magnitude prints as its digits (larger doubles print the digits that
    tell them apart, padded with zeros or with an exponent); and that up to
    4 * 10^15 milliunits the quotient prints as the exact decimal (beyond,
    the doubles are too far apart to hold the third decimal). *)
Class JsRuntime : Type := {
  JSON_parse : string -> option JSValue;
  JSON_stringify : JSValue -> string;
  Number_ofString : string -> number;
  Number_toString : number -> string;
  formatMilliunits : Z -> string;
  base64urlToUtf8 : string -> string;
  JSON_parse_string_shorter :
    forall s s', JSON_parse s = Some (VString s') ->
                 (String.length s' < String.length s)%nat;
  Number_toString_integer :
    forall z, Z.abs z <= 2 ^ 53 -> Number_toString (Finite z) = Z_toString z;
  formatMilliunits_exact :
    forall milli, Z.abs milli <= 4 * 10 ^ 15 ->
                  formatMilliunits milli = formatThousandths milli
}.

(** One entry of [APPLE_APPS_JSON] after [appleAppEntrySchema]. *)
Record ParsedAppEntry : Type := {
  entry_bundleId : option string;
  entry_appAppleId : Z;
  entry_pushoverUserKey : option string;
  entry_pushoverDevice : option string
}.

(** [z.array(appleAppEntrySchema).min(1).parse(json)]: the validated entries,
    or the validation error. *)
Class Zod : Type := {
  zodAppleApps : JSValue -> Result (list ParsedAppEntry)
}.

(** [node:fs], [node:path] and [process.cwd()]. *)
Class FileSystem : Type := {
  existsSync : string -> bool;
  readdirSync : string -> Result (list string);
  readFileSync : string -> Result string;
  isAbsolute : string -> bool;
  pathJoin : string -> string -> string;
  process_cwd : string
}.

Inductive Environment : Type :=
| PRODUCTION
| SANDBOX.

(** A [SignedDataVerifier] is determined by the arguments of its
    constructor. *)
Record SignedDataVerifier : Type := {
  sdv_rootCAs : list string;
  sdv_enableOnlineChecks : bool;
  sdv_environment : Environment;
  sdv_bundleId : string;
  sdv_appAppleId : option Z
}.

Record VerifierPair : Type := {
  production : SignedDataVerifier;
  sandbox : SignedDataVerifier
}.

(** [@apple/app-store-server-library]: both methods either return the
    decoded payload or throw. *)
Class AppleLibrary : Type := {
  verifyAndDecodeNotification : SignedDataVerifier -> string -> Result JSValue;
  verifyAndDecodeTransaction : SignedDataVerifier -> string -> Result JSValue
}.

(** ** env.ts *)

Definition DEDUPE_TTL_SECONDS : Z := 60 * 60 * 24 * 30.

Record AppleAppConfig : Type := {
  app_bundleId : option string;
  app_appAppleId : Z;
  app_pushoverUserKey : string;
  app_pushoverDevice : option string
}.

Record AppConfig : Type := {
  webhookSecret : string;
  pushoverAppToken : string;
  defaultPushoverUserKey : string;
  defaultPushoverDevice : option string;
  appleApps : list AppleAppConfig;
  appleEnableOnlineChecks : bool;
  appleRootCaDir : string;
  kvRestApiUrl : string;
  kvRestApiToken : string;
  dedupeTtlSeconds : Z
}.

(** The environment after [envSchema.parse]: every field already has the
    type and the defaults the zod schema gives it. *)
Record ParsedEnv : Type := {
  WEBHOOK_SECRET : string;
  PUSHOVER_APP_TOKEN : string;
  PUSHOVER_USER_KEY : string;
  PUSHOVER_DEVICE : option string;
  APPLE_BUNDLE_ID : option string;
  APPLE_APP_ID : option Z;
  APPLE_APPS_JSON : option string;
  APPLE_ENABLE_ONLINE_CHECKS : bool;
  APPLE_ROOT_CA_DIR : string;
  KV_REST_API_URL : string;
  KV_REST_API_TOKEN : string
}.

(** [a ?? b] on optional values. *)
Definition nullish {A} (a b : option A) : option A :=
  match a with Some _ => a | None => b end.

Definition nullishOr {A} (a : option A) (b : A) : A :=
  match a with Some x => x | None => b end.

(** The loop over [apps] that rejects a repeated bundle id. *)
Fixpoint checkDuplicateBundleIds (seenBundleIds : gset string)
    (apps : list AppleAppConfig) : Result unit :=
  match apps with
  | [] => Ok tt
  | app :: rest =>
      match app_bundleId app with
      | Some b =>
          if negb (nonEmpty b) then checkDuplicateBundleIds seenBundleIds rest
          else if bool_decide (b ∈ seenBundleIds)
          then Threw (mkError ("Duplicate bundleId in APPLE_APPS_JSON: '" +:+ b +:+ "'."))
          else checkDuplicateBundleIds ({[b]} ∪ seenBundleIds) rest
      | None => checkDuplicateBundleIds seenBundleIds rest
      end
  end.

Section Env.
Context {rt : JsRuntime} {zod : Zod}.

Definition parseAppleApps (rawJson : string) (defaultPushoverUserKey' : string)
    (defaultPushoverDevice' : option string) : Result (list AppleAppConfig) :=
  match JSON_parse rawJson with
  | None => Threw (mkError "APPLE_APPS_JSON must be valid JSON.")
  | Some parsedJson =>
      match zodAppleApps parsedJson with
      | Threw e => Threw e
      | Ok parsedApps =>
          let apps := map (fun app =>
            {| app_bundleId := entry_bundleId app;
               app_appAppleId := entry_appAppleId app;
               app_pushoverUserKey :=
                 nullishOr (entry_pushoverUserKey app) defaultPushoverUserKey';
               app_pushoverDevice :=
                 nullish (entry_pushoverDevice app) defaultPushoverDevice' |})
            parsedApps in
          if (1 <? length apps)%nat &&
             existsb (fun app => negb (truthyString (app_bundleId app))) apps
          then Threw (mkError
            "Each APPLE_APPS_JSON entry must include bundleId when multiple apps are configured.")
          else
            match checkDuplicateBundleIds ∅ apps with
            | Threw e => Threw e
            | Ok _ => Ok apps
            end
      end
  end.

Definition buildSingleAppFallback (parsed : ParsedEnv) : Result (list AppleAppConfig) :=
  match APPLE_APP_ID parsed with
  | None => Threw (mkError "APPLE_APP_ID is required when APPLE_APPS_JSON is not set.")
  | Some appId =>
      Ok [ {| app_bundleId := APPLE_BUNDLE_ID parsed;
              app_appAppleId := appId;
              app_pushoverUserKey := PUSHOVER_USER_KEY parsed;
              app_pushoverDevice := PUSHOVER_DEVICE parsed |} ]
  end.

(** [loadConfig], from the schema's output on. *)
Definition loadConfig (parsed : ParsedEnv) : Result AppConfig :=
  let apps :=
    if truthyString (APPLE_APPS_JSON parsed)
    then parseAppleApps (nullishOr (APPLE_APPS_JSON parsed) EmptyString)
           (PUSHOVER_USER_KEY parsed) (PUSHOVER_DEVICE parsed)
    else buildSingleAppFallback parsed in
  match apps with
  | Threw e => Threw e
  | Ok appleApps' =>
      Ok {| webhookSecret := WEBHOOK_SECRET parsed;
            pushoverAppToken := PUSHOVER_APP_TOKEN parsed;
            defaultPushoverUserKey := PUSHOVER_USER_KEY parsed;
            defaultPushoverDevice := PUSHOVER_DEVICE parsed;
            appleApps := appleApps';
            appleEnableOnlineChecks := APPLE_ENABLE_ONLINE_CHECKS parsed;
            appleRootCaDir := APPLE_ROOT_CA_DIR parsed;
            kvRestApiUrl := KV_REST_API_URL parsed;
            kvRestApiToken := KV_REST_API_TOKEN parsed;
            dedupeTtlSeconds := DEDUPE_TTL_SECONDS |}
  end.
End Env.

(** ** The world outside the process *)

(** The Upstash client object built by [new Redis({url, token})]. *)
Record Redis : Type := {
  redis_url : string;
  redis_token : string
}.

(** A request body handed to [fetch] for the Pushover API. *)
Record PushoverRequest : Type := {
  push_token : string;
  push_user : string;
  push_title : string;
  push_message : string;
  push_priority : string;
  push_device : option string
}.

(** State threaded through the effectful code.
    - [now]: what [Date.now()] returns, in milliseconds.
    - [processEnv]: the outcome of [envSchema.parse(process.env)].
    - [kv]: the key-value database; a key maps to the value a [get] returns
      and to the instant (ms) at which it expires.  A key whose instant has
      passed is absent.
    - [kvFailure]: [Some e] when every command to the database throws [e].
    - [dedupeClient], [subscriptionClient]: the module-level
      [redisClient]/[redisClientKey] pairs of the two store modules.
    - [verifierCache]: the module-level map of [appleVerifier.ts]; its key
      is the tuple that the source serializes into the cache key.
    - [pushoverUnreachable]: [Some e] when [fetch] rejects with [e].
    - [pushoverStatus], [pushoverBody]: the HTTP answer of the Pushover API.
    - [pushoverInbox]: the requests that reached the Pushover API.
    - [console]: the lines written by [console.log]. *)
Record World : Type := {
  now : Z;
  processEnv : Result ParsedEnv;
  kv : gmap string (JSValue * Z);
  kvFailure : option Error;
  dedupeClient : option (Redis * string);
  subscriptionClient : option (Redis * string);
  verifierCache : gmap (string * Z * bool * string) VerifierPair;
  pushoverUnreachable : option Error;
  pushoverStatus : Z;
  pushoverBody : string;
  pushoverInbox : list PushoverRequest;
  console : list string
}.

Definition setKv (f : gmap string (JSValue * Z) -> gmap string (JSValue * Z))
    (w : World) : World :=
  {| now := now w; processEnv := processEnv w;
     kv := f (kv w); kvFailure := kvFailure w;
     dedupeClient := dedupeClient w; subscriptionClient := subscriptionClient w;
     verifierCache := verifierCache w;
     pushoverUnreachable := pushoverUnreachable w;
     pushoverStatus := pushoverStatus w; pushoverBody := pushoverBody w;
     pushoverInbox := pushoverInbox w; console := console w |}.

Definition setDedupeClient (c : option (Redis * string)) (w : World) : World :=
  {| now := now w; processEnv := processEnv w;
     kv := kv w; kvFailure := kvFailure w;
     dedupeClient := c; subscriptionClient := subscriptionClient w;
     verifierCache := verifierCache w;
     pushoverUnreachable := pushoverUnreachable w;
     pushoverStatus := pushoverStatus w; pushoverBody := pushoverBody w;
     pushoverInbox := pushoverInbox w; console := console w |}.

Definition setSubscriptionClient (c : option (Redis * string)) (w : World) : World :=
  {| now := now w; processEnv := processEnv w;
     kv := kv w; kvFailure := kvFailure w;
     dedupeClient := dedupeClient w; subscriptionClient := c;
     verifierCache := verifierCache w;
     pushoverUnreachable := pushoverUnreachable w;
     pushoverStatus := pushoverStatus w; pushoverBody := pushoverBody w;
     pushoverInbox := pushoverInbox w; console := console w |}.

Definition setVerifierCache
    (f : gmap (string * Z * bool * string) VerifierPair ->
         gmap (string * Z * bool * string) VerifierPair)
    (w : World) : World :=
  {| now := now w; processEnv := processEnv w;
     kv := kv w; kvFailure := kvFailure w;
     dedupeClient := dedupeClient w; subscriptionClient := subscriptionClient w;
     verifierCache := f (verifierCache w);
     pushoverUnreachable := pushoverUnreachable w;
     pushoverStatus := pushoverStatus w; pushoverBody := pushoverBody w;
     pushoverInbox := pushoverInbox w; console := console w |}.

Definition deliver (r : PushoverRequest) (w : World) : World :=
  {| now := now w; processEnv := processEnv w;
     kv := kv w; kvFailure := kvFailure w;
     dedupeClient := dedupeClient w; subscriptionClient := subscriptionClient w;
     verifierCache := verifierCache w;
     pushoverUnreachable := pushoverUnreachable w;
     pushoverStatus := pushoverStatus w; pushoverBody := pushoverBody w;
     pushoverInbox := pushoverInbox w ++ [r]; console := console w |}.

Definition consoleLog (line : string) (w : World) : World :=
  {| now := now w; processEnv := processEnv w;
     kv := kv w; kvFailure := kvFailure w;
     dedupeClient := dedupeClient w; subscriptionClient := subscriptionClient w;
     verifierCache := verifierCache w;
     pushoverUnreachable := pushoverUnreachable w;
     pushoverStatus := pushoverStatus w; pushoverBody := pushoverBody w;
     pushoverInbox := pushoverInbox w; console := console w ++ [line] |}.

(** Computations that read and write a state [S] and may throw. *)
Definition M (S A : Type) : Type := S -> Result A * S.

Definition ret {S A} (a : A) : M S A := fun s => (Ok a, s).

Definition throw {S A} (e : Error) : M S A := fun s => (Threw e, s).

Definition bind {S A B} (m : M S A) (k : A -> M S B) : M S B :=
  fun s => match m s with
           | (Ok a, s') => k a s'
           | (Threw e, s') => (Threw e, s')
           end.

(** [try { m } catch (error) { handler error }]. *)
Definition tryCatch {S A} (m : M S A) (handler : Error -> M S A) : M S A :=
  fun s => match m s with
           | (Ok a, s') => (Ok a, s')
           | (Threw e, s') => handler e s'
           end.

Definition liftResult {S A} (r : Result A) : M S A := fun s => (r, s).

Declare Scope m_scope.
Delimit Scope m_scope with M.
Notation "x <- m ;; k" := (bind m (fun x => k))
  (at level 100, m at next level, right associativity) : m_scope.
Notation "m ;;; k" := (bind m (fun _ => k))
  (at level 100, right associativity) : m_scope.

(** *** The key-value database *)

(** The entry of [key] that is still alive at the world's instant. *)
Definition kvLive (w : World) (key : string) : option JSValue :=
  match kv w !! key with
  | Some (v, expiresAt) => if now w <? expiresAt then Some v else None
  | None => None
  end.

(** [redis.get(key)]: the live value, [null] when there is none. *)
Definition redis_get (client : Redis) (key : string) : M World JSValue :=
  fun w => match kvFailure w with
           | Some e => (Threw e, w)
           | None => (Ok (nullishOr (kvLive w key) VNull), w)
           end.

(** [redis.set(key, value, {ex, nx})]: with [nx] the command writes only
    when [key] has no live entry, and answers ["OK"] when it wrote and
    [null] when it did not; the entry expires [ex] seconds later. *)
Definition redis_set (client : Redis) (key value : string) (ex : Z) (nx : bool)
    : M World (option string) :=
  fun w => match kvFailure w with
           | Some e => (Threw e, w)
           | None =>
               if nx && bool_decide (is_Some (kvLive w key))
               then (Ok None, w)
               else (Ok (Some "OK"),
                     setKv (insert key (VString value, now w + ex * 1000)) w)
           end.

(** ** dedupeStore.ts *)

Module DedupeStore.

Definition getRedisClient (config : AppConfig) : M World Redis :=
  fun w =>
    let key := kvRestApiUrl config +:+ "::" +:+ kvRestApiToken config in
    match dedupeClient w with
    | Some (redisClient, redisClientKey) =>
        if String.eqb redisClientKey key then (Ok redisClient, w)
        else
          let created := {| redis_url := kvRestApiUrl config;
                            redis_token := kvRestApiToken config |} in
          (Ok created, setDedupeClient (Some (created, key)) w)
    | None =>
        let created := {| redis_url := kvRestApiUrl config;
                          redis_token := kvRestApiToken config |} in
        (Ok created, setDedupeClient (Some (created, key)) w)
    end.

Definition getDedupeKey (notificationUUID : string) : string :=
  "appstore:notification:" +:+ notificationUUID.

Definition markNotificationAsNew (notificationUUID : string) (config : AppConfig)
    : M World bool :=
  (redis <- getRedisClient config ;;
   let key := getDedupeKey notificationUUID in
   result <- redis_set redis key "1" (dedupeTtlSeconds config) true ;;
   ret (bool_decide (result = Some "OK")))%M.

End DedupeStore.

(** ** appleVerifier.ts: the decoded records *)

(** Modelled from the spec: the declaration of [DecodedTransactionInfo] that
    [subscriptionStateStore.ts] and the tests are written against is not
    among the sources; the declaration in [appleVerifier.ts] has the first
    four fields only.  The remaining fields are the ones the spec lists
    (original transaction id, purchase timestamps, discount/offer type,
    transaction reason) under the names the store and the tests use. *)
Record DecodedTransactionInfo : Type := {
  productId : option string;
  transactionId : option string;
  price : option number;
  currency : option string;
  originalTransactionId : option string;
  purchaseDate : option number;
  originalPurchaseDate : option number;
  offerDiscountType : option string;
  transactionReason : option string
}.

Record VerifiedNotification : Type := {
  notificationUUID : string;
  notificationType : string;
  subtype : option string;
  environment : string;
  bundleId : string;
  appAppleId : Z;
  pushoverUserKey : string;
  pushoverDevice : option string;
  signedTransactionInfo : option string;
  transactionInfo : option DecodedTransactionInfo
}.

(** [transactionInfo?.field]. *)
Definition txField {A} (transactionInfo' : option DecodedTransactionInfo)
    (field : DecodedTransactionInfo -> option A) : option A :=
  match transactionInfo' with Some t => field t | None => None end.

(** ** subscriptionStateStore.ts *)

Module SubscriptionStateStore.

Definition SUBSCRIPTION_STATE_TTL_SECONDS : Z := 60 * 60 * 24 * 730.
Definition ONE_DAY_IN_MS : Z := 24 * 60 * 60 * 1000.

Record SubscriptionState : Type := {
  sawFreeTrial : bool;
  didRenewCount : Z;
  notificationCount : Z;
  firstSeenAt : Z;
  updatedAt : Z;
  firstNotificationType : string;
  lastNotificationType : string;
  st_originalPurchaseDate : option number;
  firstPurchaseDate : option number;
  lastPurchaseDate : option number
}.

Inductive SubscriptionLifecycleHint : Type :=
| TRIAL_START
| FIRST_PAID_AFTER_TRIAL
| RENEWAL.

Definition hintName (h : SubscriptionLifecycleHint) : string :=
  match h with
  | TRIAL_START => "TRIAL_START"
  | FIRST_PAID_AFTER_TRIAL => "FIRST_PAID_AFTER_TRIAL"
  | RENEWAL => "RENEWAL"
  end.

Definition getRedisClient (config : AppConfig) : M World Redis :=
  fun w =>
    let key := kvRestApiUrl config +:+ "::" +:+ kvRestApiToken config in
    match subscriptionClient w with
    | Some (redisClient, redisClientKey) =>
        if String.eqb redisClientKey key then (Ok redisClient, w)
        else
          let created := {| redis_url := kvRestApiUrl config;
                            redis_token := kvRestApiToken config |} in
          (Ok created, setSubscriptionClient (Some (created, key)) w)
    | None =>
        let created := {| redis_url := kvRestApiUrl config;
                          redis_token := kvRestApiToken config |} in
        (Ok created, setSubscriptionClient (Some (created, key)) w)
    end.

Definition getSubscriptionStateKey (originalTransactionId' : string) : string :=
  "appstore:subscription:" +:+ originalTransactionId'.

Definition hasFreeTrial (transactionInfo' : option DecodedTransactionInfo) : bool :=
  optString_eqb (txField transactionInfo' offerDiscountType) "FREE_TRIAL".

Definition isLikelyFirstPaidAfterTrialByDates
    (transactionInfo' : option DecodedTransactionInfo) : bool :=
  match txField transactionInfo' purchaseDate,
        txField transactionInfo' originalPurchaseDate with
  | Some (Finite purchaseDate'), Some (Finite originalPurchaseDate') =>
      let deltaMs := purchaseDate' - originalPurchaseDate' in
      if deltaMs <=? 0 then false
      else
        let deltaDays := (inject_Z deltaMs / inject_Z ONE_DAY_IN_MS)%Q in
        Qle_bool (inject_Z 5) deltaDays && Qle_bool deltaDays (inject_Z 14)
  | _, _ => false
  end.

Definition determineLifecycleHint (notificationType' : string)
    (transactionInfo' : option DecodedTransactionInfo)
    (previousState : option SubscriptionState)
    : option SubscriptionLifecycleHint :=
  if String.eqb notificationType' "SUBSCRIBED" && hasFreeTrial transactionInfo'
  then Some TRIAL_START
  else if negb (String.eqb notificationType' "DID_RENEW")
  then None
  else
    let didRenewCount' :=
      match previousState with Some st => didRenewCount st | None => 0 end in
    let previousEventWasTrial :=
      match previousState with Some st => sawFreeTrial st | None => false end
      && (didRenewCount' =? 0) in
    if previousEventWasTrial || isLikelyFirstPaidAfterTrialByDates transactionInfo'
    then Some FIRST_PAID_AFTER_TRIAL
    else Some RENEWAL.

(** [typeof purchaseDate === "number" && Number.isFinite(purchaseDate) ?
    purchaseDate : undefined]. *)
Definition finiteOrUndefined (n : option number) : option number :=
  match n with
  | Some (Finite z) => Some (Finite z)
  | _ => None
  end.

(** The state written back by [determineSubscriptionLifecycleHint]. *)
Definition nextState (notificationType' : string)
    (transactionInfo' : option DecodedTransactionInfo)
    (previousState : option SubscriptionState)
    (lifecycleHint : option SubscriptionLifecycleHint) (now' : Z)
    : SubscriptionState :=
  let purchaseDate' := txField transactionInfo' purchaseDate in
  {| sawFreeTrial :=
       match previousState with Some st => sawFreeTrial st | None => false end
       || hasFreeTrial transactionInfo'
       || match lifecycleHint with Some FIRST_PAID_AFTER_TRIAL => true | _ => false end;
     didRenewCount :=
       jsAdd (match previousState with Some st => didRenewCount st | None => 0 end)
             (if String.eqb notificationType' "DID_RENEW" then 1 else 0);
     notificationCount :=
       jsAdd (match previousState with Some st => notificationCount st | None => 0 end)
             1;
     firstSeenAt :=
       match previousState with Some st => firstSeenAt st | None => now' end;
     updatedAt := now';
     firstNotificationType :=
       match previousState with
       | Some st => firstNotificationType st
       | None => notificationType'
       end;
     lastNotificationType := notificationType';
     st_originalPurchaseDate :=
       nullish (txField transactionInfo' originalPurchaseDate)
               (match previousState with
                | Some st => st_originalPurchaseDate st
                | None => None
                end);
     firstPurchaseDate :=
       nullish (match previousState with
                | Some st => firstPurchaseDate st
                | None => None
                end)
               (finiteOrUndefined purchaseDate');
     lastPurchaseDate :=
       match finiteOrUndefined purchaseDate' with
       | Some p => Some p
       | None => match previousState with
                 | Some st => lastPurchaseDate st
                 | None => None
                 end
       end |}.

(** The object handed to [JSON.stringify]; a property whose value is
    [undefined] is left out, as the serializer would. *)
Definition optionalField (name : string) (n : option number)
    : list (string * JSValue) :=
  match n with Some x => [(name, VNumber x)] | None => [] end.

Definition stateToJS (st : SubscriptionState) : JSValue :=
  VObject
    ([("sawFreeTrial", VBool (sawFreeTrial st));
      ("didRenewCount", VNumber (Finite (didRenewCount st)));
      ("notificationCount", VNumber (Finite (notificationCount st)));
      ("firstSeenAt", VNumber (Finite (firstSeenAt st)));
      ("updatedAt", VNumber (Finite (updatedAt st)));
      ("firstNotificationType", VString (firstNotificationType st));
      ("lastNotificationType", VString (lastNotificationType st))]
     ++ optionalField "originalPurchaseDate" (st_originalPurchaseDate st)
     ++ optionalField "firstPurchaseDate" (firstPurchaseDate st)
     ++ optionalField "lastPurchaseDate" (lastPurchaseDate st)).

Section WithRuntime.
Context {rt : JsRuntime}.

Definition optionalFiniteNumber (value : JSValue) : option Z :=
  match value with
  | VNumber (Finite z) => Some z
  | VString s =>
      match Number_ofString s with
      | Finite z => Some z
      | _ => None
      end
  | _ => None
  end.

Definition optionalFiniteNumber' (value : JSValue) : option number :=
  option_map Finite (optionalFiniteNumber value).

Definition parseSubscriptionState (raw : JSValue) : option SubscriptionState :=
  match raw with
  | VNull | VUndefined => None
  | _ =>
      let parsed :=
        match raw with
        | VString s => JSON_parse s
        | _ => Some raw
        end in
      match parsed with
      | None => None
      | Some parsed' =>
          if negb (truthy parsed') || negb (typeofObject parsed') then None
          else
            let value := parsed' in
            let firstSeenAt' := optionalFiniteNumber (prop value "firstSeenAt") in
            let updatedAt' := optionalFiniteNumber (prop value "updatedAt") in
            let didRenewCount' := optionalFiniteNumber (prop value "didRenewCount") in
            let notificationCount' :=
              optionalFiniteNumber (prop value "notificationCount") in
            let firstNotificationType' :=
              match prop value "firstNotificationType" with
              | VString s => Some s
              | _ => None
              end in
            let lastNotificationType' :=
              match prop value "lastNotificationType" with
              | VString s => Some s
              | _ => None
              end in
            match prop value "sawFreeTrial", firstSeenAt', updatedAt',
                  didRenewCount', notificationCount',
                  firstNotificationType', lastNotificationType' with
            | VBool saw, Some fs, Some up, Some dr, Some nc, Some fnt, Some lnt =>
                if negb (nonEmpty fnt) || negb (nonEmpty lnt) then None
                else
                  Some {| sawFreeTrial := saw;
                          didRenewCount := dr;
                          notificationCount := nc;
                          firstSeenAt := fs;
                          updatedAt := up;
                          firstNotificationType := fnt;
                          lastNotificationType := lnt;
                          st_originalPurchaseDate :=
                            optionalFiniteNumber' (prop value "originalPurchaseDate");
                          firstPurchaseDate :=
                            optionalFiniteNumber' (prop value "firstPurchaseDate");
                          lastPurchaseDate :=
                            optionalFiniteNumber' (prop value "lastPurchaseDate") |}
            | _, _, _, _, _, _, _ => None
            end
      end
  end.

Definition determineSubscriptionLifecycleHint (notificationType' : string)
    (transactionInfo' : option DecodedTransactionInfo) (config : AppConfig)
    : M World (option SubscriptionLifecycleHint) :=
  match txField transactionInfo' originalTransactionId with
  | None => ret None
  | Some originalTransactionId' =>
      if negb (nonEmpty originalTransactionId') then ret None
      else
        (redis <- getRedisClient config ;;
         let stateKey := getSubscriptionStateKey originalTransactionId' in
         existingRaw <- redis_get redis stateKey ;;
         let previousState := parseSubscriptionState existingRaw in
         let lifecycleHint :=
           determineLifecycleHint notificationType' transactionInfo' previousState in
         now' <- (fun w => (Ok (now w), w)) ;;
         let next := nextState notificationType' transactionInfo' previousState
                       lifecycleHint now' in
         _ <- redis_set redis stateKey (JSON_stringify (stateToJS next))
                SUBSCRIPTION_STATE_TTL_SECONDS false ;;
         ret lifecycleHint)%M
  end.

End WithRuntime.

End SubscriptionStateStore.

(** ** eventClassifier.ts *)

Inductive ClassifiedAction : Type :=
| PURCHASE
| REFUND
| IGNORE.

Definition PURCHASE_NOTIFICATION_TYPES : gset string :=
  {[ "SUBSCRIBED"; "DID_RENEW"; "ONE_TIME_CHARGE" ]}.

Definition classifyNotificationType (notificationType' : string) : ClassifiedAction :=
  if String.eqb notificationType' "REFUND" then REFUND
  else if bool_decide (notificationType' ∈ PURCHASE_NOTIFICATION_TYPES) then PURCHASE
  else IGNORE.

(** ** messageBuilder.ts *)

(** [transactionId.slice(0, 6)], [transactionId.slice(-4)]. *)
Definition sliceFront (n : nat) (s : string) : string := substring 0 n s.

Definition sliceBack (n : nat) (s : string) : string :=
  substring (String.length s - n) n s.

Definition shortTransactionId (transactionId' : option string) : string :=
  match transactionId' with
  | None => "n/a"
  | Some t =>
      if negb (nonEmpty t) then "n/a"
      else if (String.length t <=? 12)%nat then t
      else sliceFront 6 t +:+ "..." +:+ sliceBack 4 t
  end.

(** The sources hold [messageBuilder.ts] twice.  [MessageBuilder] is the
    file [src/messageBuilder.ts], the module that [webhookHandler.ts]
    imports: its [MessageInput] has eight fields and its [formatAmount]
    prints the price as it comes. *)
Module MessageBuilder.

(** [PushableAction] is [ClassifiedAction] without [IGNORE]. *)
Inductive PushableAction : Type :=
| PUSH_PURCHASE
| PUSH_REFUND.

Record MessageInput : Type := {
  action : PushableAction;
  appBundleId : string;
  in_notificationType : string;
  in_environment : string;
  in_productId : option string;
  in_transactionId : option string;
  in_price : option number;
  in_currency : option string
}.

Record PushoverMessage : Type := {
  title : string;
  message : string
}.

Section WithRuntime.
Context {rt : JsRuntime}.

Definition formatAmount (price' : option number) (currency' : option string) : string :=
  match price' with
  | Some (Finite p) =>
      if truthyString currency'
      then Number_toString (Finite p) +:+ " " +:+ nullishOr currency' EmptyString
      else Number_toString (Finite p)
  | _ => "n/a"
  end.

(** The array [parts] at the end of [buildPushoverMessage]. *)
Definition messageParts (input : MessageInput) : list string :=
  [ "app=" +:+ appBundleId input;
    "type=" +:+ in_notificationType input;
    "product=" +:+ nullishOr (in_productId input) "n/a";
    "env=" +:+ in_environment input;
    "tx=" +:+ shortTransactionId (in_transactionId input) ]
  ++ (let amount := formatAmount (in_price input) (in_currency input) in
      if negb (String.eqb amount "n/a") then ["amount=" +:+ amount] else []).

Definition buildPushoverMessage (input : MessageInput) : PushoverMessage :=
  {| title := match action input with
              | PUSH_PURCHASE => "In-App Kauf"
              | PUSH_REFUND => "Refund"
              end;
     message := join " | " (messageParts input) |}.

End WithRuntime.

End MessageBuilder.

(** The other [messageBuilder.ts] of the sources, a revision of the first:
    it has the optional diagnostic fields ([subtype], [transactionReason],
    [offerDiscountType], [subscriptionLifecycle]) and takes the price in
    milliunits.  The tests of the builder are written against it; no module
    of the sources imports it. *)
Module MessageBuilderRevised.

Record MessageInput : Type := {
  action : MessageBuilder.PushableAction;
  appBundleId : string;
  in_notificationType : string;
  in_subtype : option string;
  in_environment : string;
  in_productId : option string;
  in_transactionId : option string;
  in_transactionReason : option string;
  in_offerDiscountType : option string;
  subscriptionLifecycle : option string;
  in_price : option number;
  in_currency : option string
}.

Section WithRuntime.
Context {rt : JsRuntime}.

Definition formatAmount (price' : option number) (currency' : option string) : string :=
  match price' with
  | Some (Finite milli) =>
      (* Apple sends transaction prices in milliunits. *)
      let formattedAmount := formatMilliunits milli in
      if truthyString currency'
      then formattedAmount +:+ " " +:+ nullishOr currency' EmptyString
      else formattedAmount
  | _ => "n/a"
  end.

(** [if (value) parts.push(`label=${value}`)]. *)
Definition optionalPart (label : string) (value : option string) : list string :=
  if truthyString value then [label +:+ "=" +:+ nullishOr value EmptyString] else [].

(** The array [parts] at the end of [buildPushoverMessage]. *)
Definition messageParts (input : MessageInput) : list string :=
  [ "app=" +:+ appBundleId input;
    "type=" +:+ in_notificationType input;
    "product=" +:+ nullishOr (in_productId input) "n/a";
    "env=" +:+ in_environment input;
    "tx=" +:+ shortTransactionId (in_transactionId input) ]
  ++ optionalPart "subtype" (in_subtype input)
  ++ optionalPart "reason" (in_transactionReason input)
  ++ optionalPart "offer" (in_offerDiscountType input)
  ++ optionalPart "lifecycle" (subscriptionLifecycle input)
  ++ (let amount := formatAmount (in_price input) (in_currency input) in
      if negb (String.eqb amount "n/a") then ["amount=" +:+ amount] else []).

Definition buildPushoverMessage (input : MessageInput) : MessageBuilder.PushoverMessage :=
  {| MessageBuilder.title :=
       match action input with
       | MessageBuilder.PUSH_PURCHASE => "In-App Kauf"
       | MessageBuilder.PUSH_REFUND => "Refund"
       end;
     MessageBuilder.message := join " | " (messageParts input) |}.

End WithRuntime.

End MessageBuilderRevised.

(** ** pushover.ts *)

Record PushoverTarget : Type := {
  userKey : option string;
  device : option string
}.

(** The form body posted to the Pushover API. *)
Definition pushoverRequestOf (config : AppConfig) (title' message' : string)
    (target : option PushoverTarget) : PushoverRequest :=
  let userKey' :=
    nullishOr (match target with Some t => userKey t | None => None end)
              (defaultPushoverUserKey config) in
  let device' :=
    nullish (match target with Some t => device t | None => None end)
            (defaultPushoverDevice config) in
  {| push_token := pushoverAppToken config;
     push_user := userKey';
     push_title := title';
     push_message := message';
     push_priority := "0";
     push_device := if truthyString device' then device' else None |}.

Definition sendPushoverNotification (config : AppConfig) (title' message' : string)
    (target : option PushoverTarget) : M World unit :=
  let request := pushoverRequestOf config title' message' target in
  fun w =>
    match pushoverUnreachable w with
    | Some e => (Threw e, w)
    | None =>
        let w' := deliver request w in
        if (200 <=? pushoverStatus w) && (pushoverStatus w <=? 299)
        then (Ok tt, w')
        else (Threw (mkError ("Pushover API request failed ("
                              +:+ Z_toString (pushoverStatus w) +:+ "): "
                              +:+ pushoverBody w)), w')
    end.

(** ** appleVerifier.ts *)

Definition toLower (c : ascii) : ascii :=
  let n := nat_of_ascii c in
  if ((65 <=? n) && (n <=? 90))%nat then ascii_of_nat (n + 32) else c.

Fixpoint lowercase (s : string) : string :=
  match s with
  | EmptyString => EmptyString
  | String c rest => String (toLower c) (lowercase rest)
  end.

(** The test [/\.(cer|crt|pem|der)$/i]. *)
Definition isCertificateFile (file : string) : bool :=
  let suffix := lowercase (sliceBack 4 file) in
  (4 <=? String.length file)%nat &&
  (String.eqb suffix ".cer" || String.eqb suffix ".crt" ||
   String.eqb suffix ".pem" || String.eqb suffix ".der").

(** [files.map(f)] for an [f] that may throw. *)
Fixpoint mapResult {A B} (f : A -> Result B) (l : list A) : Result (list B) :=
  match l with
  | [] => Ok []
  | x :: rest =>
      match f x with
      | Threw e => Threw e
      | Ok y => match mapResult f rest with
                | Threw e => Threw e
                | Ok ys => Ok (y :: ys)
                end
      end
  end.

(** What the inner loop of [verifyAppleNotification] leaves behind: the pair
    [decodedPayload], [usedVerifier] (both set or both [null]) and
    [lastError]. *)
Record Attempt : Type := {
  decoded : option (JSValue * SignedDataVerifier);
  lastError : option Error
}.

Section AppleVerifier.
Context {rt : JsRuntime} {fs : FileSystem} {apple : AppleLibrary}.

Definition resolveRootCaDirectory (rootCaDir : string) : string :=
  if isAbsolute rootCaDir then rootCaDir else pathJoin process_cwd rootCaDir.

Definition loadAppleRootCAs (rootCaDir : string) : Result (list string) :=
  let absoluteDir := resolveRootCaDirectory rootCaDir in
  if negb (existsSync absoluteDir)
  then Threw (mkError ("Apple root CA directory not found: " +:+ absoluteDir
                       +:+ ". Add Apple root certificates to this folder."))
  else
    match readdirSync absoluteDir with
    | Threw e => Threw e
    | Ok files =>
        let certFiles := List.filter isCertificateFile files in
        if (length certFiles =? 0)%nat
        then Threw (mkError ("No Apple root certificates found in " +:+ absoluteDir
                             +:+ ". Add .cer/.crt/.pem/.der files."))
        else mapResult (fun file => readFileSync (pathJoin absoluteDir file)) certFiles
    end.

Definition getVerifierCacheKey (config : AppConfig) (bundleId' : string)
    (appAppleId' : Z) : string * Z * bool * string :=
  (bundleId', appAppleId', appleEnableOnlineChecks config,
   resolveRootCaDirectory (appleRootCaDir config)).

Definition createVerifiers (config : AppConfig) (bundleId' : string)
    (appAppleId' : Z) : Result VerifierPair :=
  match loadAppleRootCAs (appleRootCaDir config) with
  | Threw e => Threw e
  | Ok rootCAs =>
      Ok {| production :=
              {| sdv_rootCAs := rootCAs;
                 sdv_enableOnlineChecks := appleEnableOnlineChecks config;
                 sdv_environment := PRODUCTION;
                 sdv_bundleId := bundleId';
                 sdv_appAppleId := Some appAppleId' |};
            sandbox :=
              {| sdv_rootCAs := rootCAs;
                 sdv_enableOnlineChecks := appleEnableOnlineChecks config;
                 sdv_environment := SANDBOX;
                 sdv_bundleId := bundleId';
                 sdv_appAppleId := None |} |}
  end.

Definition getVerifiers (config : AppConfig) (bundleId' : string) (appAppleId' : Z)
    : M World VerifierPair :=
  fun w =>
    let cacheKey := getVerifierCacheKey config bundleId' appAppleId' in
    match verifierCache w !! cacheKey with
    | Some cached => (Ok cached, w)
    | None =>
        match createVerifiers config bundleId' appAppleId' with
        | Threw e => (Threw e, w)
        | Ok created => (Ok created, setVerifierCache (insert cacheKey created) w)
        end
    end.

Definition ensureString (value : JSValue) (field : string) : Result string :=
  match value with
  | VString s =>
      if (String.length s =? 0)%nat
      then Threw (mkError ("Apple payload is missing required field '" +:+ field +:+ "'."))
      else Ok s
  | _ => Threw (mkError ("Apple payload is missing required field '" +:+ field +:+ "'."))
  end.

Definition optionalNonEmptyString (value : JSValue) : option string :=
  match value with
  | VString s =>
      let trimmed := trim s in
      if (0 <? String.length trimmed)%nat then Some trimmed else None
  | _ => None
  end.

Definition ensureNotificationPayload (value : JSValue) : Result JSValue :=
  if negb (truthy value) || negb (typeofObject value)
  then Threw (mkError "Apple notification payload is not an object.")
  else Ok value.

Definition ensureBundleIdMatches (expectedBundleId : option string)
    (bundleId' : string) : Result unit :=
  if truthyString expectedBundleId && negb (optString_eqb expectedBundleId bundleId')
  then Threw (mkError ("Bundle ID mismatch. Expected '"
                       +:+ nullishOr expectedBundleId EmptyString +:+ "' but got '"
                       +:+ bundleId' +:+ "'."))
  else Ok tt.

(** [payload.data && typeof payload.data === "object" ? payload.data :
    undefined]. *)
Definition dataObject (payload : JSValue) : option JSValue :=
  let data := prop payload "data" in
  if truthy data && typeofObject data then Some data else None.

(** [optionalNonEmptyString(payload.field) ??
    optionalNonEmptyString(data?.field)]. *)
Definition topLevelOrNested (payload : JSValue) (field : string) : option string :=
  nullish (optionalNonEmptyString (prop payload field))
          (match dataObject payload with
           | Some data => optionalNonEmptyString (prop data field)
           | None => None
           end).

Definition extractBundleIdFromSignedPayload (signedPayload : string) : option string :=
  let parts := splitDot signedPayload in
  match parts with
  | _ :: part1 :: _ =>
      let payloadJson := base64urlToUtf8 part1 in
      match JSON_parse payloadJson with
      | None | Some VNull => None
      | Some payload => topLevelOrNested payload "bundleId"
      end
  | _ => None
  end.

Definition decodeTransactionInfo (verifier : SignedDataVerifier)
    (signedTransactionInfo' : option string)
    : Result (option DecodedTransactionInfo) :=
  if negb (truthyString signedTransactionInfo') then Ok None
  else
    match verifyAndDecodeTransaction verifier (nullishOr signedTransactionInfo' EmptyString) with
    | Threw e => Threw e
    | Ok VNull =>
        Threw (mkError "Cannot read properties of null (reading 'price')")
    | Ok VUndefined =>
        Threw (mkError "Cannot read properties of undefined (reading 'price')")
    | Ok decoded' =>
        let price' :=
          match prop decoded' "price" with
          | VNumber n => Some n
          | VString s => Some (Number_ofString s)
          | _ => None
          end in
        let stringField (name : string) :=
          match prop decoded' name with
          | VString s => Some s
          | _ => None
          end in
        Ok (Some {| productId := stringField "productId";
                    transactionId := stringField "transactionId";
                    price := match price' with
                             | Some (Finite z) => Some (Finite z)
                             | _ => None
                             end;
                    currency := stringField "currency";
                    originalTransactionId := None;
                    purchaseDate := None;
                    originalPurchaseDate := None;
                    offerDiscountType := None;
                    transactionReason := None |})
    end.

(** The inner loop [for (const verifier of [production, sandbox])]: the
    first verifier that verifies and decodes to an object ends the loop;
    a verifier that throws leaves its error in [lastError]. *)
Fixpoint tryVerifiers (verifiers : list SignedDataVerifier) (signedPayload : string)
    (lastError' : option Error) : Attempt :=
  match verifiers with
  | [] => {| decoded := None; lastError := lastError' |}
  | verifier :: rest =>
      match verifyAndDecodeNotification verifier signedPayload with
      | Threw error => tryVerifiers rest signedPayload (Some error)
      | Ok raw =>
          match ensureNotificationPayload raw with
          | Threw error => tryVerifiers rest signedPayload (Some error)
          | Ok decodedPayload =>
              {| decoded := Some (decodedPayload, verifier); lastError := lastError' |}
          end
      end
  end.

(** The rest of the outer loop's body once a verifier has succeeded: the
    checks on the decoded payload and the construction of the result. *)
Definition buildVerifiedNotification (app : AppleAppConfig) (decodedPayload : JSValue)
    (usedVerifier : SignedDataVerifier) : Result VerifiedNotification :=
  match ensureString (prop decodedPayload "notificationUUID") "notificationUUID" with
  | Threw e => Threw e
  | Ok notificationUUID' =>
  match ensureString (prop decodedPayload "notificationType") "notificationType" with
  | Threw e => Threw e
  | Ok notificationType' =>
  let data := dataObject decodedPayload in
  match topLevelOrNested decodedPayload "bundleId" with
  | None =>
      Threw (mkError "Apple payload is missing required field 'bundleId' (expected at payload.bundleId or payload.data.bundleId).")
  | Some bundleId' =>
  match ensureBundleIdMatches (app_bundleId app) bundleId' with
  | Threw e => Threw e
  | Ok _ =>
  let signedTransactionInfo' :=
    match data with
    | Some data' =>
        match prop data' "signedTransactionInfo" with
        | VString s => Some s
        | _ => None
        end
    | None => None
    end in
  match decodeTransactionInfo usedVerifier signedTransactionInfo' with
  | Threw e => Threw e
  | Ok transactionInfo' =>
      Ok {| notificationUUID := notificationUUID';
            notificationType := notificationType';
            subtype := match prop decodedPayload "subtype" with
                       | VString s => Some s
                       | _ => None
                       end;
            environment :=
              nullishOr (topLevelOrNested decodedPayload "environment") "UNKNOWN";
            bundleId := bundleId';
            appAppleId := app_appAppleId app;
            pushoverUserKey := app_pushoverUserKey app;
            pushoverDevice := app_pushoverDevice app;
            signedTransactionInfo := signedTransactionInfo';
            transactionInfo := transactionInfo' |}
  end end end end end.

(** The outer loop [for (const app of config.appleApps)], with [lastError]
    as its accumulator, followed by the final [throw]. *)
Fixpoint verifyLoop (apps : list AppleAppConfig) (signedPayload : string)
    (config : AppConfig) (lastError' : option Error) : M World VerifiedNotification :=
  match apps with
  | [] =>
      throw (nullishOr lastError' (mkError "Unable to verify Apple signed payload."))
  | app :: rest =>
      let bundleIdForVerifier :=
        nullish (app_bundleId app) (extractBundleIdFromSignedPayload signedPayload) in
      if negb (truthyString bundleIdForVerifier)
      then verifyLoop rest signedPayload config
             (Some (mkError "Could not determine bundleId for verification. Set APPLE_BUNDLE_ID or provide bundleId in APPLE_APPS_JSON."))
      else
        (verifiers <- getVerifiers config (nullishOr bundleIdForVerifier EmptyString)
                        (app_appAppleId app) ;;
         let attempt := tryVerifiers [production verifiers; sandbox verifiers]
                          signedPayload lastError' in
         match decoded attempt with
         | None => verifyLoop rest signedPayload config (lastError attempt)
         | Some (decodedPayload, usedVerifier) =>
             liftResult (buildVerifiedNotification app decodedPayload usedVerifier)
         end)%M
  end.

Definition verifyAppleNotification (signedPayload : string) (config : AppConfig)
    : M World VerifiedNotification :=
  verifyLoop (appleApps config) signedPayload config None.

End AppleVerifier.

(** ** webhookHandler.ts *)

Record WebhookRequest : Type := {
  method : option string;
  body : JSValue;
  query : option (list (string * JSValue))
}.

(** The response object handed to the handler.  Its [status] and [json]
    are always there; [setHeader] is optional, and the handler calls it as
    [response.setHeader?.(...)]. *)
Class ResponseObject : Type := {
  hasSetHeader : bool
}.

(** What the handler leaves in the response object: the headers it set, the
    status code and the JSON body. *)
Record WebhookResponse : Type := {
  headers : list (string * string);
  statusCode : Z;
  jsonBody : list (string * JSValue)
}.

Record LogPayload : Type := {
  log_action : string;
  log_notificationUUID : option string;
  log_notificationType : option string;
  log_environment : option string;
  log_error : option string
}.

Record WebhookDependencies (S : Type) : Type := {
  deps_loadConfig : M S AppConfig;
  deps_verifyNotification : string -> AppConfig -> M S VerifiedNotification;
  deps_markNotificationAsNew : string -> AppConfig -> M S bool;
  deps_sendPushover :
    AppConfig -> string -> string -> option PushoverTarget -> M S unit;
  deps_log : LogPayload -> M S unit
}.
Arguments deps_loadConfig {S} _.
Arguments deps_verifyNotification {S} _ _ _.
Arguments deps_markNotificationAsNew {S} _ _ _.
Arguments deps_sendPushover {S} _ _ _ _ _.
Arguments deps_log {S} _ _.

Definition optionalLogField (name : string) (value : option string)
    : list (string * JSValue) :=
  match value with Some v => [(name, VString v)] | None => [] end.

Definition logPayloadToJS (payload : LogPayload) : JSValue :=
  VObject ([("action", VString (log_action payload))]
           ++ optionalLogField "notificationUUID" (log_notificationUUID payload)
           ++ optionalLogField "notificationType" (log_notificationType payload)
           ++ optionalLogField "environment" (log_environment payload)
           ++ optionalLogField "error" (log_error payload)).

Definition readQueryParam (query' : option (list (string * JSValue))) (key : string)
    : option string :=
  match query' with
  | None => None
  | Some fields =>
      match assoc key fields with
      | VString value => Some value
      | VArray (VString first :: _) => Some first
      | _ => None
      end
  end.

(** The message of the error a handler logs: [error.message]. *)
Definition errorMessage (error : Error) : string := message error.

Definition buildLogPayload (action' : string) (verified : VerifiedNotification)
    (error : option Error) : LogPayload :=
  {| log_action := action';
     log_notificationUUID := Some (notificationUUID verified);
     log_notificationType := Some (notificationType verified);
     log_environment := Some (environment verified);
     log_error := option_map errorMessage error |}.

(** [responseJson(response, statusCode, body)], on the response object on
    which the handler began with [response.setHeader?.("Cache-Control",
    "no-store")]: the header is there when the object has [setHeader]. *)
Definition responseJson {responseObject : ResponseObject} (statusCode' : Z)
    (body' : list (string * JSValue)) : WebhookResponse :=
  {| headers := if hasSetHeader then [("Cache-Control", "no-store")] else [];
     statusCode := statusCode';
     jsonBody := body' |}.

Definition errorBody (code : string) : list (string * JSValue) :=
  [("ok", VBool false); ("error", VString code)].

Section WebhookHandler.
Context {rt : JsRuntime} {responseObject : ResponseObject}.

(** [getSignedPayload]: a string body is parsed and looked at again.  The
    recursion is on [fuel]; [getSignedPayload] starts it with more fuel than
    nested string bodies can use up. *)
Fixpoint getSignedPayloadFuel (fuel : nat) (body' : JSValue) : option string :=
  match body' with
  | VString text =>
      match fuel with
      | O => None
      | S fuel' =>
          match JSON_parse text with
          | None => None
          | Some parsed => getSignedPayloadFuel fuel' parsed
          end
      end
  | VObject fields =>
      match assoc "signedPayload" fields with
      | VString payload =>
          if (0 <? String.length (trim payload))%nat then Some payload else None
      | _ => None
      end
  | _ => None
  end.

Definition getSignedPayload (body' : JSValue) : option string :=
  match body' with
  | VString text => getSignedPayloadFuel (S (String.length text)) body'
  | _ => getSignedPayloadFuel 0 body'
  end.

Definition toPushable (eventAction : ClassifiedAction) : MessageBuilder.PushableAction :=
  match eventAction with
  | PURCHASE => MessageBuilder.PUSH_PURCHASE
  | _ => MessageBuilder.PUSH_REFUND
  end.

(** The argument of [buildPushoverMessage] in the handler. *)
Definition messageInputOf (eventAction : ClassifiedAction)
    (verified : VerifiedNotification) : MessageBuilder.MessageInput :=
  {| MessageBuilder.action := toPushable eventAction;
     MessageBuilder.appBundleId := bundleId verified;
     MessageBuilder.in_notificationType := notificationType verified;
     MessageBuilder.in_environment := environment verified;
     MessageBuilder.in_productId := txField (transactionInfo verified) productId;
     MessageBuilder.in_transactionId := txField (transactionInfo verified) transactionId;
     MessageBuilder.in_price := txField (transactionInfo verified) price;
     MessageBuilder.in_currency := txField (transactionInfo verified) currency |}.

(** The handler from [const eventAction = ...] to its end: what is done
    with a verified notification. *)
Definition handleVerified {S} (deps : WebhookDependencies S) (config : AppConfig)
    (verified : VerifiedNotification) : M S WebhookResponse :=
  let eventAction := classifyNotificationType (notificationType verified) in
  match eventAction with
  | IGNORE =>
      (deps_log deps (buildLogPayload "ignored" verified None) ;;;
       ret (responseJson 200 [("ok", VBool true); ("ignored", VBool true)]))%M
  | _ =>
      tryCatch
        (isNew <- deps_markNotificationAsNew deps (notificationUUID verified) config ;;
         if negb isNew
         then
           deps_log deps (buildLogPayload "deduped" verified None) ;;;
           ret (responseJson 200 [("ok", VBool true); ("deduped", VBool true)])
         else
           let message' :=
             MessageBuilder.buildPushoverMessage (messageInputOf eventAction verified) in
           deps_sendPushover deps config (MessageBuilder.title message')
             (MessageBuilder.message message')
             (Some {| userKey := Some (pushoverUserKey verified);
                      device := pushoverDevice verified |}) ;;;
           deps_log deps (buildLogPayload "pushed" verified None) ;;;
           ret (responseJson 200 [("ok", VBool true)]))%M
        (fun error =>
           deps_log deps (buildLogPayload "error" verified (Some error)) ;;;
           ret (responseJson 500 (errorBody "internal_error")))%M
  end.

Definition webhookHandler {S} (deps : WebhookDependencies S)
    (request : WebhookRequest) : M S WebhookResponse :=
  if negb (optString_eqb (method request) "POST")
  then ret (responseJson 405 (errorBody "method_not_allowed"))
  else
    (loaded <-
       tryCatch
         (config <- deps_loadConfig deps ;; ret (Some config))
         (fun error =>
            deps_log deps {| log_action := "error";
                             log_notificationUUID := None;
                             log_notificationType := None;
                             log_environment := None;
                             log_error := Some (errorMessage error) |} ;;;
            ret None) ;;
     match loaded with
     | None => ret (responseJson 500 (errorBody "invalid_configuration"))
     | Some config =>
     let secretFromPath := readQueryParam (query request) "secret" in
     if negb (optString_eqb secretFromPath (webhookSecret config))
     then ret (responseJson 404 (errorBody "not_found"))
     else
     match getSignedPayload (body request) with
     | None => ret (responseJson 400 (errorBody "invalid_payload"))
     | Some signedPayload =>
     verification <-
       tryCatch
         (verified <- deps_verifyNotification deps signedPayload config ;;
          ret (Some verified))
         (fun error =>
            deps_log deps {| log_action := "error";
                             log_notificationUUID := None;
                             log_notificationType := None;
                             log_environment := None;
                             log_error := Some (errorMessage error) |} ;;;
            ret None) ;;
     match verification with
     | None => ret (responseJson 400 (errorBody "invalid_signature"))
     | Some verified => handleVerified deps config verified
     end
     end
     end)%M.

End WebhookHandler.

(** *** The default dependencies *)

Section DefaultDependencies.
Context {rt : JsRuntime} {zod : Zod} {fs : FileSystem} {apple : AppleLibrary}
        {responseObject : ResponseObject}.

Definition defaultDependencies : WebhookDependencies World :=
  {| deps_loadConfig :=
       fun w => match processEnv w with
                | Threw e => (Threw e, w)
                | Ok parsed => (loadConfig parsed, w)
                end;
     deps_verifyNotification := verifyAppleNotification;
     deps_markNotificationAsNew := DedupeStore.markNotificationAsNew;
     deps_sendPushover := sendPushoverNotification;
     deps_log :=
       fun payload w =>
         (Ok tt, consoleLog (JSON_stringify (logPayloadToJS payload)) w) |}.

(** [Partial<WebhookDependencies>]. *)
Record Overrides : Type := {
  over_loadConfig : option (M World AppConfig);
  over_verifyNotification :
    option (string -> AppConfig -> M World VerifiedNotification);
  over_markNotificationAsNew : option (string -> AppConfig -> M World bool);
  over_sendPushover :
    option (AppConfig -> string -> string -> option PushoverTarget -> M World unit);
  over_log : option (LogPayload -> M World unit)
}.

Definition noOverrides : Overrides :=
  {| over_loadConfig := None; over_verifyNotification := None;
     over_markNotificationAsNew := None; over_sendPushover := None;
     over_log := None |}.

(** [{ ...defaultDependencies, ...overrides }]. *)
Definition mergeDependencies (overrides : Overrides) : WebhookDependencies World :=
  {| deps_loadConfig :=
       nullishOr (over_loadConfig overrides) (deps_loadConfig defaultDependencies);
     deps_verifyNotification :=
       nullishOr (over_verifyNotification overrides)
                 (deps_verifyNotification defaultDependencies);
     deps_markNotificationAsNew :=
       nullishOr (over_markNotificationAsNew overrides)
                 (deps_markNotificationAsNew defaultDependencies);
     deps_sendPushover :=
       nullishOr (over_sendPushover overrides) (deps_sendPushover defaultDependencies);
     deps_log := nullishOr (over_log overrides) (deps_log defaultDependencies) |}.

Definition createWebhookHandler (overrides : Overrides)
    : WebhookRequest -> M World WebhookResponse :=
  webhookHandler (mergeDependencies overrides).

End DefaultDependencies.

(** *** Observing the calls

    The tests replace dependencies by recording doubles and count their
    calls.  [spy] wraps every dependency so that it appends its call to a
    list kept beside the state and otherwise behaves as before. *)

Inductive Call : Type :=
| CalledLoadConfig
| CalledVerifyNotification (signedPayload : string)
| CalledMarkNotificationAsNew (notificationUUID' : string)
| CalledSendPushover (title' message' : string) (target : option PushoverTarget)
| CalledLog (payload : LogPayload).

Definition spied {S A} (call : Call) (m : M S A) : M (list Call * S) A :=
  fun st => let '(r, s') := m (snd st) in (r, ((fst st ++ [call])%list, s')).

Definition spy {S} (deps : WebhookDependencies S) : WebhookDependencies (list Call * S) :=
  {| deps_loadConfig := spied CalledLoadConfig (deps_loadConfig deps);
     deps_verifyNotification :=
       fun signedPayload config =>
         spied (CalledVerifyNotification signedPayload)
               (deps_verifyNotification deps signedPayload config);
     deps_markNotificationAsNew :=
       fun uuid config =>
         spied (CalledMarkNotificationAsNew uuid)
               (deps_markNotificationAsNew deps uuid config);
     deps_sendPushover :=
       fun config title' message' target =>
         spied (CalledSendPushover title' message' target)
               (deps_sendPushover deps config title' message' target);
     deps_log := fun payload => spied (CalledLog payload) (deps_log deps payload) |}.

Definition isPushCall (c : Call) : bool :=
  match c with CalledSendPushover _ _ _ => true | _ => false end.

Definition isDedupCall (c : Call) : bool :=
  match c with CalledMarkNotificationAsNew _ => true | _ => false end.

Definition pushCalls (calls : list Call) : list Call := List.filter isPushCall calls.

Definition dedupCalls (calls : list Call) : list Call := List.filter isDedupCall calls.

(** ** Specification vocabulary for the verifier resolver *)

Section ResolverVocabulary.
Context {rt : JsRuntime} {fs : FileSystem} {apple : AppleLibrary}.

(** The envelope verifies and decodes under [verifier]: the body of the
    [try] in the inner loop completes, with this decoded payload. *)
Definition verifiesUnder (verifier : SignedDataVerifier) (signedPayload : string)
    : option JSValue :=
  match verifyAndDecodeNotification verifier signedPayload with
  | Threw _ => None
  | Ok raw =>
      match ensureNotificationPayload raw with
      | Threw _ => None
      | Ok decodedPayload => Some decodedPayload
      end
  end.

(** The bundle id the resolver builds a tenant's verifiers for. *)
Definition candidateBundleId (app : AppleAppConfig) (signedPayload : string)
    : option string :=
  nullish (app_bundleId app) (extractBundleIdFromSignedPayload signedPayload).

(** The resolver passes over every tenant of [apps]: each one either has no
    candidate bundle id or has verifiers under neither of which the envelope
    verifies.  The relation threads [lastError] and the world (the verifier
    cache grows) from before the first of them to after the last. *)
Inductive passesOver (config : AppConfig) (signedPayload : string)
    : list AppleAppConfig -> option Error -> World -> option Error -> World -> Prop :=
| passes_none (lastError' : option Error) (w : World) :
    passesOver config signedPayload [] lastError' w lastError' w
| passes_no_candidate (app : AppleAppConfig) (rest : list AppleAppConfig)
    (lastError0 lastError1 : option Error) (w w1 : World) :
    truthyString (candidateBundleId app signedPayload) = false ->
    passesOver config signedPayload rest
      (Some (mkError "Could not determine bundleId for verification. Set APPLE_BUNDLE_ID or provide bundleId in APPLE_APPS_JSON."))
      w lastError1 w1 ->
    passesOver config signedPayload (app :: rest) lastError0 w lastError1 w1
| passes_unverified (app : AppleAppConfig) (rest : list AppleAppConfig)
    (lastError0 lastError1 : option Error) (w w0 w1 : World)
    (verifiers : VerifierPair) :
    truthyString (candidateBundleId app signedPayload) = true ->
    getVerifiers config (nullishOr (candidateBundleId app signedPayload) EmptyString)
      (app_appAppleId app) w = (Ok verifiers, w0) ->
    decoded (tryVerifiers [production verifiers; sandbox verifiers]
               signedPayload lastError0) = None ->
    passesOver config signedPayload rest
      (lastError (tryVerifiers [production verifiers; sandbox verifiers]
                    signedPayload lastError0))
      w0 lastError1 w1 ->
    passesOver config signedPayload (app :: rest) lastError0 w lastError1 w1.

(** What [SignedDataVerifier] does with the bundle id it was constructed
    with: it accepts only envelopes signed for that bundle id.  Hence one
    envelope is accepted by verifiers of one bundle id only. *)
Definition oneBundlePerEnvelope : Prop :=
  forall (verifier verifier' : SignedDataVerifier) (signedPayload : string)
         (raw raw' : JSValue),
    verifyAndDecodeNotification verifier signedPayload = Ok raw ->
    verifyAndDecodeNotification verifier' signedPayload = Ok raw' ->
    sdv_bundleId verifier = sdv_bundleId verifier'.

(** The invariant of the module-level cache: the pair kept under a key was
    constructed with the bundle id of that key, as [getVerifiers] does. *)
Definition verifierCacheCoherent (w : World) : Prop :=
  forall (bundleId' : string) (appAppleId' : Z) (online : bool) (dir : string)
         (pair : VerifierPair),
    verifierCache w !! (bundleId', appAppleId', online, dir) = Some pair ->
    sdv_bundleId (production pair) = bundleId' /\
    sdv_bundleId (sandbox pair) = bundleId'.

(** Verifier fallback as the specification words it: whenever
    production verification fails for a tenant and sandbox verification
    succeeds, [verifyAppleNotification] returns a notification. *)
Definition sandboxFallbackAlwaysReturns : Prop :=
  forall (config : AppConfig) (signedPayload : string) (app : AppleAppConfig)
         (b : string) (w w' : World) (verifiers : VerifierPair)
         (decodedPayload : JSValue),
    In app (appleApps config) ->
    candidateBundleId app signedPayload = Some b ->
    nonEmpty b = true ->
    getVerifiers config b (app_appAppleId app) w = (Ok verifiers, w') ->
    verifiesUnder (production verifiers) signedPayload = None ->
    verifiesUnder (sandbox verifiers) signedPayload = Some decodedPayload ->
    isOk (verifyAppleNotification signedPayload config w).1 = true.

End ResolverVocabulary.

(** *** Terminal outcomes

    The responses with which the handler ends once a notification is
    decoded, under the names the specification gives them. *)

Section TerminalOutcomes.
Context {responseObject : ResponseObject}.

Definition PUSHED : WebhookResponse := responseJson 200 [("ok", VBool true)].

Definition DEDUPED : WebhookResponse :=
  responseJson 200 [("ok", VBool true); ("deduped", VBool true)].

Definition IGNORED : WebhookResponse :=
  responseJson 200 [("ok", VBool true); ("ignored", VBool true)].

Definition INFRA_ERROR : WebhookResponse :=
  responseJson 500 (errorBody "internal_error").

End TerminalOutcomes.

(** The request passes the method and secret checks, carries a signed
    payload, and the payload decodes: the steps of the handler up to and
    including [deps.verifyNotification] go through, from state [s0] to
    state [s2]. *)
Definition decodesSuccessfully {rt : JsRuntime} {S} (deps : WebhookDependencies S)
    (request : WebhookRequest) (s0 : S)
    (config : AppConfig) (signedPayload : string)
    (verified : VerifiedNotification) (s2 : S) : Prop :=
  method request = Some "POST" /\
  exists s1 : S,
    deps_loadConfig deps s0 = (Ok config, s1) /\
    readQueryParam (query request) "secret" = Some (webhookSecret config) /\
    getSignedPayload (body request) = Some signedPayload /\
    deps_verifyNotification deps signedPayload config s1 = (Ok verified, s2).

(** The push channel accepts a message: [fetch] resolves with a 2xx
    status. *)
Definition pushoverAccepts (w : World) : bool :=
  match pushoverUnreachable w with
  | Some _ => false
  | None => (200 <=? pushoverStatus w) && (pushoverStatus w <=? 299)
  end.

(** The message the handler sends for a verified notification. *)
Definition pushMessageOf {rt : JsRuntime} (verified : VerifiedNotification)
    : MessageBuilder.PushoverMessage :=
  MessageBuilder.buildPushoverMessage
    (messageInputOf (classifyNotificationType (notificationType verified)) verified).

(** The target the handler passes with it. *)
Definition pushTargetOf (verified : VerifiedNotification) : option PushoverTarget :=
  Some {| userKey := Some (pushoverUserKey verified);
          device := pushoverDevice verified |}.

(** ** Specification vocabulary for the lifecycle hint *)

Module LifecycleSpec.
Import SubscriptionStateStore.

(** The prior state shows a free trial was seen with zero renewals
    recorded. *)
Definition trialSeenWithoutRenewal (previousState : option SubscriptionState) : Prop :=
  exists st, previousState = Some st /\ sawFreeTrial st = true /\ didRenewCount st = 0.

(** Both dates are present and finite, and the purchase date lies between
    5 and 14 whole days (inclusive) after the original purchase date. *)
Definition purchaseGapFrom5To14Days
    (transactionInfo' : option DecodedTransactionInfo) : Prop :=
  exists p o,
    txField transactionInfo' purchaseDate = Some (Finite p) /\
    txField transactionInfo' originalPurchaseDate = Some (Finite o) /\
    0 < p - o /\
    5 * ONE_DAY_IN_MS <= p - o <= 14 * ONE_DAY_IN_MS.

Definition trialSubscribe (notificationType' : string)
    (transactionInfo' : option DecodedTransactionInfo) : Prop :=
  notificationType' = "SUBSCRIBED" /\
  txField transactionInfo' offerDiscountType = Some "FREE_TRIAL".

(** The rule for the hint, case by case. *)
Inductive hintRule (notificationType' : string)
    (transactionInfo' : option DecodedTransactionInfo)
    (previousState : option SubscriptionState)
    : option SubscriptionLifecycleHint -> Prop :=
| rule_trial_start :
    trialSubscribe notificationType' transactionInfo' ->
    hintRule notificationType' transactionInfo' previousState (Some TRIAL_START)
| rule_first_paid :
    ~ trialSubscribe notificationType' transactionInfo' ->
    notificationType' = "DID_RENEW" ->
    trialSeenWithoutRenewal previousState \/ purchaseGapFrom5To14Days transactionInfo' ->
    hintRule notificationType' transactionInfo' previousState (Some FIRST_PAID_AFTER_TRIAL)
| rule_renewal :
    ~ trialSubscribe notificationType' transactionInfo' ->
    notificationType' = "DID_RENEW" ->
    ~ (trialSeenWithoutRenewal previousState \/ purchaseGapFrom5To14Days transactionInfo') ->
    hintRule notificationType' transactionInfo' previousState (Some RENEWAL)
| rule_no_hint :
    ~ trialSubscribe notificationType' transactionInfo' ->
    notificationType' <> "DID_RENEW" ->
    hintRule notificationType' transactionInfo' previousState None.


(** The states the store module writes, beginning with a subscription of
    which nothing is stored. *)
Inductive writtenByStore : SubscriptionState -> Prop :=
| written_first (notificationType' : string)
    (transactionInfo' : option DecodedTransactionInfo)
    (lifecycleHint : option SubscriptionLifecycleHint) (now' : Z) :
    writtenByStore (nextState notificationType' transactionInfo' None lifecycleHint now')
| written_next (notificationType' : string)
    (transactionInfo' : option DecodedTransactionInfo)
    (previous : SubscriptionState)
    (lifecycleHint : option SubscriptionLifecycleHint) (now' : Z) :
    writtenByStore previous ->
    writtenByStore (nextState notificationType' transactionInfo' (Some previous)
                      lifecycleHint now').

End LifecycleSpec.

(** ** Specification vocabulary for the dedup ledger *)

(** The dedup key as the specification words it: the ledger key is
    [notification:] followed by the id. *)
Definition dedupeKeyIsNotificationPrefix : Prop :=
  forall u : string, DedupeStore.getDedupeKey u = "notification:" +:+ u.

(** ** Fixtures

    Concrete libraries, configurations, worlds and requests, after the
    fixtures of [tests/webhook.test.ts] and
    [tests/subscriptionStateStore.test.ts]. *)

Module Fixtures.

(** A serializer for the values that occur here (no escaping). *)
Fixpoint plainStringify (v : JSValue) : string :=
  match v with
  | VUndefined => "undefined"
  | VNull => "null"
  | VBool true => "true"
  | VBool false => "false"
  | VNumber (Finite z) => Z_toString z
  | VNumber _ => "null"
  | VString s => "'" +:+ s +:+ "'"
  | VArray items => "[" +:+ join "," (map plainStringify items) +:+ "]"
  | VObject fields =>
      "{" +:+ join "," (map (fun kv => "'" +:+ fst kv +:+ "':" +:+ plainStringify (snd kv))
                            fields) +:+ "}"
  end.

(** A runtime in which request bodies and stored values arrive as objects:
    no JSON text is parsed. *)
(** The digits of an integer and the names of the other numbers. *)
Definition plainNumber (n : number) : string :=
  match n with
  | Finite z => Z_toString z
  | NaN => "NaN"
  | Infinity => "Infinity"
  | NegInfinity => "-Infinity"
  end.

Program Definition objectRuntime : JsRuntime :=
  {| JSON_parse := fun _ => None;
     JSON_stringify := plainStringify;
     Number_ofString := fun _ => NaN;
     Number_toString := plainNumber;
     formatMilliunits := formatThousandths;
     base64urlToUtf8 := fun s => s |}.
Next Obligation. discriminate. Qed.
Next Obligation. reflexivity. Qed.
Next Obligation. reflexivity. Qed.

(** [createResponse()] of the tests: a response object with [setHeader]. *)
Definition mockResponse : ResponseObject := {| hasSetHeader := true |}.

Definition noAppsSchema : Zod :=
  {| zodAppleApps := fun _ => Threw (mkError "APPLE_APPS_JSON is not used") |}.

(** A project directory with one root certificate under [certs/apple]. *)
Definition projectFiles : FileSystem :=
  {| existsSync := fun dir => String.eqb dir "/var/task/certs/apple";
     readdirSync := fun _ => Ok ["AppleRootCA-G3.cer"; "README.md"];
     readFileSync := fun _ => Ok "der";
     isAbsolute := fun dir => String.prefix "/" dir;
     pathJoin := fun a b => a +:+ "/" +:+ b;
     process_cwd := "/var/task" |}.

(** A decoded notification payload for [bundle]. *)
Definition payloadOf (uuid type bundle : string) : JSValue :=
  VObject [("notificationType", VString type);
           ("notificationUUID", VString uuid);
           ("data", VObject [("bundleId", VString bundle);
                             ("environment", VString "Sandbox")])].

(** A library whose sandbox verifiers for [bundle] accept every envelope
    and decode it to [payload], and whose other verifiers reject. *)
Definition sandboxOnly (bundle : string) (payload : JSValue) : AppleLibrary :=
  {| verifyAndDecodeNotification :=
       fun verifier _ =>
         match sdv_environment verifier with
         | SANDBOX =>
             if String.eqb (sdv_bundleId verifier) bundle then Ok payload
             else Threw (mkError "INVALID_APP_IDENTIFIER")
         | PRODUCTION => Threw (mkError "INVALID_ENVIRONMENT")
         end;
     verifyAndDecodeTransaction :=
       fun _ _ => Threw (mkError "VERIFICATION_FAILURE") |}.

Definition tenant (bundle : string) (appId : Z) : AppleAppConfig :=
  {| app_bundleId := Some bundle;
     app_appAppleId := appId;
     app_pushoverUserKey := "pushover-user-key";
     app_pushoverDevice := None |}.

Definition environmentVariables : ParsedEnv :=
  {| WEBHOOK_SECRET := "super-secret";
     PUSHOVER_APP_TOKEN := "pushover-app-token";
     PUSHOVER_USER_KEY := "pushover-user-key";
     PUSHOVER_DEVICE := None;
     APPLE_BUNDLE_ID := Some "com.example.app";
     APPLE_APP_ID := Some 1234567890;
     APPLE_APPS_JSON := None;
     APPLE_ENABLE_ONLINE_CHECKS := false;
     APPLE_ROOT_CA_DIR := "certs/apple";
     KV_REST_API_URL := "https://example.upstash.io";
     KV_REST_API_TOKEN := "upstash-token" |}.

(** [createConfig()] of the tests, with [apps] as tenants. *)
Definition configWith (apps : list AppleAppConfig) : AppConfig :=
  {| webhookSecret := "super-secret";
     pushoverAppToken := "pushover-app-token";
     defaultPushoverUserKey := "pushover-user-key";
     defaultPushoverDevice := None;
     appleApps := apps;
     appleEnableOnlineChecks := false;
     appleRootCaDir := "certs/apple";
     kvRestApiUrl := "https://example.upstash.io";
     kvRestApiToken := "upstash-token";
     dedupeTtlSeconds := 2592000 |}.

Definition createConfig : AppConfig :=
  configWith [tenant "com.example.app" 1234567890].

(** A world with an empty store, a reachable push channel answering with
    [status], and the environment above. *)
Definition worldAt (instant status : Z) : World :=
  {| now := instant;
     processEnv := Ok environmentVariables;
     kv := ∅;
     kvFailure := None;
     dedupeClient := None;
     subscriptionClient := None;
     verifierCache := ∅;
     pushoverUnreachable := None;
     pushoverStatus := status;
     pushoverBody := "{}";
     pushoverInbox := [];
     console := [] |}.

Definition atInstant (instant : Z) (w : World) : World :=
  {| now := instant;
     processEnv := processEnv w;
     kv := kv w;
     kvFailure := kvFailure w;
     dedupeClient := dedupeClient w;
     subscriptionClient := subscriptionClient w;
     verifierCache := verifierCache w;
     pushoverUnreachable := pushoverUnreachable w;
     pushoverStatus := pushoverStatus w;
     pushoverBody := pushoverBody w;
     pushoverInbox := pushoverInbox w;
     console := console w |}.

(** The request of the tests: a POST with the secret and a signed payload. *)
Definition postRequest : WebhookRequest :=
  {| method := Some "POST";
     body := VObject [("signedPayload", VString "jws-data")];
     query := Some [("secret", VString "super-secret")] |}.

(** The test doubles of [invokeHandler]: the dependencies resolve to fixed
    values and keep no state. *)
Definition doubles (verified : VerifiedNotification) (isNew : Result bool)
    (sent : Result unit) : WebhookDependencies unit :=
  {| deps_loadConfig := ret createConfig;
     deps_verifyNotification := fun _ _ => ret verified;
     deps_markNotificationAsNew := fun _ _ => liftResult isNew;
     deps_sendPushover := fun _ _ _ _ => liftResult sent;
     deps_log := fun _ => ret tt |}.

(** The notification of the test "sends one push for a valid purchase
    event". *)
Definition subscribedNotification : VerifiedNotification :=
  {| notificationUUID := "uuid-1";
     notificationType := "SUBSCRIBED";
     subtype := None;
     environment := "Sandbox";
     bundleId := "com.example.app";
     appAppleId := 1234567890;
     pushoverUserKey := "pushover-user-key";
     pushoverDevice := None;
     signedTransactionInfo := None;
     transactionInfo :=
       Some {| productId := Some "pro_monthly";
               transactionId := Some "1000001234567890";
               price := None; currency := None;
               originalTransactionId := None;
               purchaseDate := None; originalPurchaseDate := None;
               offerDiscountType := None; transactionReason := None |} |}.

(** The notification of the test "includes lifecycle details for trial to
    paid renewals". *)
Definition renewalNotification : VerifiedNotification :=
  {| notificationUUID := "uuid-renew";
     notificationType := "DID_RENEW";
     subtype := Some "BILLING_RECOVERY";
     environment := "Production";
     bundleId := "com.example.app";
     appAppleId := 1234567890;
     pushoverUserKey := "pushover-user-key";
     pushoverDevice := None;
     signedTransactionInfo := None;
     transactionInfo :=
       Some {| productId := Some "pro_yearly";
               transactionId := Some "1000001111222233";
               price := None; currency := None;
               originalTransactionId := None;
               purchaseDate := None; originalPurchaseDate := None;
               offerDiscountType := Some "FREE_TRIAL";
               transactionReason := Some "RENEWAL" |} |}.

(** The input of the test "formats Apple milliunit price values into major
    currency units", and the same input without a price. *)
Definition pricedInput : MessageBuilder.MessageInput :=
  {| MessageBuilder.action := MessageBuilder.PUSH_PURCHASE;
     MessageBuilder.appBundleId := "com.example.app";
     MessageBuilder.in_notificationType := "DID_RENEW";
     MessageBuilder.in_environment := "Production";
     MessageBuilder.in_productId := Some "com.example.yearly";
     MessageBuilder.in_transactionId := Some "1000001234567890";
     MessageBuilder.in_price := Some (Finite 29990);
     MessageBuilder.in_currency := Some "EUR" |}.

Definition unpricedInput : MessageBuilder.MessageInput :=
  {| MessageBuilder.action := MessageBuilder.PUSH_PURCHASE;
     MessageBuilder.appBundleId := "com.example.app";
     MessageBuilder.in_notificationType := "DID_RENEW";
     MessageBuilder.in_environment := "Production";
     MessageBuilder.in_productId := Some "com.example.yearly";
     MessageBuilder.in_transactionId := Some "1000001234567890";
     MessageBuilder.in_price := None;
     MessageBuilder.in_currency := None |}.

(** The same two inputs for the revised builder. *)
Definition revisedInput (price' : option number) (currency' : option string)
    : MessageBuilderRevised.MessageInput :=
  {| MessageBuilderRevised.action := MessageBuilder.PUSH_PURCHASE;
     MessageBuilderRevised.appBundleId := "com.example.app";
     MessageBuilderRevised.in_notificationType := "DID_RENEW";
     MessageBuilderRevised.in_subtype := None;
     MessageBuilderRevised.in_environment := "Production";
     MessageBuilderRevised.in_productId := Some "com.example.yearly";
     MessageBuilderRevised.in_transactionId := Some "1000001234567890";
     MessageBuilderRevised.in_transactionReason := None;
     MessageBuilderRevised.in_offerDiscountType := None;
     MessageBuilderRevised.subscriptionLifecycle := None;
     MessageBuilderRevised.in_price := price';
     MessageBuilderRevised.in_currency := currency' |}.

(** A stored subscription state, as the store's client hands it back: a
    trial was seen and no renewal yet. *)
Definition storedTrialState : JSValue :=
  VObject [("sawFreeTrial", VBool true);
           ("didRenewCount", VNumber (Finite 0));
           ("notificationCount", VNumber (Finite 1));
           ("firstSeenAt", VNumber (Finite 1700000000000));
           ("updatedAt", VNumber (Finite 1700000000000));
           ("firstNotificationType", VString "SUBSCRIBED");
           ("lastNotificationType", VString "SUBSCRIBED");
           ("originalPurchaseDate", VNumber (Finite 1700000000000))].

(** The world of [worldAt] with that state stored for subscription
    [otx-2]. *)
Definition worldWithTrial (instant : Z) : World :=
  setKv (insert "appstore:subscription:otx-2"
           (storedTrialState, 1700000000000 + 63072000000))
        (worldAt instant 200).

(** The renewal of the test "returns FIRST_PAID_AFTER_TRIAL on first renew
    after a trial". *)
Definition renewalAfterTrial : DecodedTransactionInfo :=
  {| productId := None; transactionId := None; price := None; currency := None;
     originalTransactionId := Some "otx-2";
     purchaseDate := Some (Finite (1700000000000 + 7 * 24 * 60 * 60 * 1000));
     originalPurchaseDate := Some (Finite 1700000000000);
     offerDiscountType := None; transactionReason := None |}.

End Fixtures.

(** The end-to-end scenario as the specification words it: a request that
    decodes to a purchase or refund with a new id always ends PUSHED. *)
Definition newActionableAlwaysPushed
    {rt : JsRuntime} {zod : Zod} {fs : FileSystem} {apple : AppleLibrary}
    {responseObject : ResponseObject} : Prop :=
  forall (request : WebhookRequest) (w0 w2 : World) (config : AppConfig)
         (sp : string) (verified : VerifiedNotification),
    decodesSuccessfully defaultDependencies request w0 config sp verified w2 ->
    classifyNotificationType (notificationType verified) <> IGNORE ->
    kvFailure w2 = None ->
    kvLive w2 (DedupeStore.getDedupeKey (notificationUUID verified)) = None ->
    (webhookHandler (spy defaultDependencies) request ([], w0)).1 = Ok PUSHED.

(** The fuel a body needs in [getSignedPayloadFuel]: a string body is
    parsed at most once per character it has, plus once. *)
Definition fuelNeeded (body' : JSValue) : nat :=
  match body' with
  | VString text => S (String.length text)
  | _ => 0
  end.

(** ** Vocabulary for the properties beyond the specification's claims *)

(** The entry the handler logs when the configuration cannot be loaded or
    the signed payload cannot be verified: the action [error] and the
    message of the error, nothing about a notification. *)
Definition configurationErrorLog (e : Error) : LogPayload :=
  {| log_action := "error";
     log_notificationUUID := None;
     log_notificationType := None;
     log_environment := None;
     log_error := Some (errorMessage e) |}.

(** A scan of the recorded calls: every push call has a call to the
    deduplication store somewhere before it. *)
Fixpoint pushesFollowDedup (dedupSeen : bool) (calls : list Call) : bool :=
  match calls with
  | [] => true
  | call :: rest =>
      if isPushCall call then dedupSeen && pushesFollowDedup dedupSeen rest
      else pushesFollowDedup (dedupSeen || isDedupCall call) rest
  end.

(** The bundle ids that tenants name explicitly. *)
Definition explicitBundleIds (apps : list AppleAppConfig) : list string :=
  omap (fun app => match app_bundleId app with
                   | Some b => if nonEmpty b then Some b else None
                   | None => None
                   end) apps.

(** An optional number that [JSON.stringify] keeps as it is: absent, or
    finite. *)
Definition finiteOrAbsent (n : option number) : Prop :=
  n = None \/ exists z : Z, n = Some (Finite z).

(** What a run may change in the world outside: the clock, the store's
    availability and the lifecycle client stay as they are, every key of the
    store keeps its entry or is a deduplication key holding the marker, and
    the push channel has the requests it had, possibly more. *)
Definition onlyDedupMarkers (w w' : World) : Prop :=
  now w' = now w /\
  kvFailure w' = kvFailure w /\
  subscriptionClient w' = subscriptionClient w /\
  (forall key : string,
      kv w' !! key = kv w !! key \/
      exists (uuid : string) (expiresAt : Z),
        key = DedupeStore.getDedupeKey uuid /\
        kv w' !! key = Some (VString "1", expiresAt)) /\
  exists sent : list PushoverRequest,
    pushoverInbox w' = (pushoverInbox w ++ sent)%list.

(** *** Further fixtures *)

Module Scenarios.
Import Fixtures.

(** The doubles of [invokeHandler] with the configuration load and the
    verification overridden by given outcomes, as the tests "returns 400
    when signature verification fails" and its neighbours do. *)
Definition doublesWith (loaded : Result AppConfig)
    (verification : Result VerifiedNotification) : WebhookDependencies unit :=
  {| deps_loadConfig := liftResult loaded;
     deps_verifyNotification := fun _ _ => liftResult verification;
     deps_markNotificationAsNew := fun _ _ => ret true;
     deps_sendPushover := fun _ _ _ _ => ret tt;
     deps_log := fun _ => ret tt |}.

(** A request with the given method, secret and body. *)
Definition requestWith (method' secret : string) (body' : JSValue) : WebhookRequest :=
  {| method := Some method';
     body := body';
     query := Some [("secret", VString secret)] |}.

(** The project directory of [projectFiles] after its certificate directory
    has been removed. *)
Definition projectWithoutCertificates : FileSystem :=
  {| existsSync := fun _ => false;
     readdirSync := fun _ => Threw (mkError "ENOENT: no such file or directory");
     readFileSync := fun _ => Threw (mkError "ENOENT: no such file or directory");
     isAbsolute := fun dir => String.prefix "/" dir;
     pathJoin := fun a b => a +:+ "/" +:+ b;
     process_cwd := "/var/task" |}.

(** The world [w] with a store whose every command fails with [e]. *)
Definition withStoreDown (e : Error) (w : World) : World :=
  {| now := now w;
     processEnv := processEnv w;
     kv := kv w;
     kvFailure := Some e;
     dedupeClient := dedupeClient w;
     subscriptionClient := subscriptionClient w;
     verifierCache := verifierCache w;
     pushoverUnreachable := pushoverUnreachable w;
     pushoverStatus := pushoverStatus w;
     pushoverBody := pushoverBody w;
     pushoverInbox := pushoverInbox w;
     console := console w |}.

(** A runtime that parses the texts it has printed for the given values
    (objects and arrays), and no other text. *)
Fixpoint parseKnown (known : list JSValue) (text : string) : option JSValue :=
  match known with
  | [] => None
  | VString _ :: rest => parseKnown rest text
  | v :: rest =>
      if String.eqb text (plainStringify v) then Some v else parseKnown rest text
  end.

Program Definition runtimeReading (known : list JSValue) : JsRuntime :=
  {| JSON_parse := parseKnown known;
     JSON_stringify := plainStringify;
     Number_ofString := fun _ => NaN;
     Number_toString := plainNumber;
     formatMilliunits := formatThousandths;
     base64urlToUtf8 := fun s => s |}.
Next Obligation.
  intros known s s' Hparse. exfalso.
  induction known as [|v known IH]; simpl in Hparse; [discriminate|].
  destruct v; try (destruct (String.eqb s _); [discriminate|]); auto.
Qed.
Next Obligation. reflexivity. Qed.
Next Obligation. reflexivity. Qed.

(** Two tenants in [APPLE_APPS_JSON], and a schema that reads the bundle id
    and the app id of each entry. *)
Definition twoApps : JSValue :=
  VArray [VObject [("bundleId", VString "com.a"); ("appAppleId", VNumber (Finite 1))];
          VObject [("bundleId", VString "com.x"); ("appAppleId", VNumber (Finite 2))]].

Definition entrySchema : Zod :=
  {| zodAppleApps := fun json =>
       match json with
       | VArray entries =>
           mapResult (fun entry =>
                        match prop entry "bundleId", prop entry "appAppleId" with
                        | VString bundle, VNumber (Finite appId) =>
                            Ok {| entry_bundleId := Some bundle;
                                  entry_appAppleId := appId;
                                  entry_pushoverUserKey := None;
                                  entry_pushoverDevice := None |}
                        | _, _ => Threw (mkError "Invalid input")
                        end) entries
       | _ => Threw (mkError "Expected array")
       end |}.

Definition twoTenantEnvironment : ParsedEnv :=
  {| WEBHOOK_SECRET := "super-secret";
     PUSHOVER_APP_TOKEN := "pushover-app-token";
     PUSHOVER_USER_KEY := "pushover-user-key";
     PUSHOVER_DEVICE := None;
     APPLE_BUNDLE_ID := None;
     APPLE_APP_ID := None;
     APPLE_APPS_JSON := Some (plainStringify twoApps);
     APPLE_ENABLE_ONLINE_CHECKS := false;
     APPLE_ROOT_CA_DIR := "certs/apple";
     KV_REST_API_URL := "https://example.upstash.io";
     KV_REST_API_TOKEN := "upstash-token" |}.



(** The state stored by [storedTrialState], as a record. *)
Definition trialState : SubscriptionStateStore.SubscriptionState :=
  {| SubscriptionStateStore.sawFreeTrial := true;
     SubscriptionStateStore.didRenewCount := 0;
     SubscriptionStateStore.notificationCount := 1;
     SubscriptionStateStore.firstSeenAt := 1700000000000;
     SubscriptionStateStore.updatedAt := 1700000000000;
     SubscriptionStateStore.firstNotificationType := "SUBSCRIBED";
     SubscriptionStateStore.lastNotificationType := "SUBSCRIBED";
     SubscriptionStateStore.st_originalPurchaseDate := Some (Finite 1700000000000);
     SubscriptionStateStore.firstPurchaseDate := None;
     SubscriptionStateStore.lastPurchaseDate := None |}.

(** The transaction of the SUBSCRIBED notification that began that trial. *)
Definition trialPurchase : DecodedTransactionInfo :=
  {| productId := None; transactionId := None; price := None; currency := None;
     originalTransactionId := Some "otx-2";
     purchaseDate := None;
     originalPurchaseDate := Some (Finite 1700000000000);
     offerDiscountType := Some "FREE_TRIAL"; transactionReason := None |}.

(** The configuration [loadConfig] returns for [twoTenantEnvironment], and
    a library whose sandbox verifier for [com.x] decodes every envelope to
    a notification of the bundle [com.y]. *)
Definition twoTenantConfig : AppConfig :=
  configWith [tenant "com.a" 1; tenant "com.x" 2].

Definition mismatchedLibrary : AppleLibrary :=
  sandboxOnly "com.x" (payloadOf "uuid-1" "SUBSCRIBED" "com.y").

(** The library of the end-to-end fixtures: the sandbox verifier of
    [com.example.app] decodes every envelope to a notification of the given
    type with the id [uuid-1]. *)
Definition exampleLibrary (type : string) : AppleLibrary :=
  sandboxOnly "com.example.app" (payloadOf "uuid-1" type "com.example.app").

(** What the resolver returns for that notification. *)
Definition exampleNotification (type : string) : VerifiedNotification :=
  {| notificationUUID := "uuid-1"; notificationType := type;
     subtype := None; environment := "Sandbox";
     bundleId := "com.example.app"; appAppleId := 1234567890;
     pushoverUserKey := "pushover-user-key"; pushoverDevice := None;
     signedTransactionInfo := None; transactionInfo := None |}.


End Scenarios.

(** * Properties *)

(** ** Doubles *)

Section Doubles.

Lemma roundToDouble_small (z : Z) : Z.abs z <= 2 ^ 53 -> roundToDouble z = z.
Proof.
  intros Hz. unfold roundToDouble. apply Z.leb_le in Hz. now rewrite Hz.
Qed.


Lemma ulpOf_bounds (m : Z) :
  2 ^ 53 < m -> 2 <= ulpOf m /\ ulpOf m * 2 ^ 52 <= m.
Proof.
  intros Hm. unfold ulpOf.
  assert (Hlog : 53 <= Z.log2 m) by (apply Z.log2_le_pow2; lia).
  split.
  - change 2 with (2 ^ 1) at 1. apply Z.pow_le_mono_r; lia.
  - rewrite <- Z.pow_add_r by lia.
    replace (Z.log2 m - 52 + 52) with (Z.log2 m) by lia.
    apply Z.log2_spec. lia.
Qed.

Lemma roundToDouble_large (z : Z) :
  2 ^ 53 < Z.abs z ->
  exists q' : Z,
    roundToDouble z = Z.sgn z * (q' * ulpOf (Z.abs z)) /\
    Z.abs z / ulpOf (Z.abs z) <= q' <= Z.abs z / ulpOf (Z.abs z) + 1 /\
    (q' = Z.abs z / ulpOf (Z.abs z) + 1 -> 0 < Z.abs z mod ulpOf (Z.abs z)).
Proof.
  intros Hz. unfold roundToDouble. fold (ulpOf (Z.abs z)).
  destruct (Z.leb_spec (Z.abs z) (2 ^ 53)); [lia|]. cbv zeta.
  destruct (ulpOf_bounds _ Hz) as [Hulp _].
  destruct ((ulpOf (Z.abs z) <? 2 * (Z.abs z mod ulpOf (Z.abs z)))
            || ((2 * (Z.abs z mod ulpOf (Z.abs z)) =? ulpOf (Z.abs z))
                && Z.odd (Z.abs z / ulpOf (Z.abs z)))) eqn:Hup.
  - eexists. split; [reflexivity|]. split; [lia|]. intros _.
    apply orb_true_iff in Hup. destruct Hup as [Hup|Hup].
    + apply Z.ltb_lt in Hup. lia.
    + apply andb_true_iff in Hup. destruct Hup as [Hup _]. apply Z.eqb_eq in Hup. lia.
  - eexists. split; [reflexivity|]. split; lia.
Qed.

Lemma roundToDouble_positive (z : Z) : 1 <= z -> 1 <= roundToDouble z.
Proof.
  intros Hz. destruct (Z.le_gt_cases (Z.abs z) (2 ^ 53)) as [Hs|Hl].
  - now rewrite roundToDouble_small.
  - destruct (roundToDouble_large z Hl) as (q' & -> & Hq & _).
    destruct (ulpOf_bounds _ Hl) as [Hulp Hm].
    rewrite Z.sgn_pos by lia.
    assert (1 <= Z.abs z / ulpOf (Z.abs z)).
    { apply Z.div_le_lower_bound; nia. }
    nia.
Qed.





Lemma jsAdd_one_positive (c : Z) : 0 <= c -> 1 <= jsAdd c 1.
Proof. intros Hc. apply roundToDouble_positive. lia. Qed.

Lemma roundToDouble_nonnegative (z : Z) : 0 <= z -> 0 <= roundToDouble z.
Proof.
  intros Hz. destruct (Z.eq_dec z 0) as [->|Hpos]; [reflexivity|].
  pose proof (roundToDouble_positive z ltac:(lia)). lia.
Qed.

End Doubles.

(** ** Lifecycle hint *)

Section LifecycleProofs.
Import SubscriptionStateStore LifecycleSpec.

Lemma optString_eqb_spec (a : option string) (b : string) :
  optString_eqb a b = true <-> a = Some b.
Proof.
  destruct a as [x|]; simpl.
  - rewrite String.eqb_eq. split; congruence.
  - split; discriminate.
Qed.

Lemma hasFreeTrial_spec (ti : option DecodedTransactionInfo) :
  hasFreeTrial ti = true <-> txField ti offerDiscountType = Some "FREE_TRIAL".
Proof. unfold hasFreeTrial. apply optString_eqb_spec. Qed.

Lemma deltaDays_at_least_5 (d : Z) :
  Qle_bool (inject_Z 5) (inject_Z d / inject_Z ONE_DAY_IN_MS)%Q = true
  <-> 5 * ONE_DAY_IN_MS <= d.
Proof.
  rewrite Qle_bool_iff.
  unfold Qle, Qdiv, Qmult, Qinv, inject_Z, ONE_DAY_IN_MS. simpl. lia.
Qed.

Lemma deltaDays_at_most_14 (d : Z) :
  Qle_bool (inject_Z d / inject_Z ONE_DAY_IN_MS)%Q (inject_Z 14) = true
  <-> d <= 14 * ONE_DAY_IN_MS.
Proof.
  rewrite Qle_bool_iff.
  unfold Qle, Qdiv, Qmult, Qinv, inject_Z, ONE_DAY_IN_MS. simpl. lia.
Qed.

Lemma isLikelyFirstPaidAfterTrialByDates_spec (ti : option DecodedTransactionInfo) :
  isLikelyFirstPaidAfterTrialByDates ti = true <-> purchaseGapFrom5To14Days ti.
Proof.
  unfold isLikelyFirstPaidAfterTrialByDates, purchaseGapFrom5To14Days.
  destruct (txField ti purchaseDate) as [[p| | |]|];
    try (split; [discriminate | intros (p' & o' & Hp & _); discriminate]).
  destruct (txField ti originalPurchaseDate) as [[o| | |]|];
    try (split; [discriminate | intros (p' & o' & _ & Ho & _); discriminate]).
  cbv zeta. destruct (Z.leb_spec (p - o) 0) as [Hle|Hlt].
  - split; [discriminate|].
    intros (p' & o' & Hp & Ho & Hpos & _). inversion Hp; inversion Ho; subst. lia.
  - rewrite andb_true_iff, deltaDays_at_least_5, deltaDays_at_most_14. split.
    + intros [H5 H14]. exists p, o. repeat split; auto.
    + intros (p' & o' & Hp & Ho & _ & H5 & H14).
      inversion Hp; inversion Ho; subst. split; assumption.
Qed.

Lemma previousEventWasTrial_spec (prev : option SubscriptionState) :
  (match prev with Some st => sawFreeTrial st | None => false end
   && (match prev with Some st => didRenewCount st | None => 0 end =? 0)) = true
  <-> trialSeenWithoutRenewal prev.
Proof.
  unfold trialSeenWithoutRenewal. rewrite andb_true_iff, Z.eqb_eq. split.
  - destruct prev as [st|]; intros [Hs Hc]; [|discriminate]. eauto.
  - intros (st & -> & Hs & Hc). auto.
Qed.

Lemma trialSubscribe_spec (nt : string) (ti : option DecodedTransactionInfo) :
  (String.eqb nt "SUBSCRIBED" && hasFreeTrial ti) = true <-> trialSubscribe nt ti.
Proof.
  unfold trialSubscribe. rewrite andb_true_iff, String.eqb_eq, hasFreeTrial_spec.
  reflexivity.
Qed.

Lemma hintRule_sound (nt : string) (ti : option DecodedTransactionInfo)
    (prev : option SubscriptionState) :
  hintRule nt ti prev (determineLifecycleHint nt ti prev).
Proof.
  unfold determineLifecycleHint.
  destruct (String.eqb nt "SUBSCRIBED" && hasFreeTrial ti) eqn:Htrial.
  - apply rule_trial_start. now apply trialSubscribe_spec.
  - assert (Hnot : ~ trialSubscribe nt ti).
    { rewrite <- trialSubscribe_spec. congruence. }
    destruct (String.eqb_spec nt "DID_RENEW") as [Hrenew|Hother]; simpl.
    + match goal with
      | |- context [if ?a || ?b then _ else _] =>
          destruct a eqn:Hprev; [|destruct b eqn:Hdates]; simpl
      end.
      * apply rule_first_paid; auto. left. now apply previousEventWasTrial_spec.
      * apply rule_first_paid; auto. right.
        now apply isLikelyFirstPaidAfterTrialByDates_spec.
      * apply rule_renewal; auto. intros [Hp|Hd].
        -- apply previousEventWasTrial_spec in Hp. congruence.
        -- apply isLikelyFirstPaidAfterTrialByDates_spec in Hd. congruence.
    + now apply rule_no_hint.
Qed.

Lemma hintRule_deterministic (nt : string) (ti : option DecodedTransactionInfo)
    (prev : option SubscriptionState) (h1 h2 : option SubscriptionLifecycleHint) :
  hintRule nt ti prev h1 -> hintRule nt ti prev h2 -> h1 = h2.
Proof.
  intros H1 H2.
  destruct H1; destruct H2; try reflexivity; try contradiction;
    try match goal with
        | Ht : trialSubscribe ?n _, Hr : ?n = "DID_RENEW" |- _ =>
            destruct Ht as [Hs _]; rewrite Hs in Hr; discriminate
        end.
Qed.

(** C1. For every notification type, transaction info and prior state, the
    hint [determineLifecycleHint] returns is the one the rule gives, and no
    other: TRIAL_START for SUBSCRIBED with a FREE_TRIAL offer; otherwise, for
    DID_RENEW, FIRST_PAID_AFTER_TRIAL exactly when the prior state shows a
    trial seen with zero renewals or the purchase date is 5 to 14 days
    (positive) after the original purchase date, and RENEWAL if not; no hint
    for any other type. *)
Theorem determineLifecycleHint_rule (nt : string) (ti : option DecodedTransactionInfo)
    (prev : option SubscriptionState) (h : option SubscriptionLifecycleHint) :
  determineLifecycleHint nt ti prev = h <-> hintRule nt ti prev h.
Proof.
  split.
  - intros <-. apply hintRule_sound.
  - intros Hrule. eapply hintRule_deterministic; [apply hintRule_sound | exact Hrule].
Qed.

End LifecycleProofs.

(** ** Dedup ledger *)

Section DedupeProofs.
Import DedupeStore.

Lemma getRedisClient_frame (config : AppConfig) (w : World) :
  exists c client,
    getRedisClient config w = (Ok client, setDedupeClient c w).
Proof.
  unfold getRedisClient.
  destruct (dedupeClient w) as [[cl k]|] eqn:Hc.
  - destruct (String.eqb k _) eqn:Hk.
    + exists (dedupeClient w), cl. rewrite Hc. destruct w; simpl in *. now subst.
    + eexists _, _. reflexivity.
  - eexists _, _. reflexivity.
Qed.

(** What one call does on a reachable store. *)
Lemma markNotificationAsNew_reachable (uuid : string) (config : AppConfig) (w : World) :
  kvFailure w = None ->
  exists c,
    markNotificationAsNew uuid config w =
      if bool_decide (is_Some (kvLive w (getDedupeKey uuid)))
      then (Ok false, setDedupeClient c w)
      else (Ok true,
            setKv (insert (getDedupeKey uuid)
                          (VString "1", now w + dedupeTtlSeconds config * 1000))
                  (setDedupeClient c w)).
Proof.
  intros Hup. destruct (getRedisClient_frame config w) as (c & client & Hclient).
  exists c. unfold markNotificationAsNew, bind. rewrite Hclient.
  unfold redis_set. simpl. rewrite Hup.
  change (kvLive (setDedupeClient c w) (getDedupeKey uuid))
    with (kvLive w (getDedupeKey uuid)).
  destruct (bool_decide (is_Some (kvLive w (getDedupeKey uuid)))); reflexivity.
Qed.

Lemma markNotificationAsNew_unreachable (uuid : string) (config : AppConfig)
    (w : World) (e : Error) :
  kvFailure w = Some e ->
  exists c, markNotificationAsNew uuid config w = (Threw e, setDedupeClient c w).
Proof.
  intros Hdown. destruct (getRedisClient_frame config w) as (c & client & Hclient).
  exists c. unfold markNotificationAsNew, bind. rewrite Hclient.
  unfold redis_set. simpl. now rewrite Hdown.
Qed.

Lemma kvLive_Some_iff (w : World) (key : string) :
  is_Some (kvLive w key) <-> exists v t, kv w !! key = Some (v, t) /\ now w < t.
Proof.
  unfold kvLive. destruct (kv w !! key) as [[v t]|].
  - destruct (Z.ltb_spec (now w) t).
    + split; [eauto|]. intros _. eauto.
    + split; [intros [? ?]; discriminate|]. intros (v' & t' & Heq & Hlt).
      inversion Heq; subst. lia.
  - split; [intros [? ?]; discriminate|]. intros (v' & t' & Heq & _). discriminate.
Qed.

Lemma loadConfig_dedupeTtl {rt : JsRuntime} {zod : Zod} (parsed : ParsedEnv) (config : AppConfig) :
  loadConfig parsed = Ok config -> dedupeTtlSeconds config = 2592000.
Proof.
  unfold loadConfig.
  destruct (if truthyString (APPLE_APPS_JSON parsed) then _ else _); [|discriminate].
  intros Heq. inversion Heq. reflexivity.
Qed.

(** C2. With a loaded configuration and a reachable store, the first call
    for an id with no live key writes the key with a lifetime of 2592000
    seconds (30 days) and returns true; a later call for the same id before
    that lifetime is over writes nothing and returns false; a call once the
    lifetime is over returns true again. *)
Theorem markNotificationAsNew_idempotent {rt : JsRuntime} {zod : Zod}
    (parsed : ParsedEnv) (config : AppConfig) (uuid : string) (w0 : World) :
  loadConfig parsed = Ok config ->
  kvFailure w0 = None ->
  kvLive w0 (getDedupeKey uuid) = None ->
  let first := markNotificationAsNew uuid config w0 in
  first.1 = Ok true /\
  kv first.2 !! getDedupeKey uuid = Some (VString "1", now w0 + 2592000 * 1000) /\
  (forall w1 : World,
      kvFailure w1 = None ->
      kv w1 !! getDedupeKey uuid = kv first.2 !! getDedupeKey uuid ->
      now w1 < now w0 + 2592000 * 1000 ->
      (markNotificationAsNew uuid config w1).1 = Ok false /\
      kv (markNotificationAsNew uuid config w1).2 = kv w1) /\
  (forall w2 : World,
      kvFailure w2 = None ->
      kv w2 !! getDedupeKey uuid = kv first.2 !! getDedupeKey uuid ->
      now w0 + 2592000 * 1000 <= now w2 ->
      (markNotificationAsNew uuid config w2).1 = Ok true).
Proof.
  intros Hconfig Hup Hfresh first.
  apply loadConfig_dedupeTtl in Hconfig.
  destruct (markNotificationAsNew_reachable uuid config w0 Hup) as (c & Hfirst).
  rewrite Hfresh, Hconfig in Hfirst.
  rewrite bool_decide_eq_false_2 in Hfirst by (intros [? ?]; discriminate).
  assert (Hkey : kv first.2 !! getDedupeKey uuid
                 = Some (VString "1", now w0 + 2592000 * 1000)).
  { subst first. rewrite Hfirst. simpl. apply lookup_insert_eq. }
  split; [subst first; now rewrite Hfirst|].
  split; [exact Hkey|].
  split.
  - intros w1 Hup1 Hsame Hwithin.
    destruct (markNotificationAsNew_reachable uuid config w1 Hup1) as (c1 & Hsecond).
    rewrite bool_decide_eq_true_2 in Hsecond.
    + rewrite Hsecond. split; reflexivity.
    + apply kvLive_Some_iff. rewrite Hsame, Hkey. eauto.
  - intros w2 Hup2 Hsame Hexpired.
    destruct (markNotificationAsNew_reachable uuid config w2 Hup2) as (c2 & Hthird).
    rewrite bool_decide_eq_false_2 in Hthird.
    + now rewrite Hthird.
    + rewrite kvLive_Some_iff. intros (v & t & Hlook & Hlt).
      rewrite Hsame, Hkey in Hlook. inversion Hlook; subst. lia.
Qed.

(** C8, as stated, fails: the key of the id [u1] is not [notification:u1]. *)
Lemma dedupeKey_not_notification_prefix : ~ dedupeKeyIsNotificationPrefix.
Proof. intros Hall. specialize (Hall "u1"). discriminate. Qed.

(** C8, amended. For every id [u] the key is [appstore:notification:]
    followed by [u], and a call of [markNotificationAsNew] checks and writes
    that key only: it answers by whether the key is live, and the store
    afterwards is the store before, with at most that key written. *)
Theorem dedupeKey_appstore_prefix (u : string) (config : AppConfig) (w : World) :
  getDedupeKey u = "appstore:notification:" +:+ u /\
  (kvFailure w = None ->
   (markNotificationAsNew u config w).1
     = Ok (negb (bool_decide (is_Some (kvLive w ("appstore:notification:" +:+ u))))) /\
   forall key : string,
     key <> "appstore:notification:" +:+ u ->
     kv (markNotificationAsNew u config w).2 !! key = kv w !! key).
Proof.
  split; [reflexivity|]. intros Hup.
  destruct (markNotificationAsNew_reachable u config w Hup) as (c & Heq).
  rewrite Heq. change (getDedupeKey u) with ("appstore:notification:" +:+ u).
  destruct (bool_decide _); simpl; split; try reflexivity.
  intros key Hne. now apply lookup_insert_ne.
Qed.

End DedupeProofs.

(** ** Lifecycle state store *)

Section SubscriptionProofs.
Import SubscriptionStateStore.
Context {rt : JsRuntime}.

Lemma subscription_getRedisClient_frame (config : AppConfig) (w : World) :
  exists c client,
    SubscriptionStateStore.getRedisClient config w
    = (Ok client, setSubscriptionClient c w).
Proof.
  unfold SubscriptionStateStore.getRedisClient.
  destruct (subscriptionClient w) as [[cl k]|] eqn:Hc.
  - destruct (String.eqb k _) eqn:Hk.
    + exists (subscriptionClient w), cl. rewrite Hc. destruct w; simpl in *. now subst.
    + eexists _, _. reflexivity.
  - eexists _, _. reflexivity.
Qed.

(** One call on a reachable store, for a transaction that names its
    subscription: the hint is computed from the state read, and the next
    state is written under the subscription's key. *)
Lemma determineSubscriptionLifecycleHint_reachable (nt : string)
    (ti : option DecodedTransactionInfo) (config : AppConfig) (w : World)
    (otid : string) :
  txField ti originalTransactionId = Some otid ->
  nonEmpty otid = true ->
  kvFailure w = None ->
  let key := getSubscriptionStateKey otid in
  let previousState := parseSubscriptionState (nullishOr (kvLive w key) VNull) in
  let hint := determineLifecycleHint nt ti previousState in
  exists c,
    determineSubscriptionLifecycleHint nt ti config w =
      (Ok hint,
       setKv (insert key
                (VString (JSON_stringify
                            (stateToJS (nextState nt ti previousState hint (now w)))),
                 now w + SUBSCRIPTION_STATE_TTL_SECONDS * 1000))
             (setSubscriptionClient c w)).
Proof.
  intros Hid Hne Hup key previousState hint.
  destruct (subscription_getRedisClient_frame config w) as (c & client & Hclient).
  exists c. unfold determineSubscriptionLifecycleHint. rewrite Hid, Hne. simpl.
  unfold bind. rewrite Hclient. unfold redis_get, redis_set. simpl.
  rewrite Hup. simpl. rewrite Hup. reflexivity.
Qed.






End SubscriptionProofs.

(** ** Message builder *)

Section MessageProofs.
Import MessageBuilder.
Context {rt : JsRuntime}.

Lemma prefix_self (s : string) : String.prefix s s = true.
Proof.
  induction s as [|c s IH]; simpl; [reflexivity|].
  destruct (ascii_dec c c); [exact IH | congruence].
Qed.

Lemma includes_prefix (needle haystack : string) :
  String.prefix needle haystack = true -> includes needle haystack = true.
Proof. intros Hp. destruct haystack; simpl in *; rewrite Hp; reflexivity. Qed.

Lemma includes_append (needle front back : string) :
  includes needle back = true -> includes needle (front +:+ back) = true.
Proof.
  intros Hb. induction front as [|c front IH]; simpl; [exact Hb|].
  rewrite IH. apply orb_true_r.
Qed.

Lemma join_snoc_includes (sep : string) (front : list string) (part : string) :
  includes part (join sep (front ++ [part])) = true.
Proof.
  induction front as [|p front IH].
  - simpl. apply includes_prefix, prefix_self.
  - change (((p :: front) ++ [part])%list) with (p :: (front ++ [part])%list).
    destruct ((front ++ [part])%list) as [|q rest] eqn:Hrest.
    + destruct front; discriminate.
    + change (join sep (p :: q :: rest)) with (p +:+ sep +:+ join sep (q :: rest)).
      now do 2 apply includes_append.
Qed.

Example formatThousandths_examples :
  map formatThousandths [29990; 0; 1000; 1500; 999; 5; 1230; (-500); 123456789]
  = ["29.99"; "0"; "1"; "1.5"; "0.999"; "0.005"; "1.23"; "-0.5"; "123456.789"].
Proof. reflexivity. Qed.

(** The builder that the handler imports prints the price undivided. *)
Lemma formatAmount_29990_EUR :
  formatAmount (Some (Finite 29990)) (Some "EUR") = "29990 EUR".
Proof.
  unfold formatAmount. simpl.
  rewrite (Number_toString_integer 29990) by (vm_compute; discriminate).
  reflexivity.
Qed.

(** The revised builder prints it in major units. *)
Lemma revised_formatAmount_29990_EUR :
  MessageBuilderRevised.formatAmount (Some (Finite 29990)) (Some "EUR") = "29.99 EUR".
Proof.
  unfold MessageBuilderRevised.formatAmount. simpl.
  rewrite (formatMilliunits_exact 29990) by (vm_compute; discriminate).
  reflexivity.
Qed.

Lemma messageParts_without_price (input : MessageInput) :
  in_price input = None ->
  Forall (fun part => String.prefix "amount=" part = false) (messageParts input).
Proof.
  intros Hprice. unfold messageParts. rewrite Hprice. simpl.
  repeat first [apply List.Forall_nil | apply List.Forall_cons; [reflexivity|]].
Qed.

Lemma messageParts_29990_EUR (input : MessageInput) :
  in_price input = Some (Finite 29990) ->
  in_currency input = Some "EUR" ->
  messageParts input
  = ([ "app=" +:+ appBundleId input;
       "type=" +:+ in_notificationType input;
       "product=" +:+ nullishOr (in_productId input) "n/a";
       "env=" +:+ in_environment input;
       "tx=" +:+ shortTransactionId (in_transactionId input) ]
     ++ ["amount=29990 EUR"])%list.
Proof.
  intros Hprice Hcurrency. unfold messageParts. rewrite Hprice, Hcurrency.
  rewrite formatAmount_29990_EUR. reflexivity.
Qed.

(** C9, on the code.  The builder that the handler imports
    ([src/messageBuilder.ts]) prints a price of 29990 with currency EUR
    undivided: the amount part is the last part and reads
    [amount=29990 EUR], so the message built from the input of the
    repository's test has no [amount=29.99 EUR], which that test and the
    specification expect.  The second half of the claim holds of this
    builder: without a price no part is an amount part.  The revised builder
    among the sources, which nothing imports, prints [29.99 EUR]. *)
Theorem buildPushoverMessage_amount :
  (forall input : MessageInput,
      in_price input = Some (Finite 29990) ->
      in_currency input = Some "EUR" ->
      formatAmount (in_price input) (in_currency input) = "29990 EUR" /\
      (exists front : list string,
          messageParts input = (front ++ ["amount=29990 EUR"])%list /\
          Forall (fun part => String.prefix "amount=" part = false) front) /\
      includes "amount=29990 EUR" (message (buildPushoverMessage input)) = true) /\
  message (buildPushoverMessage Fixtures.pricedInput)
  = "app=com.example.app | type=DID_RENEW | product=com.example.yearly | env=Production | tx=100000...7890 | amount=29990 EUR" /\
  includes "amount=29.99 EUR" (message (buildPushoverMessage Fixtures.pricedInput))
  = false /\
  (forall input : MessageInput,
      in_price input = None ->
      formatAmount (in_price input) (in_currency input) = "n/a" /\
      Forall (fun part => String.prefix "amount=" part = false) (messageParts input)) /\
  MessageBuilderRevised.formatAmount (Some (Finite 29990)) (Some "EUR") = "29.99 EUR".
Proof.
  assert (Htest : message (buildPushoverMessage Fixtures.pricedInput)
                  = "app=com.example.app | type=DID_RENEW | product=com.example.yearly | env=Production | tx=100000...7890 | amount=29990 EUR").
  { change (message (buildPushoverMessage Fixtures.pricedInput))
      with (join " | " (messageParts Fixtures.pricedInput)).
    rewrite (messageParts_29990_EUR Fixtures.pricedInput) by reflexivity.
    reflexivity. }
  split; [|split; [exact Htest|split; [rewrite Htest; reflexivity|split]]].
  - intros input Hprice Hcurrency.
    pose proof (messageParts_29990_EUR input Hprice Hcurrency) as Hparts.
    rewrite Hprice, Hcurrency. split; [apply formatAmount_29990_EUR|]. split.
    + eexists. split; [exact Hparts|].
      repeat first [apply List.Forall_nil | apply List.Forall_cons; [reflexivity|]].
    + change (message (buildPushoverMessage input))
        with (join " | " (messageParts input)).
      rewrite Hparts. apply join_snoc_includes.
  - intros input Hprice. split; [now rewrite Hprice|].
    now apply messageParts_without_price.
  - apply revised_formatAmount_29990_EUR.
Qed.

End MessageProofs.

(** ** Verifier resolver *)

Section ResolverProofs.
Context {rt : JsRuntime} {fs : FileSystem} {apple : AppleLibrary}.

Lemma tryVerifiers_first (v1 v2 : SignedDataVerifier) (sp : string)
    (le : option Error) (p : JSValue) :
  verifiesUnder v1 sp = Some p ->
  tryVerifiers [v1; v2] sp le = {| decoded := Some (p, v1); lastError := le |}.
Proof.
  unfold verifiesUnder. simpl.
  destruct (verifyAndDecodeNotification v1 sp) as [raw|e]; [|discriminate].
  destruct (ensureNotificationPayload raw) as [q|e]; [|discriminate].
  now intros [= ->].
Qed.

Lemma tryVerifiers_second (v1 v2 : SignedDataVerifier) (sp : string)
    (le : option Error) (p : JSValue) :
  verifiesUnder v1 sp = None ->
  verifiesUnder v2 sp = Some p ->
  decoded (tryVerifiers [v1; v2] sp le) = Some (p, v2).
Proof.
  unfold verifiesUnder. simpl.
  destruct (verifyAndDecodeNotification v1 sp) as [raw1|e1].
  - destruct (ensureNotificationPayload raw1) as [q|e]; [discriminate|].
    intros _. destruct (verifyAndDecodeNotification v2 sp) as [raw2|e2]; [|discriminate].
    destruct (ensureNotificationPayload raw2) as [q|e']; [|discriminate].
    now intros [= ->].
  - intros _. destruct (verifyAndDecodeNotification v2 sp) as [raw2|e2]; [|discriminate].
    destruct (ensureNotificationPayload raw2) as [q|e']; [|discriminate].
    now intros [= ->].
Qed.

Lemma tryVerifiers_neither (v1 v2 : SignedDataVerifier) (sp : string)
    (le : option Error) :
  verifiesUnder v1 sp = None ->
  verifiesUnder v2 sp = None ->
  decoded (tryVerifiers [v1; v2] sp le) = None.
Proof.
  unfold verifiesUnder. simpl.
  destruct (verifyAndDecodeNotification v1 sp) as [raw1|e1];
    [destruct (ensureNotificationPayload raw1) as [q|e]; [discriminate|]|];
    intros _;
    (destruct (verifyAndDecodeNotification v2 sp) as [raw2|e2];
     [destruct (ensureNotificationPayload raw2) as [q'|e']; [discriminate|]|]);
    reflexivity.
Qed.

Lemma verifyLoop_cons (app : AppleAppConfig) (rest : list AppleAppConfig)
    (sp : string) (config : AppConfig) (le : option Error) :
  verifyLoop (app :: rest) sp config le =
    if negb (truthyString (candidateBundleId app sp))
    then verifyLoop rest sp config
           (Some (mkError "Could not determine bundleId for verification. Set APPLE_BUNDLE_ID or provide bundleId in APPLE_APPS_JSON."))
    else
      bind (getVerifiers config (nullishOr (candidateBundleId app sp) EmptyString)
              (app_appAppleId app))
        (fun verifiers =>
           match decoded (tryVerifiers [production verifiers; sandbox verifiers] sp le) with
           | None =>
               verifyLoop rest sp config
                 (lastError (tryVerifiers [production verifiers; sandbox verifiers] sp le))
           | Some (decodedPayload, usedVerifier) =>
               liftResult (buildVerifiedNotification app decodedPayload usedVerifier)
           end).
Proof. reflexivity. Qed.

(** Tenants the resolver passes over leave the loop where it would be had
    it started after them. *)
Lemma verifyLoop_passesOver (config : AppConfig) (sp : string)
    (before rest : list AppleAppConfig) (le le' : option Error) (w w' : World) :
  passesOver config sp before le w le' w' ->
  verifyLoop (before ++ rest) sp config le w = verifyLoop rest sp config le' w'.
Proof.
  induction 1 as [| app before' le0 le1 w0 w1 Hcand _ IH
                  | app before' le0 le1 w0 w0' w1 vs Hcand Hget Hnone _ IH].
  - reflexivity.
  - change (((app :: before') ++ rest)%list) with (app :: (before' ++ rest)%list).
    rewrite verifyLoop_cons, Hcand. exact IH.
  - change (((app :: before') ++ rest)%list) with (app :: (before' ++ rest)%list).
    rewrite verifyLoop_cons, Hcand. cbn [negb]. unfold bind. rewrite Hget, Hnone.
    exact IH.
Qed.

(** The tenant under whose verifiers the envelope verifies ends the loop:
    the result is what the decoder builds for that tenant. *)
Lemma verifyLoop_selected (config : AppConfig) (sp : string) (app : AppleAppConfig)
    (rest : list AppleAppConfig) (le : option Error) (w w' : World)
    (vs : VerifierPair) (p : JSValue) (used : SignedDataVerifier) :
  truthyString (candidateBundleId app sp) = true ->
  getVerifiers config (nullishOr (candidateBundleId app sp) EmptyString) (app_appAppleId app) w
    = (Ok vs, w') ->
  decoded (tryVerifiers [production vs; sandbox vs] sp le) = Some (p, used) ->
  verifyLoop (app :: rest) sp config le w = (buildVerifiedNotification app p used, w').
Proof.
  intros Hcand Hget Hdec. rewrite verifyLoop_cons, Hcand. cbn [negb].
  unfold bind. rewrite Hget, Hdec. reflexivity.
Qed.

Lemma buildVerifiedNotification_mismatch (app : AppleAppConfig) (p : JSValue)
    (used : SignedDataVerifier) (b : string) :
  app_bundleId app = Some b ->
  nonEmpty b = true ->
  topLevelOrNested p "bundleId" <> Some b ->
  exists e : Error, buildVerifiedNotification app p used = Threw e.
Proof.
  intros Hb Hne Hdiff. unfold buildVerifiedNotification.
  destruct (ensureString (prop p "notificationUUID") _); [|eauto].
  destruct (ensureString (prop p "notificationType") _); [|eauto].
  destruct (topLevelOrNested p "bundleId") as [found|]; [|eauto].
  unfold ensureBundleIdMatches. rewrite Hb. simpl. rewrite Hne. simpl.
  destruct (String.eqb_spec b found) as [->|Hneq]; [congruence|]. simpl. eauto.
Qed.

(** For a tenant with an explicit bundle id that the resolver reaches (it
    has passed over every tenant configured before it), if the envelope
    verifies under the tenant's verifiers and the bundle id the decoder
    reads from the decoded payload is not the tenant's, then
    [verifyAppleNotification] fails with an error; the tenants configured
    after it are not tried. *)
Lemma mismatch_fails_once_reached (config : AppConfig) (sp : string)
    (before after : list AppleAppConfig) (app : AppleAppConfig) (b : string)
    (w0 w1 w2 : World) (le : option Error) (vs : VerifierPair)
    (p : JSValue) (used : SignedDataVerifier) :
  appleApps config = (before ++ app :: after)%list ->
  passesOver config sp before None w0 le w1 ->
  app_bundleId app = Some b ->
  nonEmpty b = true ->
  getVerifiers config b (app_appAppleId app) w1 = (Ok vs, w2) ->
  decoded (tryVerifiers [production vs; sandbox vs] sp le) = Some (p, used) ->
  topLevelOrNested p "bundleId" <> Some b ->
  exists e : Error, verifyAppleNotification sp config w0 = (Threw e, w2).
Proof.
  intros Happs Hpass Hb Hne Hget Hdec Hdiff.
  destruct (buildVerifiedNotification_mismatch app p used b Hb Hne Hdiff) as (e & He).
  exists e. unfold verifyAppleNotification. rewrite Happs.
  rewrite (verifyLoop_passesOver _ _ _ _ _ _ _ _ Hpass).
  assert (Hcand : candidateBundleId app sp = Some b).
  { unfold candidateBundleId. now rewrite Hb. }
  rewrite (verifyLoop_selected config sp app after le w1 w2 vs p used).
  - now rewrite He.
  - rewrite Hcand. exact Hne.
  - rewrite Hcand. exact Hget.
  - exact Hdec.
Qed.

(** What the decoder builds from a payload that passes its checks. *)
Lemma buildVerifiedNotification_passes (app : AppleAppConfig) (p : JSValue)
    (used : SignedDataVerifier) (uuid type bid : string)
    (ti : option DecodedTransactionInfo) :
  prop p "notificationUUID" = VString uuid ->
  nonEmpty uuid = true ->
  prop p "notificationType" = VString type ->
  nonEmpty type = true ->
  topLevelOrNested p "bundleId" = Some bid ->
  (truthyString (app_bundleId app) = true -> app_bundleId app = Some bid) ->
  decodeTransactionInfo used
    (match dataObject p with
     | Some data => match prop data "signedTransactionInfo" with
                    | VString s => Some s
                    | _ => None
                    end
     | None => None
     end) = Ok ti ->
  exists v : VerifiedNotification,
    buildVerifiedNotification app p used = Ok v /\
    notificationUUID v = uuid /\
    notificationType v = type /\
    bundleId v = bid /\
    appAppleId v = app_appAppleId app /\
    pushoverUserKey v = app_pushoverUserKey app /\
    pushoverDevice v = app_pushoverDevice app /\
    transactionInfo v = ti.
Proof.
  intros Huuid Hu Htype Ht Hbid Hmatch Htx.
  unfold buildVerifiedNotification. rewrite Huuid, Htype. simpl.
  assert (Hlen : forall s, nonEmpty s = true -> (String.length s =? 0)%nat = false).
  { intros [|c s]; [discriminate | reflexivity]. }
  rewrite (Hlen _ Hu), (Hlen _ Ht), Hbid.
  assert (Hensure : ensureBundleIdMatches (app_bundleId app) bid = Ok tt).
  { unfold ensureBundleIdMatches.
    destruct (truthyString (app_bundleId app)) eqn:Htruthy; [|reflexivity].
    rewrite (Hmatch eq_refl). simpl. now rewrite String.eqb_refl. }
  rewrite Hensure, Htx. eexists. split; [reflexivity|]. simpl. tauto.
Qed.

(** C4, amended. For a tenant the resolver reaches and has verifiers for,
    production is tried first and sandbox second, and the first of the two
    under which the envelope verifies and decodes is the one whose payload
    the decoder works on; when neither does, the resolver goes on to the
    next tenant.  In particular, if production fails and sandbox succeeds,
    the result is the decoder's for the sandbox payload and that tenant: a
    notification carrying the tenant's app id and routing when the payload
    passes the decoder's checks, and the failing check's error if not. *)
Theorem production_then_sandbox (config : AppConfig) (sp : string)
    (before after : list AppleAppConfig) (app : AppleAppConfig) (b : string)
    (w0 w1 w2 : World) (le : option Error) (vs : VerifierPair) :
  appleApps config = (before ++ app :: after)%list ->
  passesOver config sp before None w0 le w1 ->
  candidateBundleId app sp = Some b ->
  nonEmpty b = true ->
  getVerifiers config b (app_appAppleId app) w1 = (Ok vs, w2) ->
  verifyAppleNotification sp config w0 =
    match verifiesUnder (production vs) sp with
    | Some p => (buildVerifiedNotification app p (production vs), w2)
    | None =>
        match verifiesUnder (sandbox vs) sp with
        | Some p => (buildVerifiedNotification app p (sandbox vs), w2)
        | None =>
            verifyLoop after sp config
              (lastError (tryVerifiers [production vs; sandbox vs] sp le)) w2
        end
    end
  /\
  forall (p : JSValue) (uuid type bid : string) (ti : option DecodedTransactionInfo),
    verifiesUnder (production vs) sp = None ->
    verifiesUnder (sandbox vs) sp = Some p ->
    prop p "notificationUUID" = VString uuid ->
    nonEmpty uuid = true ->
    prop p "notificationType" = VString type ->
    nonEmpty type = true ->
    topLevelOrNested p "bundleId" = Some bid ->
    (truthyString (app_bundleId app) = true -> app_bundleId app = Some bid) ->
    decodeTransactionInfo (sandbox vs)
      (match dataObject p with
       | Some data => match prop data "signedTransactionInfo" with
                      | VString s => Some s
                      | _ => None
                      end
       | None => None
       end) = Ok ti ->
    exists v : VerifiedNotification,
      verifyAppleNotification sp config w0 = (Ok v, w2) /\
      notificationUUID v = uuid /\
      notificationType v = type /\
      bundleId v = bid /\
      appAppleId v = app_appAppleId app /\
      pushoverUserKey v = app_pushoverUserKey app /\
      pushoverDevice v = app_pushoverDevice app /\
      transactionInfo v = ti.
Proof.
  intros Happs Hpass Hcand Hne Hget.
  assert (Hstart : verifyAppleNotification sp config w0
                   = verifyLoop (app :: after) sp config le w1).
  { unfold verifyAppleNotification. rewrite Happs.
    apply verifyLoop_passesOver. exact Hpass. }
  assert (Htruthy : truthyString (candidateBundleId app sp) = true)
    by (rewrite Hcand; exact Hne).
  assert (Hget' : getVerifiers config (nullishOr (candidateBundleId app sp) EmptyString)
                    (app_appAppleId app) w1 = (Ok vs, w2))
    by (rewrite Hcand; exact Hget).
  assert (Hmain : verifyAppleNotification sp config w0 =
    match verifiesUnder (production vs) sp with
    | Some p => (buildVerifiedNotification app p (production vs), w2)
    | None =>
        match verifiesUnder (sandbox vs) sp with
        | Some p => (buildVerifiedNotification app p (sandbox vs), w2)
        | None =>
            verifyLoop after sp config
              (lastError (tryVerifiers [production vs; sandbox vs] sp le)) w2
        end
    end).
  { rewrite Hstart.
    destruct (verifiesUnder (production vs) sp) as [p|] eqn:Hprod.
    - apply (verifyLoop_selected config sp app after le w1 w2 vs); auto.
      now rewrite (tryVerifiers_first _ _ _ _ _ Hprod).
    - destruct (verifiesUnder (sandbox vs) sp) as [p|] eqn:Hsand.
      + apply (verifyLoop_selected config sp app after le w1 w2 vs); auto.
        now apply tryVerifiers_second.
      + rewrite verifyLoop_cons, Htruthy. cbn [negb]. unfold bind.
        rewrite Hget'. now rewrite (tryVerifiers_neither _ _ _ _ Hprod Hsand). }
  split; [exact Hmain|].
  intros p uuid type bid ti Hprod Hsand Huuid Hu Htype Ht Hbid Hmatch Htx.
  destruct (buildVerifiedNotification_passes app p (sandbox vs) uuid type bid ti
              Huuid Hu Htype Ht Hbid Hmatch Htx) as (v & Hv & Hfields).
  exists v. split; [|exact Hfields].
  rewrite Hmain, Hprod, Hsand, Hv. reflexivity.
Qed.

End ResolverProofs.

(** ** Pipeline orchestrator *)

Section HandlerProofs.
Context {rt : JsRuntime} {responseObject : ResponseObject}.

(** The fuel [getSignedPayload] starts with is never used up: with any
    fuel from [fuelNeeded] on, the result is the same. *)
Lemma getSignedPayloadFuel_enough (fuel : nat) (body' : JSValue) :
  (fuelNeeded body' <= fuel)%nat ->
  getSignedPayloadFuel (S fuel) body' = getSignedPayloadFuel fuel body'.
Proof.
  revert body'. induction fuel as [|fuel IH]; intros body' Hfuel.
  - destruct body'; simpl in *; try reflexivity; lia.
  - destruct body' as [| | | |text| |]; try reflexivity.
    change (getSignedPayloadFuel (S (S fuel)) (VString text))
      with (match JSON_parse text with
            | None => None
            | Some parsed => getSignedPayloadFuel (S fuel) parsed
            end).
    change (getSignedPayloadFuel (S fuel) (VString text))
      with (match JSON_parse text with
            | None => None
            | Some parsed => getSignedPayloadFuel fuel parsed
            end).
    destruct (JSON_parse text) as [parsed|] eqn:Hparse; [|reflexivity].
    apply IH. destruct parsed; simpl in *; try lia.
    apply JSON_parse_string_shorter in Hparse. lia.
Qed.

Lemma getSignedPayload_any_fuel (fuel : nat) (body' : JSValue) :
  (fuelNeeded body' <= fuel)%nat ->
  getSignedPayloadFuel fuel body' = getSignedPayload body'.
Proof.
  intros Hfuel.
  assert (Hstart : getSignedPayload body' = getSignedPayloadFuel (fuelNeeded body') body').
  { destruct body'; reflexivity. }
  rewrite Hstart. induction Hfuel as [|fuel Hle IH]; [reflexivity|].
  rewrite getSignedPayloadFuel_enough; assumption.
Qed.

Lemma spied_run {S A} (call : Call) (m : M S A) (calls : list Call) (s s' : S)
    (r : Result A) :
  m s = (r, s') -> spied call m (calls, s) = (r, ((calls ++ [call])%list, s')).
Proof. intros Hm. unfold spied. simpl. now rewrite Hm. Qed.

(** A request that decodes brings the handler to [handleVerified], with
    the two calls made so far on record. *)
Lemma webhookHandler_decoded {S} (deps : WebhookDependencies S)
    (request : WebhookRequest) (s0 s2 : S) (config : AppConfig) (sp : string)
    (verified : VerifiedNotification) :
  decodesSuccessfully deps request s0 config sp verified s2 ->
  webhookHandler (spy deps) request ([], s0)
  = handleVerified (spy deps) config verified
      ([CalledLoadConfig; CalledVerifyNotification sp], s2).
Proof.
  intros (Hmethod & s1 & Hload & Hsecret & Hpayload & Hverify).
  unfold webhookHandler. rewrite Hmethod. simpl.
  unfold bind, tryCatch. simpl.
  rewrite (spied_run _ _ _ _ _ _ Hload). simpl.
  rewrite Hsecret. simpl. rewrite String.eqb_refl. simpl.
  rewrite Hpayload.
  rewrite (spied_run _ _ _ _ _ _ Hverify). reflexivity.
Qed.

Lemma handleVerified_ignored {S} (deps : WebhookDependencies S) (config : AppConfig)
    (verified : VerifiedNotification) (calls : list Call) (s s' : S) :
  classifyNotificationType (notificationType verified) = IGNORE ->
  deps_log deps (buildLogPayload "ignored" verified None) s = (Ok tt, s') ->
  handleVerified (spy deps) config verified (calls, s)
  = (Ok IGNORED,
     ((calls ++ [CalledLog (buildLogPayload "ignored" verified None)])%list, s')).
Proof.
  intros Hclass Hlog. unfold handleVerified. rewrite Hclass.
  unfold bind. simpl. rewrite (spied_run _ _ _ _ _ _ Hlog). reflexivity.
Qed.

Lemma handleVerified_store_failure {S} (deps : WebhookDependencies S)
    (config : AppConfig) (verified : VerifiedNotification) (calls : list Call)
    (s s1 s' : S) (e : Error) :
  classifyNotificationType (notificationType verified) <> IGNORE ->
  deps_markNotificationAsNew deps (notificationUUID verified) config s = (Threw e, s1) ->
  deps_log deps (buildLogPayload "error" verified (Some e)) s1 = (Ok tt, s') ->
  handleVerified (spy deps) config verified (calls, s)
  = (Ok INFRA_ERROR,
     ((calls ++ [CalledMarkNotificationAsNew (notificationUUID verified)]
             ++ [CalledLog (buildLogPayload "error" verified (Some e))])%list, s')).
Proof.
  intros Hclass Hmark Hlog. unfold handleVerified.
  destruct (classifyNotificationType (notificationType verified));
    try congruence;
    unfold bind, tryCatch; simpl;
    rewrite (spied_run _ _ _ _ _ _ Hmark); simpl;
    rewrite (spied_run _ _ _ _ _ _ Hlog); rewrite <- app_assoc; reflexivity.
Qed.

Lemma handleVerified_duplicate {S} (deps : WebhookDependencies S)
    (config : AppConfig) (verified : VerifiedNotification) (calls : list Call)
    (s s1 s' : S) :
  classifyNotificationType (notificationType verified) <> IGNORE ->
  deps_markNotificationAsNew deps (notificationUUID verified) config s = (Ok false, s1) ->
  deps_log deps (buildLogPayload "deduped" verified None) s1 = (Ok tt, s') ->
  handleVerified (spy deps) config verified (calls, s)
  = (Ok DEDUPED,
     ((calls ++ [CalledMarkNotificationAsNew (notificationUUID verified)]
             ++ [CalledLog (buildLogPayload "deduped" verified None)])%list, s')).
Proof.
  intros Hclass Hmark Hlog. unfold handleVerified.
  destruct (classifyNotificationType (notificationType verified));
    try congruence;
    unfold bind, tryCatch; simpl;
    rewrite (spied_run _ _ _ _ _ _ Hmark); simpl;
    rewrite (spied_run _ _ _ _ _ _ Hlog); rewrite <- app_assoc; reflexivity.
Qed.

Lemma handleVerified_new {S} (deps : WebhookDependencies S)
    (config : AppConfig) (verified : VerifiedNotification) (calls : list Call)
    (s s1 s2 s' : S) (sent : Result unit) :
  classifyNotificationType (notificationType verified) <> IGNORE ->
  deps_markNotificationAsNew deps (notificationUUID verified) config s = (Ok true, s1) ->
  deps_sendPushover deps config (MessageBuilder.title (pushMessageOf verified))
    (MessageBuilder.message (pushMessageOf verified)) (pushTargetOf verified) s1
  = (sent, s2) ->
  deps_log deps
    (match sent with
     | Ok _ => buildLogPayload "pushed" verified None
     | Threw e => buildLogPayload "error" verified (Some e)
     end) s2 = (Ok tt, s') ->
  handleVerified (spy deps) config verified (calls, s)
  = (Ok (if isOk sent then PUSHED else INFRA_ERROR),
     ((calls ++ [CalledMarkNotificationAsNew (notificationUUID verified);
                 CalledSendPushover (MessageBuilder.title (pushMessageOf verified))
                   (MessageBuilder.message (pushMessageOf verified))
                   (pushTargetOf verified);
                 CalledLog (match sent with
                            | Ok _ => buildLogPayload "pushed" verified None
                            | Threw e => buildLogPayload "error" verified (Some e)
                            end)])%list, s')).
Proof.
  intros Hclass Hmark Hsend Hlog. unfold handleVerified, pushMessageOf, pushTargetOf in *.
  destruct (classifyNotificationType (notificationType verified)) eqn:Hc;
    try congruence;
    unfold bind, tryCatch; simpl;
    rewrite (spied_run _ _ _ _ _ _ Hmark); simpl;
    rewrite (spied_run _ _ _ _ _ _ Hsend);
    destruct sent as [[]|e]; simpl;
    rewrite (spied_run _ _ _ _ _ _ Hlog);
    repeat rewrite <- app_assoc; reflexivity.
Qed.

(** C7. Whenever the handler reaches the dedup step and
    [markNotificationAsNew] throws, the request ends with status 500 and the
    body [internal_error], and no push is sent: the calls made are the
    configuration load, the verification, the dedup call and the log of the
    error. *)
Theorem dedup_failure_is_infra_error {S} (deps : WebhookDependencies S)
    (request : WebhookRequest) (s0 s2 s3 s4 : S) (config : AppConfig) (sp : string)
    (verified : VerifiedNotification) (e : Error) :
  decodesSuccessfully deps request s0 config sp verified s2 ->
  classifyNotificationType (notificationType verified) <> IGNORE ->
  deps_markNotificationAsNew deps (notificationUUID verified) config s2 = (Threw e, s3) ->
  deps_log deps (buildLogPayload "error" verified (Some e)) s3 = (Ok tt, s4) ->
  let run := webhookHandler (spy deps) request ([], s0) in
  run.1 = Ok INFRA_ERROR /\
  statusCode INFRA_ERROR = 500 /\
  jsonBody INFRA_ERROR = [("ok", VBool false); ("error", VString "internal_error")] /\
  run.2.1 = [CalledLoadConfig; CalledVerifyNotification sp;
             CalledMarkNotificationAsNew (notificationUUID verified);
             CalledLog (buildLogPayload "error" verified (Some e))] /\
  pushCalls run.2.1 = [] /\
  run.2.2 = s4.
Proof.
  intros Hdec Hclass Hmark Hlog run. subst run.
  rewrite (webhookHandler_decoded _ _ _ _ _ _ _ Hdec).
  rewrite (handleVerified_store_failure _ _ _ _ _ _ _ _ Hclass Hmark Hlog).
  simpl. repeat split; reflexivity.
Qed.

Section WithDefaults.
Context {zod : Zod} {fs : FileSystem} {apple : AppleLibrary}.

Lemma default_log (payload : LogPayload) (w : World) :
  deps_log defaultDependencies payload w
  = (Ok tt, consoleLog (JSON_stringify (logPayloadToJS payload)) w).
Proof. reflexivity. Qed.

Lemma default_loadConfig_ttl (w w' : World) (config : AppConfig) :
  deps_loadConfig defaultDependencies w = (Ok config, w') ->
  dedupeTtlSeconds config = 2592000.
Proof.
  simpl. destruct (processEnv w) as [parsed|e]; [|discriminate].
  intros [= Hload _]. now apply loadConfig_dedupeTtl in Hload.
Qed.

Lemma sendPushoverNotification_outcome (config : AppConfig) (title' message' : string)
    (target : option PushoverTarget) (w : World) :
  isOk (sendPushoverNotification config title' message' target w).1 = pushoverAccepts w /\
  (sendPushoverNotification config title' message' target w).2
  = match pushoverUnreachable w with
    | Some _ => w
    | None => deliver (pushoverRequestOf config title' message' target) w
    end.
Proof.
  unfold sendPushoverNotification, pushoverAccepts.
  destruct (pushoverUnreachable w); simpl.
  - split; reflexivity.
  - destruct ((200 <=? pushoverStatus w) && (pushoverStatus w <=? 299));
      split; reflexivity.
Qed.

(** The dedup step and what follows it, for a type that is not ignored. *)
Lemma handleVerified_default (config : AppConfig) (verified : VerifiedNotification)
    (calls0 : list Call) (w2 : World) :
  classifyNotificationType (notificationType verified) <> IGNORE ->
  let run := handleVerified (spy defaultDependencies) config verified (calls0, w2) in
  let key := DedupeStore.getDedupeKey (notificationUUID verified) in
  match kvFailure w2 with
  | Some _ =>
      run.1 = Ok INFRA_ERROR /\ pushCalls run.2.1 = pushCalls calls0 /\
      kv run.2.2 = kv w2 /\ pushoverInbox run.2.2 = pushoverInbox w2
  | None =>
      if bool_decide (is_Some (kvLive w2 key))
      then
        run.1 = Ok DEDUPED /\ pushCalls run.2.1 = pushCalls calls0 /\
        kv run.2.2 = kv w2 /\ pushoverInbox run.2.2 = pushoverInbox w2
      else
        run.1 = Ok (if pushoverAccepts w2 then PUSHED else INFRA_ERROR) /\
        length (pushCalls run.2.1) = S (length (pushCalls calls0)) /\
        length (dedupCalls run.2.1) = S (length (dedupCalls calls0)) /\
        kv run.2.2 !! key
        = Some (VString "1", now w2 + dedupeTtlSeconds config * 1000)
  end.
Proof.
  intros Hne run key. subst run.
  unfold pushCalls, dedupCalls.
  destruct (kvFailure w2) as [e|] eqn:Hkv.
  - destruct (markNotificationAsNew_unreachable (notificationUUID verified)
                config w2 e Hkv) as (c & Hmark).
    rewrite (handleVerified_store_failure defaultDependencies config verified
               calls0 w2 _ _ e Hne Hmark (default_log _ _)).
    simpl. rewrite !List.filter_app. simpl. rewrite app_nil_r.
    repeat split; reflexivity.
  - destruct (markNotificationAsNew_reachable (notificationUUID verified)
                config w2 Hkv) as (c & Hmark).
    fold key in Hmark.
    destruct (bool_decide (is_Some (kvLive w2 key))).
    + rewrite (handleVerified_duplicate defaultDependencies config verified
                 calls0 w2 _ _ Hne Hmark (default_log _ _)).
      simpl. rewrite !List.filter_app. simpl. rewrite app_nil_r.
      repeat split; reflexivity.
    + match type of Hmark with
      | _ = (_, ?w3) =>
          destruct (sendPushoverNotification_outcome config
                      (MessageBuilder.title (pushMessageOf verified))
                      (MessageBuilder.message (pushMessageOf verified))
                      (pushTargetOf verified) w3) as (Hok & Hworld);
          destruct (sendPushoverNotification config
                      (MessageBuilder.title (pushMessageOf verified))
                      (MessageBuilder.message (pushMessageOf verified))
                      (pushTargetOf verified) w3) as [sent w4] eqn:Hsend
      end.
      rewrite (handleVerified_new defaultDependencies config verified
                 calls0 w2 _ w4 _ sent Hne Hmark Hsend (default_log _ _)).
      simpl in Hok, Hworld |- *.
      change (pushoverAccepts (setKv _ (setDedupeClient c w2)))
        with (pushoverAccepts w2) in Hok.
      rewrite Hok, !List.filter_app, !List.length_app. simpl.
      split; [reflexivity|]. split; [lia|]. split; [lia|].
      rewrite Hworld.
      destruct (pushoverUnreachable w2); simpl; apply lookup_insert_eq.
Qed.

(** C5, amended. For a request that decodes, with the default dependencies:
    - an ignored type ends IGNORED with no dedup call, no push call, the
      store and the push channel untouched;
    - otherwise, when the store cannot be reached, the request ends with the
      infrastructure error and no push call;
    - otherwise, when the id's key is live (a replay within the retention
      window), the request ends DEDUPED with no push call and the store
      unchanged;
    - otherwise (the id is new) the key is written with a lifetime of
      2592000 seconds, exactly one push call is made, and the request ends
      PUSHED when the push channel accepts the message and with the
      infrastructure error when it does not. *)
Theorem pipeline_outcomes (request : WebhookRequest) (w0 w2 : World)
    (config : AppConfig) (sp : string) (verified : VerifiedNotification) :
  decodesSuccessfully defaultDependencies request w0 config sp verified w2 ->
  let run := webhookHandler (spy defaultDependencies) request ([], w0) in
  let calls := run.2.1 in
  let w' := run.2.2 in
  let key := DedupeStore.getDedupeKey (notificationUUID verified) in
  match classifyNotificationType (notificationType verified) with
  | IGNORE =>
      run.1 = Ok IGNORED /\ dedupCalls calls = [] /\ pushCalls calls = [] /\
      kv w' = kv w2 /\ pushoverInbox w' = pushoverInbox w2
  | _ =>
      match kvFailure w2 with
      | Some _ =>
          run.1 = Ok INFRA_ERROR /\ pushCalls calls = [] /\
          kv w' = kv w2 /\ pushoverInbox w' = pushoverInbox w2
      | None =>
          if bool_decide (is_Some (kvLive w2 key))
          then
            run.1 = Ok DEDUPED /\ pushCalls calls = [] /\
            kv w' = kv w2 /\ pushoverInbox w' = pushoverInbox w2
          else
            run.1 = Ok (if pushoverAccepts w2 then PUSHED else INFRA_ERROR) /\
            length (pushCalls calls) = 1%nat /\
            length (dedupCalls calls) = 1%nat /\
            kv w' !! key = Some (VString "1", now w2 + 2592000 * 1000)
      end
  end.
Proof.
  intros Hdec run calls w' key. subst run calls w'.
  rewrite (webhookHandler_decoded _ _ _ _ _ _ _ Hdec).
  assert (Httl : dedupeTtlSeconds config = 2592000).
  { destruct Hdec as (_ & s1 & Hload & _). eapply default_loadConfig_ttl, Hload. }
  pose proof (handleVerified_default config verified
                [CalledLoadConfig; CalledVerifyNotification sp] w2) as Hrest.
  rewrite Httl in Hrest. fold key in Hrest. simpl in Hrest.
  destruct (classifyNotificationType (notificationType verified)) eqn:Hclass.
  - apply Hrest. discriminate.
  - apply Hrest. discriminate.
  - rewrite (handleVerified_ignored _ _ _ _ _ _ Hclass (default_log _ _)).
    simpl. repeat split; reflexivity.
Qed.

End WithDefaults.

End HandlerProofs.

(** ** Instances on the fixtures *)

Section OnFixtures.
Import Fixtures Scenarios.
#[local] Existing Instance objectRuntime.
#[local] Existing Instance noAppsSchema.
#[local] Existing Instance projectFiles.
#[local] Existing Instance mockResponse.

(** The four cases the specification lists for the hint. *)
Example hint_cases :
  let day := 24 * 60 * 60 * 1000 in
  let tx offer purchased :=
    Some {| productId := None; transactionId := None; price := None;
            currency := None; originalTransactionId := Some "otx";
            purchaseDate := Some (Finite purchased);
            originalPurchaseDate := Some (Finite 1700000000000);
            offerDiscountType := offer; transactionReason := None |} in
  SubscriptionStateStore.determineLifecycleHint "SUBSCRIBED"
    (tx (Some "FREE_TRIAL") 1700000000000) None
  = Some SubscriptionStateStore.TRIAL_START /\
  SubscriptionStateStore.determineLifecycleHint "DID_RENEW"
    (tx None (1700000000000 + 30 * day))
    (SubscriptionStateStore.parseSubscriptionState storedTrialState)
  = Some SubscriptionStateStore.FIRST_PAID_AFTER_TRIAL /\
  SubscriptionStateStore.determineLifecycleHint "DID_RENEW"
    (tx None (1700000000000 + 7 * day)) None
  = Some SubscriptionStateStore.FIRST_PAID_AFTER_TRIAL /\
  SubscriptionStateStore.determineLifecycleHint "DID_RENEW"
    (tx None (1700000000000 + 365 * day)) None
  = Some SubscriptionStateStore.RENEWAL.
Proof. vm_compute. repeat split; reflexivity. Qed.

(** Witness for C2: the id [uuid-1] in an empty store, asked again one day
    later and again thirty days later. *)
Lemma markNotificationAsNew_idempotent_witness :
  let first := DedupeStore.markNotificationAsNew "uuid-1" createConfig
                 (worldAt 1700000000000 200) in
  first.1 = Ok true /\
  (DedupeStore.markNotificationAsNew "uuid-1" createConfig
     (atInstant (1700000000000 + 86400000) first.2)).1 = Ok false /\
  (DedupeStore.markNotificationAsNew "uuid-1" createConfig
     (atInstant (1700000000000 + 2592000000) first.2)).1 = Ok true.
Proof.
  intros first.
  destruct (markNotificationAsNew_idempotent environmentVariables createConfig
              "uuid-1" (worldAt 1700000000000 200)
              ltac:(reflexivity) ltac:(reflexivity) ltac:(reflexivity))
    as (Hfirst & _ & Hwithin & Hafter).
  split; [exact Hfirst|]. split.
  - apply (Hwithin (atInstant (1700000000000 + 86400000) first.2));
      [reflexivity | reflexivity | vm_compute; reflexivity].
  - apply (Hafter (atInstant (1700000000000 + 2592000000) first.2));
      [reflexivity | reflexivity | vm_compute; discriminate].
Defined.

(** Witness for C8 (amended): the key of [uuid-1], and the key of another
    id left alone. *)
Lemma dedupeKey_appstore_prefix_witness :
  DedupeStore.getDedupeKey "uuid-1" = "appstore:notification:uuid-1" /\
  kv (DedupeStore.markNotificationAsNew "uuid-1" createConfig
        (worldAt 1700000000000 200)).2 !! "appstore:notification:uuid-2"
  = kv (worldAt 1700000000000 200) !! "appstore:notification:uuid-2".
Proof.
  destruct (dedupeKey_appstore_prefix "uuid-1" createConfig (worldAt 1700000000000 200))
    as (Hkey & Hcall).
  split; [exact Hkey|].
  destruct (Hcall ltac:(reflexivity)) as (_ & Hothers).
  apply Hothers. discriminate.
Defined.



(** Witness for C9: the priced and the unpriced input of the tests, under
    the builder that the handler imports. *)
Lemma buildPushoverMessage_amount_witness :
  includes "amount=29990 EUR"
    (MessageBuilder.message (MessageBuilder.buildPushoverMessage pricedInput)) = true /\
  Forall (fun part => String.prefix "amount=" part = false)
    (MessageBuilder.messageParts unpricedInput).
Proof.
  destruct (buildPushoverMessage_amount (rt := objectRuntime))
    as (Hpriced & _ & _ & Hunpriced & _).
  split.
  - destruct (Hpriced pricedInput ltac:(reflexivity) ltac:(reflexivity))
      as (_ & _ & Hincludes).
    exact Hincludes.
  - destruct (Hunpriced unpricedInput ltac:(reflexivity)) as (_ & Hparts).
    exact Hparts.
Defined.

(** Counterexample to C4 as stated.  One tenant, [com.example.app];
    production verification fails, sandbox verification succeeds, and the
    payload says [com.other]: the result is the bundle mismatch error. *)
Lemma sandbox_fallback_with_failing_check :
  ~ sandboxFallbackAlwaysReturns
      (apple := sandboxOnly "com.example.app" (payloadOf "uuid-1" "SUBSCRIBED" "com.other")).
Proof.
  intros Hall.
  assert (Hbad : isOk (verifyAppleNotification
                         (apple := sandboxOnly "com.example.app"
                                     (payloadOf "uuid-1" "SUBSCRIBED" "com.other"))
                         "jws-data" createConfig (worldAt 1700000000000 200)).1 = true).
  { eapply (Hall createConfig "jws-data" (tenant "com.example.app" 1234567890)
              "com.example.app").
    - left. reflexivity.
    - reflexivity.
    - reflexivity.
    - reflexivity.
    - reflexivity.
    - reflexivity. }
  vm_compute in Hbad. discriminate.
Qed.

(** Witness for C4 (amended): one tenant, production fails, sandbox
    succeeds, and the payload passes the decoder's checks. *)
Lemma production_then_sandbox_witness :
  exists (v : VerifiedNotification) (w : World),
    verifyAppleNotification
      (apple := sandboxOnly "com.example.app"
                  (payloadOf "uuid-1" "SUBSCRIBED" "com.example.app"))
      "jws-data" createConfig (worldAt 1700000000000 200) = (Ok v, w) /\
    notificationUUID v = "uuid-1" /\
    appAppleId v = 1234567890.
Proof.
  edestruct (production_then_sandbox
               (apple := sandboxOnly "com.example.app"
                           (payloadOf "uuid-1" "SUBSCRIBED" "com.example.app"))
               createConfig "jws-data" [] [] (tenant "com.example.app" 1234567890)
               "com.example.app" (worldAt 1700000000000 200))
    as (_ & Hfallback).
  - reflexivity.
  - apply passes_none.
  - reflexivity.
  - reflexivity.
  - reflexivity.
  - edestruct (Hfallback (payloadOf "uuid-1" "SUBSCRIBED" "com.example.app")
                 "uuid-1" "SUBSCRIBED" "com.example.app" None)
      as (v & Hrun & Huuid & _ & _ & Happ & _);
      try reflexivity.
    exists v. eexists. split; [exact Hrun|]. split; [exact Huuid | exact Happ].
Defined.

(** The request of the tests decodes under the default dependencies when
    the library accepts the envelope in the sandbox. *)
Lemma postRequest_decodes (status : Z) :
  exists w2 : World,
    decodesSuccessfully
      (defaultDependencies
         (apple := sandboxOnly "com.example.app"
                     (payloadOf "uuid-1" "SUBSCRIBED" "com.example.app")))
      postRequest (worldAt 1700000000000 status)
      createConfig "jws-data"
      {| notificationUUID := "uuid-1"; notificationType := "SUBSCRIBED";
         subtype := None; environment := "Sandbox";
         bundleId := "com.example.app"; appAppleId := 1234567890;
         pushoverUserKey := "pushover-user-key"; pushoverDevice := None;
         signedTransactionInfo := None; transactionInfo := None |}
      w2 /\
    kv w2 = ∅ /\ kvFailure w2 = None /\ now w2 = 1700000000000 /\
    pushoverUnreachable w2 = None /\ pushoverStatus w2 = status.
Proof.
  pose (run := verifyAppleNotification
                 (apple := sandboxOnly "com.example.app"
                             (payloadOf "uuid-1" "SUBSCRIBED" "com.example.app"))
                 "jws-data" createConfig (worldAt 1700000000000 status)).
  exists run.2. split.
  - split; [reflexivity|]. exists (worldAt 1700000000000 status).
    split; [reflexivity|]. split; [reflexivity|]. split; [reflexivity|].
    change (run = (Ok {| notificationUUID := "uuid-1"; notificationType := "SUBSCRIBED";
                         subtype := None; environment := "Sandbox";
                         bundleId := "com.example.app"; appAppleId := 1234567890;
                         pushoverUserKey := "pushover-user-key"; pushoverDevice := None;
                         signedTransactionInfo := None; transactionInfo := None |},
                   run.2)).
    rewrite (surjective_pairing run) at 1. f_equal.
  - repeat split; reflexivity.
Qed.

(** Counterexample to C5 as stated.  A purchase with a new id decodes, the
    store is reachable, and the Pushover API answers 500: the request ends
    with the infrastructure error, not PUSHED. *)
Lemma new_purchase_with_failing_push :
  ~ newActionableAlwaysPushed
      (apple := sandboxOnly "com.example.app"
                  (payloadOf "uuid-1" "SUBSCRIBED" "com.example.app")).
Proof.
  intros Hall.
  destruct (postRequest_decodes 500) as (w2 & Hdec & Hkv & Hup & _).
  specialize (Hall _ _ _ _ _ _ Hdec).
  assert (Hpushed : (webhookHandler
                       (spy (defaultDependencies
                               (apple := sandboxOnly "com.example.app"
                                           (payloadOf "uuid-1" "SUBSCRIBED"
                                                      "com.example.app"))))
                       postRequest ([], worldAt 1700000000000 500)).1 = Ok PUSHED).
  { apply Hall.
    - vm_compute. discriminate.
    - exact Hup.
    - unfold kvLive. rewrite Hkv. reflexivity. }
  vm_compute in Hpushed. discriminate.
Qed.

(** Witness for C5 (amended): the same request with the Pushover API
    answering 200 ends PUSHED, with one push call and the key written. *)
Lemma pipeline_outcomes_witness :
  let run := webhookHandler
               (spy (defaultDependencies
                       (apple := sandboxOnly "com.example.app"
                                   (payloadOf "uuid-1" "SUBSCRIBED" "com.example.app"))))
               postRequest ([], worldAt 1700000000000 200) in
  run.1 = Ok PUSHED /\
  length (pushCalls run.2.1) = 1%nat /\
  kv run.2.2 !! "appstore:notification:uuid-1"
  = Some (VString "1", 1700000000000 + 2592000 * 1000).
Proof.
  intros run.
  destruct (postRequest_decodes 200) as (w2 & Hdec & Hkv & Hup & Hnow & Hreach & Hstatus).
  pose proof (pipeline_outcomes
                (apple := sandboxOnly "com.example.app"
                            (payloadOf "uuid-1" "SUBSCRIBED" "com.example.app"))
                _ _ _ _ _ _ Hdec) as Hout.
  cbv zeta in Hout.
  change (classifyNotificationType _) with PURCHASE in Hout.
  rewrite Hup in Hout. unfold kvLive in Hout. rewrite Hkv in Hout.
  rewrite lookup_empty in Hout.
  rewrite bool_decide_eq_false_2 in Hout by (intros [? ?]; discriminate).
  unfold pushoverAccepts in Hout. rewrite Hreach, Hstatus, Hnow in Hout.
  destruct Hout as (Hresult & Hpush & _ & Hkey).
  split; [exact Hresult|]. split; [exact Hpush | exact Hkey].
Defined.

(** The end-to-end scenario on the fixtures: the first delivery of
    [uuid-1] ends PUSHED with one push; the same delivery replayed an hour
    later ends DEDUPED with none; a delivery of an unclassified type ends
    IGNORED without touching the store. *)
Example end_to_end_scenario :
  let library type :=
    sandboxOnly "com.example.app" (payloadOf "uuid-1" type "com.example.app") in
  let first :=
    webhookHandler (spy (defaultDependencies (apple := library "SUBSCRIBED")))
      postRequest ([], worldAt 1700000000000 200) in
  let replay :=
    webhookHandler (spy (defaultDependencies (apple := library "SUBSCRIBED")))
      postRequest ([], atInstant (1700000000000 + 3600000) first.2.2) in
  let other :=
    webhookHandler (spy (defaultDependencies (apple := library "DID_CHANGE_RENEWAL_STATUS")))
      postRequest ([], worldAt 1700000000000 200) in
  (first.1 = Ok PUSHED /\ length (pushoverInbox first.2.2) = 1%nat) /\
  (replay.1 = Ok DEDUPED /\ pushCalls replay.2.1 = [] /\
   length (pushoverInbox replay.2.2) = 1%nat) /\
  (other.1 = Ok IGNORED /\ dedupCalls other.2.1 = [] /\ pushCalls other.2.1 = [] /\
   kv other.2.2 = ∅).
Proof. vm_compute. repeat split; reflexivity. Qed.

(** Witness for C7: the test "returns 500 when dedupe storage fails". *)
Lemma dedup_failure_is_infra_error_witness :
  let run := webhookHandler
               (spy (doubles subscribedNotification
                       (Threw (mkError "upstash down")) (Ok tt)))
               postRequest ([], tt) in
  run.1 = Ok INFRA_ERROR /\ pushCalls run.2.1 = [].
Proof.
  intros run.
  destruct (dedup_failure_is_infra_error
              (doubles subscribedNotification (Threw (mkError "upstash down")) (Ok tt))
              postRequest tt tt tt tt createConfig "jws-data" subscribedNotification
              (mkError "upstash down"))
    as (Hresult & _ & _ & _ & Hpush & _).
  - split; [reflexivity|]. exists tt. repeat split; reflexivity.
  - vm_compute. discriminate.
  - reflexivity.
  - reflexivity.
  - split; [exact Hresult | exact Hpush].
Defined.

(** C6, on the code.  The test "includes lifecycle details for trial to paid
    renewals", run on the handler: the request ends PUSHED after the
    configuration load, the verification, the dedup call, one push and the
    log; no call consults the lifecycle store, and the message pushed has no
    lifecycle part. *)
Theorem handler_pushes_without_lifecycle :
  let run := webhookHandler (spy (doubles renewalNotification (Ok true) (Ok tt)))
               postRequest ([], tt) in
  run.1 = Ok PUSHED /\
  run.2.1 = [CalledLoadConfig;
             CalledVerifyNotification "jws-data";
             CalledMarkNotificationAsNew "uuid-renew";
             CalledSendPushover "In-App Kauf"
               "app=com.example.app | type=DID_RENEW | product=pro_yearly | env=Production | tx=100000...2233"
               (Some {| userKey := Some "pushover-user-key"; device := None |});
             CalledLog (buildLogPayload "pushed" renewalNotification None)] /\
  includes "lifecycle=FIRST_PAID_AFTER_TRIAL"
    (MessageBuilder.message (pushMessageOf renewalNotification)) = false.
Proof. vm_compute. repeat split; reflexivity. Qed.

End OnFixtures.

(** * Further properties

    Properties of the code beyond the claims of the specification: the
    handler's early exits and its discipline of calls, the payload
    extraction, the resolver's results and its caches, the configuration
    loader, the lifecycle store, the classifier, the message builder, and
    the pipeline under the default dependencies. *)

(** ** Facts about strings *)

Section StringFacts.

Lemma substring_skip (front back : string) (n : nat) :
  substring (String.length front) n (front +:+ back) = substring 0 n back.
Proof. induction front as [|c front IH]; simpl; [reflexivity | exact IH]. Qed.

Lemma substring_all (s : string) : substring 0 (String.length s) s = s.
Proof. induction s as [|c s IH]; simpl; [reflexivity | now rewrite IH]. Qed.

Lemma length_append (a b : string) :
  String.length (a +:+ b) = (String.length a + String.length b)%nat.
Proof. induction a as [|c a IH]; simpl; [reflexivity | now rewrite IH]. Qed.

Lemma lowercase_length (s : string) : String.length (lowercase s) = String.length s.
Proof. induction s as [|c s IH]; simpl; [reflexivity | now rewrite IH]. Qed.

Lemma substring_length (s : string) (n m : nat) :
  (n + m <= String.length s)%nat -> String.length (substring n m s) = m.
Proof.
  revert n m. induction s as [|c s IH]; intros n m Hlen; simpl in *.
  - destruct n, m; simpl; lia.
  - destruct n as [|n].
    + destruct m as [|m]; simpl; [reflexivity|]. rewrite (IH 0%nat m); lia.
    + apply IH. lia.
Qed.

Lemma prefix_substring (s : string) (m : nat) :
  String.prefix (substring 0 m s) s = true.
Proof.
  revert m. induction s as [|c s IH]; intros [|m]; simpl; try reflexivity.
  destruct (ascii_dec c c); [apply IH | congruence].
Qed.

Lemma append_inj_l (a u u' : string) : a +:+ u = a +:+ u' -> u = u'.
Proof. induction a as [|c a IH]; simpl; [auto|]. intros [= H]. auto. Qed.

End StringFacts.

(** ** webhookHandler.ts: the exits before a notification is decoded *)

Section HandlerExits.
Context {rt : JsRuntime} {responseObject : ResponseObject}.

(** X1. A request whose method is not POST is answered 405
    [method_not_allowed] at once: no dependency is called, not even the
    configuration load, and the state is left as it was. *)
Theorem not_post_is_rejected_untouched {S} (deps : WebhookDependencies S)
    (request : WebhookRequest) (calls : list Call) (s : S) :
  method request <> Some "POST" ->
  webhookHandler (spy deps) request (calls, s)
  = (Ok (responseJson 405 (errorBody "method_not_allowed")), (calls, s)).
Proof.
  intros Hmethod. unfold webhookHandler.
  destruct (optString_eqb (method request) "POST") eqn:Heq.
  - apply optString_eqb_spec in Heq. contradiction.
  - reflexivity.
Qed.

(** X2. When [loadConfig] throws, a POST is answered 500
    [invalid_configuration]; the only calls are the configuration load and
    the log of the error's message: nothing is verified, stored or pushed. *)
Theorem configuration_failure_is_500 {S} (deps : WebhookDependencies S)
    (request : WebhookRequest) (s0 s1 s2 : S) (e : Error) :
  method request = Some "POST" ->
  deps_loadConfig deps s0 = (Threw e, s1) ->
  deps_log deps (configurationErrorLog e) s1 = (Ok tt, s2) ->
  webhookHandler (spy deps) request ([], s0)
  = (Ok (responseJson 500 (errorBody "invalid_configuration")),
     ([CalledLoadConfig; CalledLog (configurationErrorLog e)], s2)).
Proof.
  intros Hmethod Hload Hlog. unfold webhookHandler. rewrite Hmethod. simpl.
  unfold bind, tryCatch. simpl.
  rewrite (spied_run _ _ _ _ _ _ Hload). simpl.
  fold (configurationErrorLog e).
  rewrite (spied_run _ _ _ _ _ _ Hlog). reflexivity.
Qed.

(** X3. A POST whose [secret] query parameter is missing or differs from
    the configured webhook secret is answered 404 [not_found]; the body is
    not looked at, nothing is verified and nothing is logged. *)
Theorem wrong_secret_is_404 {S} (deps : WebhookDependencies S)
    (request : WebhookRequest) (s0 s1 : S) (config : AppConfig) :
  method request = Some "POST" ->
  deps_loadConfig deps s0 = (Ok config, s1) ->
  readQueryParam (query request) "secret" <> Some (webhookSecret config) ->
  webhookHandler (spy deps) request ([], s0)
  = (Ok (responseJson 404 (errorBody "not_found")), ([CalledLoadConfig], s1)).
Proof.
  intros Hmethod Hload Hsecret. unfold webhookHandler. rewrite Hmethod. simpl.
  unfold bind, tryCatch. simpl.
  rewrite (spied_run _ _ _ _ _ _ Hload). simpl.
  destruct (optString_eqb (readQueryParam (query request) "secret")
              (webhookSecret config)) eqn:Heq.
  - apply optString_eqb_spec in Heq. contradiction.
  - reflexivity.
Qed.

(** X4. A POST with the right secret whose body yields no signed payload is
    answered 400 [invalid_payload] without a call to the verifier. *)
Theorem missing_payload_is_400 {S} (deps : WebhookDependencies S)
    (request : WebhookRequest) (s0 s1 : S) (config : AppConfig) :
  method request = Some "POST" ->
  deps_loadConfig deps s0 = (Ok config, s1) ->
  readQueryParam (query request) "secret" = Some (webhookSecret config) ->
  getSignedPayload (body request) = None ->
  webhookHandler (spy deps) request ([], s0)
  = (Ok (responseJson 400 (errorBody "invalid_payload")), ([CalledLoadConfig], s1)).
Proof.
  intros Hmethod Hload Hsecret Hpayload. unfold webhookHandler. rewrite Hmethod. simpl.
  unfold bind, tryCatch. simpl.
  rewrite (spied_run _ _ _ _ _ _ Hload). simpl.
  rewrite Hsecret. simpl. rewrite String.eqb_refl. simpl. rewrite Hpayload.
  reflexivity.
Qed.

(** X5. When [verifyNotification] throws, the request is answered 400
    [invalid_signature]; the error's message is logged, and neither the
    deduplication store nor the push channel is called. *)
Theorem verification_failure_is_400 {S} (deps : WebhookDependencies S)
    (request : WebhookRequest) (s0 s1 s2 s3 : S) (config : AppConfig)
    (sp : string) (e : Error) :
  method request = Some "POST" ->
  deps_loadConfig deps s0 = (Ok config, s1) ->
  readQueryParam (query request) "secret" = Some (webhookSecret config) ->
  getSignedPayload (body request) = Some sp ->
  deps_verifyNotification deps sp config s1 = (Threw e, s2) ->
  deps_log deps (configurationErrorLog e) s2 = (Ok tt, s3) ->
  let run := webhookHandler (spy deps) request ([], s0) in
  run = (Ok (responseJson 400 (errorBody "invalid_signature")),
         ([CalledLoadConfig; CalledVerifyNotification sp;
           CalledLog (configurationErrorLog e)], s3)) /\
  dedupCalls run.2.1 = [] /\ pushCalls run.2.1 = [].
Proof.
  intros Hmethod Hload Hsecret Hpayload Hverify Hlog run. subst run.
  unfold webhookHandler. rewrite Hmethod. simpl.
  unfold bind, tryCatch. simpl.
  rewrite (spied_run _ _ _ _ _ _ Hload). simpl.
  rewrite Hsecret. simpl. rewrite String.eqb_refl. simpl. rewrite Hpayload.
  rewrite (spied_run _ _ _ _ _ _ Hverify). simpl.
  fold (configurationErrorLog e).
  rewrite (spied_run _ _ _ _ _ _ Hlog). simpl. repeat split; reflexivity.
Qed.

End HandlerExits.

(** ** webhookHandler.ts: what holds of every run *)

Section HandlerSafety.
Context {rt : JsRuntime} {responseObject : ResponseObject}.

Ltac run_dependency :=
  match goal with
  | |- context [deps_loadConfig ?d ?s] =>
      destruct (deps_loadConfig d s) as [[?|?] ?]
  | |- context [deps_verifyNotification ?d ?a ?b ?s] =>
      destruct (deps_verifyNotification d a b s) as [[?|?] ?]
  | |- context [deps_markNotificationAsNew ?d ?a ?b ?s] =>
      destruct (deps_markNotificationAsNew d a b s) as [[[|]|?] ?]
  | |- context [deps_sendPushover ?d ?a ?b ?c ?t ?s] =>
      destruct (deps_sendPushover d a b c t s) as [[?|?] ?]
  | |- context [deps_log ?d ?p ?s] =>
      destruct (deps_log d p s) as [[?|?] ?]
  | |- context [if ?x then _ else _] => destruct x
  | |- context [match ?x with _ => _ end] => destruct x
  end; cbn [fst snd negb].

Lemma pushesFollowDedup_spec (calls : list Call) (dedupSeen : bool) :
  pushesFollowDedup dedupSeen calls = true ->
  forall (before : list Call) (push : Call) (after : list Call),
    calls = (before ++ push :: after)%list ->
    isPushCall push = true ->
    dedupSeen = true \/
    exists uuid : string, In (CalledMarkNotificationAsNew uuid) before.
Proof.
  revert dedupSeen. induction calls as [|call rest IH]; intros dedupSeen Hscan
    before push after Hsplit Hpush.
  - destruct before; discriminate.
  - destruct before as [|first before]; simpl in Hsplit; injection Hsplit as -> ->.
    + simpl in Hscan. rewrite Hpush in Hscan.
      apply andb_true_iff in Hscan. left. tauto.
    + simpl in Hscan. destruct (isPushCall first) eqn:Hfirst.
      * apply andb_true_iff in Hscan. destruct Hscan as [Hseen Hrest].
        left. exact Hseen.
      * destruct (IH _ Hscan before push after eq_refl Hpush) as [Hseen|(uuid & Hin)].
        -- apply orb_true_iff in Hseen. destruct Hseen as [Hseen|Hdedup];
             [now left|].
           right. destruct first; try discriminate. eexists. left. reflexivity.
        -- right. exists uuid. now right.
Qed.

(** X6. Whatever the dependencies do and whatever the request is, one run
    of the handler calls the deduplication store at most once and sends at
    most one push, and a push call comes only after a call to the
    deduplication store in the order of the calls; every response the
    handler returns has one of the status codes 200, 400, 404, 405 and 500
    and carries the header [Cache-Control: no-store] exactly when the
    response object has [setHeader]. *)
Theorem handler_call_discipline {S} (deps : WebhookDependencies S)
    (request : WebhookRequest) (s : S) :
  let run := webhookHandler (spy deps) request ([], s) in
  (length (dedupCalls run.2.1) <= 1)%nat /\
  (length (pushCalls run.2.1) <= 1)%nat /\
  (forall (before : list Call) (push : Call) (after : list Call),
      run.2.1 = (before ++ push :: after)%list ->
      isPushCall push = true ->
      exists uuid : string, In (CalledMarkNotificationAsNew uuid) before) /\
  forall response : WebhookResponse,
    run.1 = Ok response ->
    headers response
    = (if hasSetHeader then [("Cache-Control", "no-store")] else []) /\
    In (statusCode response) [200; 400; 404; 405; 500].
Proof.
  assert (Hheaders : forall code body',
             headers (responseJson code body')
             = if hasSetHeader then [("Cache-Control", "no-store")] else [])
    by reflexivity.
  remember (if hasSetHeader then [("Cache-Control", "no-store")] else [])
    as expected eqn:Hexpected.
  clear Hexpected.
  cbv zeta. unfold webhookHandler, handleVerified, bind, tryCatch, spy, spied, ret.
  cbn [deps_loadConfig deps_verifyNotification deps_markNotificationAsNew
       deps_sendPushover deps_log fst snd].
  repeat run_dependency;
    (split; [cbv [dedupCalls List.filter isDedupCall app length fst snd]; lia|]);
    (split; [cbv [pushCalls List.filter isPushCall app length fst snd]; lia|]);
    (split;
     [intros before push after Hsplit Hpush;
      cbn [fst snd app] in Hsplit;
      match type of Hsplit with
      | ?calls = _ =>
          destruct (pushesFollowDedup_spec calls false eq_refl
                      before push after Hsplit Hpush) as [Hseen|Hfound];
          [discriminate Hseen | exact Hfound]
      end|]);
    intros response Hresp; inversion Hresp; subst;
    (split; [apply Hheaders | simpl; tauto]).
Qed.

(** The handler keeps every relation between states that each dependency
    keeps, provided the relation is reflexive and transitive. *)
Lemma webhookHandler_preserves {S} (R : S -> S -> Prop)
    (deps : WebhookDependencies S) :
  (forall s, R s s) ->
  (forall a b c, R a b -> R b c -> R a c) ->
  (forall s, R s (deps_loadConfig deps s).2) ->
  (forall sp config s, R s (deps_verifyNotification deps sp config s).2) ->
  (forall uuid config s, R s (deps_markNotificationAsNew deps uuid config s).2) ->
  (forall config t m target s, R s (deps_sendPushover deps config t m target s).2) ->
  (forall payload s, R s (deps_log deps payload s).2) ->
  forall (request : WebhookRequest) (s : S),
    R s (webhookHandler deps request s).2.
Proof.
  intros Hrefl Htrans Hload Hverify Hmark Hsend Hlog request s.
  unfold webhookHandler, handleVerified, bind, tryCatch, ret.
  repeat match goal with
         | |- context [deps_loadConfig ?d ?s] =>
             pose proof (Hload s);
             destruct (deps_loadConfig d s) as [[?|?] ?]
         | |- context [deps_verifyNotification ?d ?a ?b ?s] =>
             pose proof (Hverify a b s);
             destruct (deps_verifyNotification d a b s) as [[?|?] ?]
         | |- context [deps_markNotificationAsNew ?d ?a ?b ?s] =>
             pose proof (Hmark a b s);
             destruct (deps_markNotificationAsNew d a b s) as [[[|]|?] ?]
         | |- context [deps_sendPushover ?d ?a ?b ?c ?t ?s] =>
             pose proof (Hsend a b c t s);
             destruct (deps_sendPushover d a b c t s) as [[?|?] ?]
         | |- context [deps_log ?d ?p ?s] =>
             pose proof (Hlog p s);
             destruct (deps_log d p s) as [[?|?] ?]
         | |- context [if ?x then _ else _] => destruct x
         | |- context [match ?x with _ => _ end] => destruct x
         end; cbn [fst snd negb] in *;
    eauto 7.
Qed.

End HandlerSafety.

(** ** webhookHandler.ts: the signed payload of a body *)

Section SignedPayload.
Context {rt : JsRuntime}.

Lemma fuelNeeded_parsed (text : string) (parsed : JSValue) :
  JSON_parse text = Some parsed -> (fuelNeeded parsed <= String.length text)%nat.
Proof.
  intros Hparse. destruct parsed; simpl; try lia.
  apply JSON_parse_string_shorter in Hparse. lia.
Qed.

(** X7. The recursion of [getSignedPayload] on a string body: the text is
    parsed as JSON and the answer is the one for the parsed value; a text
    that does not parse has no signed payload.  (The fuel of the embedding
    never runs out.) *)
Theorem getSignedPayload_string_body (text : string) :
  getSignedPayload (VString text)
  = match JSON_parse text with
    | Some parsed => getSignedPayload parsed
    | None => None
    end.
Proof.
  change (getSignedPayload (VString text))
    with (match JSON_parse text with
          | None => None
          | Some parsed => getSignedPayloadFuel (String.length text) parsed
          end).
  destruct (JSON_parse text) as [parsed|] eqn:Hparse; [|reflexivity].
  apply getSignedPayload_any_fuel. now apply fuelNeeded_parsed.
Qed.

Lemma getSignedPayloadFuel_not_blank (fuel : nat) (body' : JSValue) (sp : string) :
  getSignedPayloadFuel fuel body' = Some sp ->
  (0 < String.length (trim sp))%nat.
Proof.
  revert body'. induction fuel as [|fuel IH]; intros body' Hsome.
  - destruct body' as [| | | |text| |fields]; try discriminate.
    simpl in Hsome. destruct (assoc "signedPayload" fields); try discriminate.
    destruct (0 <? String.length (trim s))%nat eqn:Hlen; [|discriminate].
    inversion Hsome; subst. now apply Nat.ltb_lt.
  - destruct body' as [| | | |text| |fields]; try discriminate.
    + simpl in Hsome. destruct (JSON_parse text) as [parsed|]; [|discriminate].
      eapply IH, Hsome.
    + simpl in Hsome. destruct (assoc "signedPayload" fields); try discriminate.
      destruct (0 <? String.length (trim s))%nat eqn:Hlen; [|discriminate].
      inversion Hsome; subst. now apply Nat.ltb_lt.
Qed.

Lemma trimStart_head (s : string) (c : ascii) (rest : string) :
  trimStart s = String c rest ->
  isWhiteSpace c = false /\ exists front : string, s = front +:+ String c rest.
Proof.
  induction s as [|a s IH]; simpl; [discriminate|].
  destruct (isWhiteSpace a) eqn:Hws.
  - intros Hrest. destruct (IH Hrest) as [Hc (front & ->)].
    split; [exact Hc|]. exists (String a front). reflexivity.
  - intros [= <- <-]. split; [exact Hws|]. exists EmptyString. reflexivity.
Qed.

Lemma trim_not_blank (s : string) :
  (0 < String.length (trim s))%nat ->
  exists (front : string) (c : ascii) (back : string),
    s = front +:+ String c back /\ isWhiteSpace c = false.
Proof.
  unfold trim. destruct (trimStart s) as [|c rest] eqn:Hstart; [simpl; lia|].
  intros _. destruct (trimStart_head s c rest Hstart) as [Hc (front & ->)].
  exists front, c, rest. split; [reflexivity | exact Hc].
Qed.

(** X8. A signed payload that [getSignedPayload] returns is never blank: it
    holds a character that [trim] does not strip, that is, one that is
    neither TAB, LF, VT, FF, CR, SPACE nor NO-BREAK SPACE; so the verifier
    is never called with an empty or all-blank envelope. *)
Theorem getSignedPayload_not_blank (body' : JSValue) (sp : string) :
  getSignedPayload body' = Some sp ->
  (0 < String.length (trim sp))%nat /\
  exists (front : string) (c : ascii) (back : string),
    sp = front +:+ String c back /\
    ~ In (nat_of_ascii c) [9; 10; 11; 12; 13; 32; 160]%nat.
Proof.
  intros Hsome.
  assert (Hlen : (0 < String.length (trim sp))%nat).
  { unfold getSignedPayload in Hsome.
    destruct body'; eapply getSignedPayloadFuel_not_blank, Hsome. }
  split; [exact Hlen|].
  destruct (trim_not_blank sp Hlen) as (front & c & back & Hsp & Hc).
  exists front, c, back. split; [exact Hsp|].
  unfold isWhiteSpace in Hc. intros Hin. simpl in Hin.
  destruct Hin as [H|[H|[H|[H|[H|[H|[H|[]]]]]]]]; rewrite <- H in Hc; discriminate Hc.
Qed.

End SignedPayload.

(** ** appleVerifier.ts: the resolver's results *)

Section ResolverMore.
Context {rt : JsRuntime} {fs : FileSystem} {apple : AppleLibrary}.

(** X9. When the resolver passes over every configured tenant (no
    candidate bundle id, or no verifier accepts the envelope), it throws:
    the error of the last verifier that failed, or, when no verifier was
    tried at all, the error [Unable to verify Apple signed payload.] *)
Theorem no_tenant_verifies_throws_last_error (config : AppConfig) (sp : string)
    (w w' : World) (le : option Error) :
  passesOver config sp (appleApps config) None w le w' ->
  verifyAppleNotification sp config w
  = (Threw (nullishOr le (mkError "Unable to verify Apple signed payload.")), w').
Proof.
  intros Hpass. unfold verifyAppleNotification.
  rewrite <- (app_nil_r (appleApps config)).
  rewrite (verifyLoop_passesOver _ _ _ _ _ _ _ _ Hpass). reflexivity.
Qed.





Lemma tryVerifiers_decoded (vs : list SignedDataVerifier) (sp : string)
    (le : option Error) (p : JSValue) (used : SignedDataVerifier) :
  decoded (tryVerifiers vs sp le) = Some (p, used) ->
  In used vs /\ verifiesUnder used sp = Some p.
Proof.
  revert le. induction vs as [|v vs IH]; intros le Hdec; [discriminate|].
  simpl in Hdec. unfold verifiesUnder.
  destruct (verifyAndDecodeNotification v sp) as [raw|e] eqn:Hv.
  - destruct (ensureNotificationPayload raw) as [q|e] eqn:Hq.
    + simpl in Hdec. inversion Hdec; subst. split; [now left|].
      now rewrite Hv, Hq.
    + destruct (IH _ Hdec) as [Hin Hu]. split; [now right | exact Hu].
  - destruct (IH _ Hdec) as [Hin Hu]. split; [now right | exact Hu].
Qed.

(** [getVerifiers] keeps the cache's invariant and returns a pair built
    for the bundle id it was asked for. *)
Lemma getVerifiers_coherent (config : AppConfig) (b : string) (appId : Z)
    (w w' : World) (vs : VerifierPair) :
  verifierCacheCoherent w ->
  getVerifiers config b appId w = (Ok vs, w') ->
  verifierCacheCoherent w' /\
  sdv_bundleId (production vs) = b /\ sdv_bundleId (sandbox vs) = b.
Proof.
  intros Hcoherent. unfold getVerifiers, getVerifierCacheKey.
  destruct (verifierCache w !! _) as [cached|] eqn:Hhit.
  - intros [= <- <-]. split; [exact Hcoherent|]. eapply Hcoherent, Hhit.
  - unfold createVerifiers. destruct (loadAppleRootCAs _) as [rootCAs|]; [|discriminate].
    intros [= <- <-]. split; [|split; reflexivity].
    intros b' appId' online dir pair. simpl.
    destruct (decide ((b, appId, appleEnableOnlineChecks config,
                       resolveRootCaDirectory (appleRootCaDir config))
                      = (b', appId', online, dir))) as [Hkey|Hkey].
    + rewrite Hkey, lookup_insert_eq. injection Hkey as <- _ _ _.
      intros [= <-]. split; reflexivity.
    + rewrite lookup_insert_ne by exact Hkey. apply Hcoherent.
Qed.

(** A call for another bundle id does not change what [getVerifiers]
    returns for this one. *)
Lemma getVerifiers_other_bundle (config : AppConfig) (b b' : string)
    (appId appId' : Z) (w w1 w2 : World) (vs : VerifierPair)
    (other : Result VerifierPair) :
  b' <> b ->
  getVerifiers config b appId w = (Ok vs, w1) ->
  getVerifiers config b' appId' w = (other, w2) ->
  exists w3 : World, getVerifiers config b appId w2 = (Ok vs, w3).
Proof.
  intros Hdiff. unfold getVerifiers, getVerifierCacheKey.
  assert (Hsame : verifierCache w2
                    !! (b, appId, appleEnableOnlineChecks config,
                        resolveRootCaDirectory (appleRootCaDir config))
                  = verifierCache w
                    !! (b, appId, appleEnableOnlineChecks config,
                        resolveRootCaDirectory (appleRootCaDir config)) ->
                  forall r, (match verifierCache w !! (b, appId, appleEnableOnlineChecks config,
                                resolveRootCaDirectory (appleRootCaDir config)) with
                             | Some cached => (Ok cached, w)
                             | None =>
                                 match createVerifiers config b appId with
                                 | Threw e => (Threw e, w)
                                 | Ok created =>
                                     (Ok created,
                                      setVerifierCache
                                        (insert (b, appId, appleEnableOnlineChecks config,
                                                 resolveRootCaDirectory (appleRootCaDir config))
                                                created) w)
                                 end
                             end) = (Ok vs, r) ->
                  exists w3,
                    (match verifierCache w2 !! (b, appId, appleEnableOnlineChecks config,
                            resolveRootCaDirectory (appleRootCaDir config)) with
                     | Some cached => (Ok cached, w2)
                     | None =>
                         match createVerifiers config b appId with
                         | Threw e => (Threw e, w2)
                         | Ok created =>
                             (Ok created,
                              setVerifierCache
                                (insert (b, appId, appleEnableOnlineChecks config,
                                         resolveRootCaDirectory (appleRootCaDir config))
                                        created) w2)
                         end
                     end) = (Ok vs, w3)).
  { intros ->. intros r.
    destruct (verifierCache w !! _) as [cached|].
    - intros [= -> _]. eexists. reflexivity.
    - destruct (createVerifiers config b appId) as [created|]; [|discriminate].
      intros [= -> _]. eexists. reflexivity. }
  intros Hget Hother. apply (Hsame) with (r := w1); [|exact Hget].
  destruct (verifierCache w !! (b', appId', _, _)) as [cached'|].
  - injection Hother as _ <-. reflexivity.
  - destruct (createVerifiers config b' appId') as [created'|].
    + injection Hother as _ <-. simpl. apply lookup_insert_ne. congruence.
    + injection Hother as _ <-. reflexivity.
Qed.

Lemma tryVerifiers_decoded_any_lastError (vs : list SignedDataVerifier) (sp : string)
    (le le' : option Error) :
  decoded (tryVerifiers vs sp le) = decoded (tryVerifiers vs sp le').
Proof.
  revert le le'. induction vs as [|v vs IH]; intros le le'; [reflexivity|].
  simpl. destruct (verifyAndDecodeNotification v sp) as [raw|e]; [|apply IH].
  destruct (ensureNotificationPayload raw); [reflexivity | apply IH].
Qed.

Lemma verifiesUnder_accepted (v : SignedDataVerifier) (sp : string) (p : JSValue) :
  verifiesUnder v sp = Some p ->
  exists raw : JSValue, verifyAndDecodeNotification v sp = Ok raw.
Proof.
  unfold verifiesUnder. destruct (verifyAndDecodeNotification v sp) as [raw|];
    [eauto | discriminate].
Qed.




End ResolverMore.

(** ** appleVerifier.ts: the verifier cache and the root certificates *)

(** X11. Verifiers are created once per bundle id, app id, online-check flag
    and certificate directory: after a call of [getVerifiers] that returned
    a pair, a further call with the same arguments returns the same pair
    from the cache and changes nothing, whatever the file system holds by
    then. *)
Theorem getVerifiers_caches (fs1 fs2 : FileSystem) (config : AppConfig)
    (b : string) (appId : Z) (w w' : World) (vs : VerifierPair) :
  resolveRootCaDirectory (fs := fs2) (appleRootCaDir config)
  = resolveRootCaDirectory (fs := fs1) (appleRootCaDir config) ->
  getVerifiers (fs := fs1) config b appId w = (Ok vs, w') ->
  getVerifiers (fs := fs2) config b appId w' = (Ok vs, w').
Proof.
  intros Hdir. unfold getVerifiers, getVerifierCacheKey. rewrite Hdir.
  destruct (verifierCache w !! _) as [cached|] eqn:Hhit.
  - intros [= -> <-]. now rewrite Hhit.
  - destruct (createVerifiers config b appId) as [created|]; [|discriminate].
    intros [= -> <-]. simpl. now rewrite lookup_insert_eq.
Qed.

Section CertificatesAndDecoding.
Context {rt : JsRuntime} {fs : FileSystem} {apple : AppleLibrary}.

(** X12. A failure to create verifiers is not cached: when [getVerifiers]
    throws, the error is the one of [createVerifiers] and the world,
    the cache included, is as before, so the next call tries again. *)
Theorem getVerifiers_failure_not_cached (config : AppConfig) (b : string)
    (appId : Z) (w w' : World) (e : Error) :
  getVerifiers config b appId w = (Threw e, w') ->
  w' = w /\ createVerifiers config b appId = Threw e.
Proof.
  unfold getVerifiers.
  destruct (verifierCache w !! _); [discriminate|].
  destruct (createVerifiers config b appId); [discriminate|].
  intros [= -> <-]. split; reflexivity.
Qed.

Lemma mapResult_length {A B} (f : A -> Result B) (l : list A) (out : list B) :
  mapResult f l = Ok out -> length out = length l.
Proof.
  revert out. induction l as [|x l IH]; intros out; simpl.
  - now intros [= <-].
  - destruct (f x); [|discriminate]. destruct (mapResult f l); [|discriminate].
    intros [= <-]. simpl. f_equal. now apply IH.
Qed.

(** X13. [loadAppleRootCAs]: a missing directory and a directory without
    certificate files are errors that name the resolved directory; and when
    the function returns, it returns one certificate for each certificate
    file of the directory, at least one. *)
Theorem loadAppleRootCAs_outcome (rootCaDir : string) :
  (existsSync (resolveRootCaDirectory rootCaDir) = false ->
   loadAppleRootCAs rootCaDir
   = Threw (mkError ("Apple root CA directory not found: "
                     +:+ resolveRootCaDirectory rootCaDir
                     +:+ ". Add Apple root certificates to this folder."))) /\
  (forall files : list string,
      existsSync (resolveRootCaDirectory rootCaDir) = true ->
      readdirSync (resolveRootCaDirectory rootCaDir) = Ok files ->
      List.filter isCertificateFile files = [] ->
      loadAppleRootCAs rootCaDir
      = Threw (mkError ("No Apple root certificates found in "
                        +:+ resolveRootCaDirectory rootCaDir
                        +:+ ". Add .cer/.crt/.pem/.der files."))) /\
  (forall rootCAs : list string,
      loadAppleRootCAs rootCaDir = Ok rootCAs ->
      exists files : list string,
        readdirSync (resolveRootCaDirectory rootCaDir) = Ok files /\
        length rootCAs = length (List.filter isCertificateFile files) /\
        (0 < length rootCAs)%nat).
Proof.
  unfold loadAppleRootCAs. cbv zeta. split; [|split].
  - intros ->. reflexivity.
  - intros files -> -> ->. reflexivity.
  - intros rootCAs.
    destruct (existsSync (resolveRootCaDirectory rootCaDir)); [|discriminate].
    cbn [negb]. destruct (readdirSync (resolveRootCaDirectory rootCaDir)) as [files|];
      [|discriminate].
    destruct (length (List.filter isCertificateFile files) =? 0)%nat eqn:Hlen;
      [discriminate|].
    intros Hmap. apply mapResult_length in Hmap. exists files.
    split; [reflexivity|]. split; [exact Hmap|].
    apply Nat.eqb_neq in Hlen. lia.
Qed.

(** X14. A file name counts as a certificate whenever it ends in one of the
    extensions [.cer], [.crt], [.pem] and [.der], in any mix of upper and
    lower case. *)
Theorem isCertificateFile_by_extension (stem extension : string) :
  In (lowercase extension) [".cer"; ".crt"; ".pem"; ".der"] ->
  isCertificateFile (stem +:+ extension) = true.
Proof.
  intros Hext.
  assert (Hlen : String.length extension = 4%nat).
  { rewrite <- lowercase_length.
    destruct Hext as [<-|[<-|[<-|[<-|[]]]]]; reflexivity. }
  unfold isCertificateFile, sliceBack. rewrite length_append, Hlen.
  replace (String.length stem + 4 - 4)%nat with (String.length stem) by lia.
  rewrite substring_skip.
  replace (substring 0 4 extension) with extension
    by (rewrite <- Hlen; symmetry; apply substring_all).
  replace (4 <=? String.length stem + 4)%nat with true
    by (symmetry; apply Nat.leb_le; lia).
  destruct Hext as [<-|[<-|[<-|[<-|[]]]]]; reflexivity.
Qed.

(** X15. [decodeTransactionInfo]: without signed transaction data there is
    no transaction info and the library is not asked; an error of the
    library is passed on; and a transaction info that is returned has a
    finite price or none (a price that is not a finite number, or a string
    that does not read as one, is dropped). *)
Theorem decodeTransactionInfo_shape (verifier : SignedDataVerifier)
    (signed : option string) :
  (truthyString signed = false -> decodeTransactionInfo verifier signed = Ok None) /\
  (forall e : Error,
      truthyString signed = true ->
      verifyAndDecodeTransaction verifier (nullishOr signed EmptyString) = Threw e ->
      decodeTransactionInfo verifier signed = Threw e) /\
  (forall ti : DecodedTransactionInfo,
      decodeTransactionInfo verifier signed = Ok (Some ti) ->
      truthyString signed = true /\
      (price ti = None \/ exists z : Z, price ti = Some (Finite z))).
Proof.
  unfold decodeTransactionInfo. split; [|split].
  - intros ->. reflexivity.
  - intros e -> ->. reflexivity.
  - intros ti. destruct (truthyString signed); cbn [negb]; [|discriminate].
    destruct (verifyAndDecodeTransaction verifier _) as [decoded'|]; [|discriminate].
    destruct decoded'; try discriminate; intros [= <-]; simpl;
      (split; [reflexivity|]);
      repeat match goal with
             | |- context [match ?x with _ => _ end] => destruct x
             end; eauto.
Qed.

End CertificatesAndDecoding.

(** ** env.ts: the tenants of a loaded configuration *)

Section EnvMore.
Context {rt : JsRuntime} {zod : Zod}.

Lemma checkDuplicateBundleIds_ok (seen : gset string) (apps : list AppleAppConfig) :
  checkDuplicateBundleIds seen apps = Ok tt ->
  NoDup (explicitBundleIds apps) /\
  forall b, In b (explicitBundleIds apps) -> b ∉ seen.
Proof.
  revert seen. induction apps as [|app apps IH]; intros seen Hok.
  - split; [constructor | intros b []].
  - simpl in Hok. unfold explicitBundleIds. simpl.
    fold (explicitBundleIds apps).
    destruct (app_bundleId app) as [b|]; [|apply IH; exact Hok].
    destruct (nonEmpty b); cbn [negb] in Hok |- *; [|apply IH; exact Hok].
    destruct (bool_decide (b ∈ seen)) eqn:Hseen; [discriminate|].
    apply bool_decide_eq_false in Hseen.
    destruct (IH _ Hok) as [Hnodup Hfresh]. split.
    + apply NoDup_cons. split; [|exact Hnodup].
      intros Hin. apply list_elem_of_In in Hin. apply Hfresh in Hin.
      apply Hin, elem_of_union. left. now apply elem_of_singleton.
    + intros b' [<-|Hin]; [exact Hseen|].
      apply Hfresh in Hin. intros Hs. apply Hin, elem_of_union. now right.
Qed.

Lemma loadConfig_apps (parsed : ParsedEnv) (config : AppConfig) :
  loadConfig parsed = Ok config ->
  NoDup (explicitBundleIds (appleApps config)) /\
  ((1 < length (appleApps config))%nat ->
   Forall (fun app => truthyString (app_bundleId app) = true) (appleApps config)) /\
  (truthyString (APPLE_APPS_JSON parsed) = false ->
   exists appId : Z,
     APPLE_APP_ID parsed = Some appId /\
     appleApps config
     = [ {| app_bundleId := APPLE_BUNDLE_ID parsed;
            app_appAppleId := appId;
            app_pushoverUserKey := PUSHOVER_USER_KEY parsed;
            app_pushoverDevice := PUSHOVER_DEVICE parsed |} ]).
Proof.
  unfold loadConfig.
  destruct (truthyString (APPLE_APPS_JSON parsed)) eqn:Hmode.
  - unfold parseAppleApps.
    destruct (JSON_parse _) as [json|]; [|discriminate].
    destruct (zodAppleApps json) as [entries|]; [|discriminate].
    cbv zeta.
    match goal with
    | |- context [if ?c then _ else _] => destruct c eqn:Hmulti
    end; [discriminate|].
    destruct (checkDuplicateBundleIds ∅ _) as [[]|] eqn:Hdup; [|discriminate].
    intros [= <-]. cbn [appleApps].
    apply checkDuplicateBundleIds_ok in Hdup. destruct Hdup as [Hnodup _].
    split; [exact Hnodup|]. split; [|discriminate].
    intros Hmany. apply andb_false_iff in Hmulti. destruct Hmulti as [Hone|Hnone].
    + apply Nat.ltb_ge in Hone. lia.
    + apply List.Forall_forall. intros app Hin.
      destruct (truthyString (app_bundleId app)) eqn:Htruthy; [reflexivity|].
      assert (Hex : existsb (fun app => negb (truthyString (app_bundleId app)))
                      (map (fun app0 =>
                         {| app_bundleId := entry_bundleId app0;
                            app_appAppleId := entry_appAppleId app0;
                            app_pushoverUserKey :=
                              nullishOr (entry_pushoverUserKey app0)
                                        (PUSHOVER_USER_KEY parsed);
                            app_pushoverDevice :=
                              nullish (entry_pushoverDevice app0)
                                      (PUSHOVER_DEVICE parsed) |}) entries) = true).
      { apply existsb_exists. exists app. split; [exact Hin | now rewrite Htruthy]. }
      congruence.
  - unfold buildSingleAppFallback.
    destruct (APPLE_APP_ID parsed) as [appId|]; [|discriminate].
    intros [= <-]. cbn [appleApps]. split.
    + unfold explicitBundleIds. simpl.
      destruct (APPLE_BUNDLE_ID parsed) as [b|]; [destruct (nonEmpty b)|];
        repeat constructor; apply not_elem_of_nil.
    + split; [simpl; lia|]. intros _. exists appId. split; reflexivity.
Qed.

(** X16. The tenants of a configuration that [loadConfig] returns: no
    bundle id is named by two tenants; when there is more than one tenant,
    every tenant names its bundle id; and without [APPLE_APPS_JSON] there is
    exactly one tenant, made of [APPLE_BUNDLE_ID], [APPLE_APP_ID] (which
    must be set) and the default Pushover user key and device. *)
Theorem loadConfig_tenants (parsed : ParsedEnv) (config : AppConfig) :
  loadConfig parsed = Ok config ->
  NoDup (explicitBundleIds (appleApps config)) /\
  ((1 < length (appleApps config))%nat ->
   Forall (fun app => truthyString (app_bundleId app) = true) (appleApps config)) /\
  (truthyString (APPLE_APPS_JSON parsed) = false ->
   exists appId : Z,
     APPLE_APP_ID parsed = Some appId /\
     appleApps config
     = [ {| app_bundleId := APPLE_BUNDLE_ID parsed;
            app_appAppleId := appId;
            app_pushoverUserKey := PUSHOVER_USER_KEY parsed;
            app_pushoverDevice := PUSHOVER_DEVICE parsed |} ]).
Proof. apply loadConfig_apps. Qed.

End EnvMore.

(** ** appleVerifier.ts: the bundle id of a tenant binds what it accepts *)

Section BundleBinding.
Context {rt : JsRuntime} {zod : Zod} {fs : FileSystem} {apple : AppleLibrary}.

Lemma explicitBundleIds_In (apps : list AppleAppConfig) (app : AppleAppConfig)
    (b : string) :
  In app apps -> app_bundleId app = Some b -> nonEmpty b = true ->
  b ∈ explicitBundleIds apps.
Proof.
  intros Hin Hb Hne. induction apps as [|a apps IH]; [destruct Hin|].
  unfold explicitBundleIds. simpl. fold (explicitBundleIds apps).
  destruct Hin as [->|Hin].
  - rewrite Hb, Hne. apply list_elem_of_here.
  - destruct (app_bundleId a) as [b'|]; [destruct (nonEmpty b')|]; auto.
    apply list_elem_of_further. auto.
Qed.

(** The loop fails on an envelope that a verifier of the tenant [app]
    accepts with another bundle id inside, wherever [app] stands among
    tenants that all name their bundle ids, no two the same. *)
Lemma verifyLoop_mismatch_fails (config : AppConfig) (sp : string)
    (app : AppleAppConfig) (b : string) (vs : VerifierPair) (p : JSValue)
    (used : SignedDataVerifier) :
  oneBundlePerEnvelope ->
  app_bundleId app = Some b ->
  nonEmpty b = true ->
  decoded (tryVerifiers [production vs; sandbox vs] sp None) = Some (p, used) ->
  topLevelOrNested p "bundleId" <> Some b ->
  sdv_bundleId (production vs) = b ->
  sdv_bundleId (sandbox vs) = b ->
  forall (apps : list AppleAppConfig) (le : option Error) (w w' : World),
    NoDup (explicitBundleIds apps) ->
    Forall (fun a => truthyString (app_bundleId a) = true) apps \/ apps = [app] ->
    In app apps ->
    verifierCacheCoherent w ->
    getVerifiers config b (app_appAppleId app) w = (Ok vs, w') ->
    exists e : Error, (verifyLoop apps sp config le w).1 = Threw e.
Proof.
  intros Hlaw Hb Hne Hdec Hdiff Hprod Hsand.
  assert (Hcand : candidateBundleId app sp = Some b).
  { unfold candidateBundleId. now rewrite Hb. }
  destruct (tryVerifiers_decoded _ _ _ _ _ Hdec) as [Hused Hunder].
  destruct (verifiesUnder_accepted _ _ _ Hunder) as (raw & Hraw).
  assert (Hbundle : sdv_bundleId used = b).
  { destruct Hused as [<-|[<-|[]]]; assumption. }
  induction apps as [|a rest IH]; intros le w w' Hnodup Hshape Hin Hcoherent Hget;
    [destruct Hin|].
  assert (Hhere : a = app ->
                  exists e, (verifyLoop (a :: rest) sp config le w).1 = Threw e).
  { intros ->.
    destruct (buildVerifiedNotification_mismatch app p used b Hb Hne Hdiff) as (e & He).
    exists e. rewrite (verifyLoop_selected config sp app rest le w w' vs p used).
    - simpl. exact He.
    - rewrite Hcand. exact Hne.
    - rewrite Hcand. exact Hget.
    - rewrite (tryVerifiers_decoded_any_lastError _ _ le None). exact Hdec. }
  destruct Hin as [Heq|Hin]; [now apply Hhere|].
  destruct Hshape as [Hall|Hone];
    [|injection Hone as -> ->; destruct Hin].
  apply List.Forall_cons_iff in Hall. destruct Hall as [Ha Hall].
  destruct (app_bundleId a) as [ba|] eqn:Hba; [|discriminate Ha].
  change (nonEmpty ba = true) in Ha.
  assert (Hnodup' : (ba ∉ explicitBundleIds rest) /\ NoDup (explicitBundleIds rest)).
  { unfold explicitBundleIds in Hnodup. simpl in Hnodup. rewrite Hba, Ha in Hnodup.
    apply NoDup_cons in Hnodup. exact Hnodup. }
  destruct Hnodup' as [Hfresh Hnodup'].
  assert (Hother : ba <> b).
  { intros ->. apply Hfresh. eapply explicitBundleIds_In; eassumption. }
  rewrite verifyLoop_cons.
  assert (Hcanda : candidateBundleId a sp = Some ba).
  { unfold candidateBundleId. now rewrite Hba. }
  rewrite Hcanda. cbn [truthyString]. rewrite Ha. cbn [negb nullishOr]. unfold bind.
  destruct (getVerifiers config ba (app_appAppleId a) w) as [[vsa|e] w1] eqn:Hgeta;
    [|exists e; reflexivity].
  destruct (getVerifiers_coherent _ _ _ _ _ _ Hcoherent Hgeta) as (Hcoherent1 & Hpa & Hsa).
  destruct (decoded (tryVerifiers [production vsa; sandbox vsa] sp le))
    as [[pa useda]|] eqn:Hdeca.
  - exfalso. destruct (tryVerifiers_decoded _ _ _ _ _ Hdeca) as [Huseda Hundera].
    destruct (verifiesUnder_accepted _ _ _ Hundera) as (rawa & Hrawa).
    pose proof (Hlaw useda used sp rawa raw Hrawa Hraw) as Hsame.
    apply Hother. rewrite <- Hbundle, <- Hsame.
    destruct Huseda as [<-|[<-|[]]]; symmetry; assumption.
  - destruct (getVerifiers_other_bundle config b ba (app_appAppleId app)
                (app_appAppleId a) w w' w1 vs (Ok vsa) Hother Hget Hgeta)
      as (w3 & Hget').
    eapply IH; try eassumption. now left.
Qed.

(** C3. For every configuration that [loadConfig] returns and every tenant
    of it with an explicit bundle id: if the envelope verifies under that
    tenant's verifiers and the bundle id the decoder reads from the decoded
    payload (top-level, else nested under [data]) is not the configured one,
    then [verifyAppleNotification] fails with an error.  The library is
    taken to do what [SignedDataVerifier] does with the bundle id it is
    constructed with (one envelope is accepted by verifiers of one bundle id
    only), and the verifier cache to be one that [getVerifiers] built. *)
Theorem bundle_mismatch_fails (parsed : ParsedEnv) (config : AppConfig) (sp : string)
    (app : AppleAppConfig) (b : string) (w w' : World) (vs : VerifierPair)
    (p : JSValue) (used : SignedDataVerifier) :
  oneBundlePerEnvelope ->
  loadConfig parsed = Ok config ->
  verifierCacheCoherent w ->
  In app (appleApps config) ->
  app_bundleId app = Some b ->
  nonEmpty b = true ->
  getVerifiers config b (app_appAppleId app) w = (Ok vs, w') ->
  decoded (tryVerifiers [production vs; sandbox vs] sp None) = Some (p, used) ->
  topLevelOrNested p "bundleId" <> Some b ->
  exists e : Error, (verifyAppleNotification sp config w).1 = Threw e.
Proof.
  intros Hlaw Hload Hcoherent Hin Hb Hne Hget Hdec Hdiff.
  destruct (loadConfig_apps parsed config Hload) as (Hnodup & Hmany & _).
  destruct (getVerifiers_coherent _ _ _ _ _ _ Hcoherent Hget) as (_ & Hprod & Hsand).
  unfold verifyAppleNotification.
  eapply (verifyLoop_mismatch_fails config sp app b vs p used); try eassumption.
  destruct (appleApps config) as [|a [|a' rest]] eqn:Happs.
  - destruct Hin.
  - right. destruct Hin as [->|[]]. reflexivity.
  - left. apply Hmany. simpl. lia.
Qed.

End BundleBinding.

(** ** subscriptionStateStore.ts: what is read, decided and written *)

Section SubscriptionMore.
Import SubscriptionStateStore.
Context {rt : JsRuntime}.

(** X17. Reading back what was written: the object the store serializes
    for a state is parsed to that same state, for every state whose first
    and last notification types are not empty and whose optional dates are
    absent or finite. *)
Theorem parseSubscriptionState_stateToJS (st : SubscriptionState) :
  nonEmpty (firstNotificationType st) = true ->
  nonEmpty (lastNotificationType st) = true ->
  finiteOrAbsent (st_originalPurchaseDate st) ->
  finiteOrAbsent (firstPurchaseDate st) ->
  finiteOrAbsent (lastPurchaseDate st) ->
  parseSubscriptionState (stateToJS st) = Some st.
Proof.
  intros Hfirst Hlast Ho Hf Hl. destruct st as [saw dr nc fs up fnt lnt o f l].
  simpl in *. unfold parseSubscriptionState, stateToJS. simpl.
  rewrite Hfirst, Hlast. simpl.
  destruct Ho as [->|[zo ->]], Hf as [->|[zf ->]], Hl as [->|[zl ->]]; reflexivity.
Qed.

(** X18. Without an original transaction id (no transaction info, or an
    absent or empty id) there is no lifecycle hint, and the store is not
    contacted: the world is left as it was. *)
Theorem lifecycle_skipped_without_subscription (nt : string)
    (ti : option DecodedTransactionInfo) (config : AppConfig) (w : World) :
  truthyString (txField ti originalTransactionId) = false ->
  determineSubscriptionLifecycleHint nt ti config w = (Ok None, w).
Proof.
  intros Hnone. unfold determineSubscriptionLifecycleHint.
  destruct (txField ti originalTransactionId) as [otid|]; [|reflexivity].
  simpl in Hnone. rewrite Hnone. reflexivity.
Qed.

(** X19. When the store fails, [determineSubscriptionLifecycleHint] throws
    the store's error instead of answering without a hint, and writes
    nothing. *)
Theorem lifecycle_store_failure_propagates (nt : string)
    (ti : option DecodedTransactionInfo) (config : AppConfig) (w : World)
    (otid : string) (e : Error) :
  txField ti originalTransactionId = Some otid ->
  nonEmpty otid = true ->
  kvFailure w = Some e ->
  (determineSubscriptionLifecycleHint nt ti config w).1 = Threw e /\
  kv (determineSubscriptionLifecycleHint nt ti config w).2 = kv w.
Proof.
  intros Hid Hne Hdown.
  destruct (subscription_getRedisClient_frame config w) as (c & client & Hclient).
  unfold determineSubscriptionLifecycleHint. rewrite Hid, Hne. simpl.
  unfold bind. rewrite Hclient. unfold redis_get. simpl. rewrite Hdown.
  split; reflexivity.
Qed.


(** X21. The first event for a subscription (nothing stored, or something
    that does not parse as a state): the hint is decided without a previous
    state, and the state created counts one notification, one renewal
    exactly when the event is DID_RENEW, is first seen now with this type,
    and has seen a trial exactly when the transaction carries a free-trial
    offer or the event is a DID_RENEW that the purchase dates place 5 to 14
    days after the original purchase. *)
Theorem first_event_creates_state (nt : string) (ti : option DecodedTransactionInfo)
    (config : AppConfig) (w : World) (otid : string) :
  txField ti originalTransactionId = Some otid ->
  nonEmpty otid = true ->
  kvFailure w = None ->
  parseSubscriptionState (nullishOr (kvLive w (getSubscriptionStateKey otid)) VNull)
    = None ->
  let hint := determineLifecycleHint nt ti None in
  let created := nextState nt ti None hint (now w) in
  (determineSubscriptionLifecycleHint nt ti config w).1 = Ok hint /\
  kv (determineSubscriptionLifecycleHint nt ti config w).2
     !! getSubscriptionStateKey otid
  = Some (VString (JSON_stringify (stateToJS created)), now w + 63072000 * 1000) /\
  notificationCount created = 1 /\
  didRenewCount created = (if String.eqb nt "DID_RENEW" then 1 else 0) /\
  firstSeenAt created = now w /\
  firstNotificationType created = nt /\
  lastNotificationType created = nt /\
  sawFreeTrial created
  = (hasFreeTrial ti || isLikelyFirstPaidAfterTrialByDates ti && String.eqb nt "DID_RENEW").
Proof.
  intros Hid Hne Hup Hparse hint created.
  destruct (determineSubscriptionLifecycleHint_reachable nt ti config w otid Hid Hne Hup)
    as (c & Hrun).
  rewrite Hparse in Hrun. fold hint in Hrun. fold created in Hrun. rewrite Hrun.
  split; [reflexivity|]. split; [simpl; apply lookup_insert_eq|].
  subst created hint.
  split; [reflexivity|].
  split; [simpl; destruct (String.eqb nt "DID_RENEW"); reflexivity|].
  split; [reflexivity|]. split; [reflexivity|]. split; [reflexivity|].
  simpl. unfold determineLifecycleHint.
  destruct (String.eqb nt "SUBSCRIBED") eqn:Hsub.
  - assert (Hnot : String.eqb nt "DID_RENEW" = false).
    { apply String.eqb_eq in Hsub. subst. reflexivity. }
    rewrite Hnot. simpl.
    destruct (hasFreeTrial ti); simpl; [reflexivity|]. now rewrite andb_false_r.
  - simpl. destruct (String.eqb nt "DID_RENEW"); simpl.
    + destruct (hasFreeTrial ti), (isLikelyFirstPaidAfterTrialByDates ti); reflexivity.
    + rewrite andb_false_r, !orb_false_r. reflexivity.
Qed.

Lemma writtenByStore_didRenewCount (st : SubscriptionState) :
  LifecycleSpec.writtenByStore st -> 0 <= didRenewCount st.
Proof.
  induction 1 as [nt ti hint now'|nt ti previous hint now' _ IH]; simpl;
    apply roundToDouble_nonnegative; destruct (String.eqb nt "DID_RENEW"); lia.
Qed.

(** X22. For a subscription whose stored state the store module has written
    itself, beginning with nothing stored (so that its renewal count is not
    negative): once a DID_RENEW has been recorded, the remembered trial no
    longer makes a later DID_RENEW a first paid renewal.  Against the state
    written by a DID_RENEW, the hint for a DID_RENEW is
    FIRST_PAID_AFTER_TRIAL only when the purchase dates of the new
    transaction say so, and RENEWAL otherwise. *)
Theorem first_paid_only_by_dates_after_renewal (ti ti' : option DecodedTransactionInfo)
    (previous : option SubscriptionState)
    (hint : option SubscriptionLifecycleHint) (now' : Z) :
  (forall st : SubscriptionState,
      previous = Some st -> LifecycleSpec.writtenByStore st) ->
  determineLifecycleHint "DID_RENEW" ti'
    (Some (nextState "DID_RENEW" ti previous hint now'))
  = if isLikelyFirstPaidAfterTrialByDates ti'
    then Some FIRST_PAID_AFTER_TRIAL else Some RENEWAL.
Proof.
  intros Hwritten.
  assert (Hcount : 0 <= match previous with
                        | Some st => didRenewCount st
                        | None => 0
                        end).
  { destruct previous as [st|]; [|lia].
    apply writtenByStore_didRenewCount, Hwritten. reflexivity. }
  unfold determineLifecycleHint.
  change (didRenewCount (nextState "DID_RENEW" ti previous hint now'))
    with (jsAdd (match previous with
                 | Some st => didRenewCount st
                 | None => 0
                 end) 1).
  pose proof (jsAdd_one_positive _ Hcount) as Hpositive.
  replace (jsAdd _ 1 =? 0) with false by (symmetry; apply Z.eqb_neq; lia).
  simpl. rewrite andb_false_r. reflexivity.
Qed.

End SubscriptionMore.

(** ** eventClassifier.ts and the keys of the two stores *)

Section ClassifierAndKeys.

(** X23. The classifier: only REFUND is a refund; only SUBSCRIBED,
    DID_RENEW and ONE_TIME_CHARGE are purchases; every other type, also one
    that differs from these in case or by surrounding blanks, is ignored. *)
Theorem classifyNotificationType_cases (t : string) :
  (classifyNotificationType t = REFUND <-> t = "REFUND") /\
  (classifyNotificationType t = PURCHASE
   <-> t = "SUBSCRIBED" \/ t = "DID_RENEW" \/ t = "ONE_TIME_CHARGE") /\
  (classifyNotificationType t = IGNORE
   <-> t <> "REFUND" /\ t <> "SUBSCRIBED" /\ t <> "DID_RENEW" /\ t <> "ONE_TIME_CHARGE").
Proof.
  unfold classifyNotificationType, PURCHASE_NOTIFICATION_TYPES.
  destruct (String.eqb_spec t "REFUND") as [->|Hrefund].
  - repeat split; try discriminate; try tauto;
      try (intros [H|[H|H]]; discriminate H); try (intros [H _]; congruence).
  - destruct (bool_decide (t ∈ ({[ "SUBSCRIBED"; "DID_RENEW"; "ONE_TIME_CHARGE" ]} : gset string)))
      eqn:Hmember.
    + apply bool_decide_eq_true in Hmember.
      assert (Hcases : t = "SUBSCRIBED" \/ t = "DID_RENEW" \/ t = "ONE_TIME_CHARGE").
      { apply elem_of_union in Hmember as [Hin|Hin];
          [apply elem_of_union in Hin as [Hin|Hin]|];
          apply elem_of_singleton in Hin; tauto. }
      repeat split; try discriminate; try tauto.
    + apply bool_decide_eq_false in Hmember.
      assert (Hnone : t <> "SUBSCRIBED" /\ t <> "DID_RENEW" /\ t <> "ONE_TIME_CHARGE").
      { split; [|split]; intros ->; apply Hmember.
        - apply elem_of_union; left. apply elem_of_union; left.
          now apply elem_of_singleton.
        - apply elem_of_union; left. apply elem_of_union; right.
          now apply elem_of_singleton.
        - apply elem_of_union; right. now apply elem_of_singleton. }
      repeat split; try discriminate; try tauto.
Qed.

(** X24. The keys of the two stores never collide: different notification
    ids have different deduplication keys, different original transaction
    ids have different subscription keys, and no deduplication key is a
    subscription key, whatever the ids are. *)
Theorem store_keys_do_not_collide (u u' otid otid' : string) :
  (DedupeStore.getDedupeKey u = DedupeStore.getDedupeKey u' -> u = u') /\
  (SubscriptionStateStore.getSubscriptionStateKey otid
   = SubscriptionStateStore.getSubscriptionStateKey otid' -> otid = otid') /\
  DedupeStore.getDedupeKey u <> SubscriptionStateStore.getSubscriptionStateKey otid.
Proof.
  unfold DedupeStore.getDedupeKey, SubscriptionStateStore.getSubscriptionStateKey.
  split; [apply append_inj_l|]. split; [apply append_inj_l|].
  intros H. cbn in H. discriminate H.
Qed.

End ClassifierAndKeys.

(** ** messageBuilder.ts *)

Section MessageMore.
Import MessageBuilderRevised.
Context {rt : JsRuntime}.

Lemma Z_toString_head (z : Z) :
  exists (c : ascii) (rest : string), Z_toString z = String c rest /\ c <> "n"%char.
Proof.
  unfold Z_toString. destruct z as [|p|p]; simpl.
  - eexists _, _. split; [reflexivity | discriminate].
  - pose proof (DecimalPos.Unsigned.to_uint_nonnil p) as Hnil.
    unfold NilZero.string_of_uint.
    destruct (Pos.to_uint p); try contradiction; simpl;
      eexists _, _; (split; [reflexivity | discriminate]).
  - eexists _, _. split; [reflexivity | discriminate].
Qed.

Lemma formatThousandths_head (milli : Z) :
  exists (c : ascii) (rest : string),
    formatThousandths milli = String c rest /\ c <> "n"%char.
Proof.
  unfold formatThousandths. cbv zeta.
  destruct (milli <? 0).
  - eexists _, _. split; [reflexivity | discriminate].
  - destruct (Z_toString_head (Z.abs milli / 1000)) as (c & rest & Heq & Hc).
    rewrite Heq. simpl. eexists _, _. split; [reflexivity | exact Hc].
Qed.

Lemma formatAmount_finite (milli : Z) (currency' : option string) :
  Z.abs milli <= 4 * 10 ^ 15 ->
  formatAmount (Some (Finite milli)) currency' <> "n/a".
Proof.
  intros Hrange. unfold formatAmount. cbv zeta.
  rewrite (formatMilliunits_exact milli Hrange).
  destruct (formatThousandths_head milli) as (c & rest & Heq & Hc). rewrite Heq.
  destruct (truthyString currency'); cbn; intros Heq'; injection Heq' as Hhead _;
    contradiction.
Qed.

Lemma leadingParts_not_amount (input : MessageInput) (tail : list string) :
  Forall (fun part => String.prefix "amount=" part = false) tail ->
  Forall (fun part => String.prefix "amount=" part = false)
    ([ "app=" +:+ appBundleId input;
       "type=" +:+ in_notificationType input;
       "product=" +:+ nullishOr (in_productId input) "n/a";
       "env=" +:+ in_environment input;
       "tx=" +:+ shortTransactionId (in_transactionId input) ]
     ++ optionalPart "subtype" (in_subtype input)
     ++ optionalPart "reason" (in_transactionReason input)
     ++ optionalPart "offer" (in_offerDiscountType input)
     ++ optionalPart "lifecycle" (subscriptionLifecycle input)
     ++ tail)%list.
Proof.
  intros Htail. unfold optionalPart. simpl.
  repeat match goal with
         | |- context [if truthyString ?v then _ else _] =>
             destruct (truthyString v); simpl
         end;
    repeat (apply List.Forall_cons; [reflexivity|]); exact Htail.
Qed.

(** X25. In the revised builder the message has an amount part exactly for
    a finite price, whatever the other fields are (also without a currency,
    and for a price of zero): for a finite price of at most 4 * 10^15
    milliunits in magnitude the amount is the last part and no other part
    starts with [amount=]; for an absent or non-finite price no part starts
    with [amount=]. *)
Theorem amount_part_iff_finite_price (input : MessageInput) :
  match in_price input with
  | Some (Finite milli) =>
      Z.abs milli <= 4 * 10 ^ 15 ->
      exists front : list string,
        messageParts input
        = (front ++ ["amount=" +:+ formatAmount (in_price input) (in_currency input)])%list /\
        Forall (fun part => String.prefix "amount=" part = false) front
  | _ =>
      Forall (fun part => String.prefix "amount=" part = false) (messageParts input)
  end.
Proof.
  unfold messageParts.
  destruct (in_price input) as [[milli| | |]|] eqn:Hprice;
    try (apply leadingParts_not_amount; constructor).
  intros Hrange. cbv zeta.
  pose proof (formatAmount_finite milli (in_currency input) Hrange) as Hne.
  apply String.eqb_neq in Hne. rewrite Hne. cbn [negb].
  pose proof (leadingParts_not_amount input [] (List.Forall_nil _)) as Hfront.
  eexists. split; [|exact Hfront].
  rewrite <- !app_assoc. reflexivity.
Qed.

(** X26. [shortTransactionId] never yields more than 13 characters: an
    absent or empty id is shown as [n/a], an id of at most 12 characters is
    shown as it is, and a longer one as its first six characters, three
    dots and its last four characters. *)
Theorem shortTransactionId_shape (transactionId' : option string) :
  (String.length (shortTransactionId transactionId') <= 13)%nat /\
  (truthyString transactionId' = false -> shortTransactionId transactionId' = "n/a") /\
  (forall t : string,
      transactionId' = Some t ->
      nonEmpty t = true ->
      (String.length t <= 12)%nat ->
      shortTransactionId transactionId' = t) /\
  (forall t : string,
      transactionId' = Some t ->
      (12 < String.length t)%nat ->
      shortTransactionId transactionId' = sliceFront 6 t +:+ "..." +:+ sliceBack 4 t /\
      String.length (shortTransactionId transactionId') = 13%nat /\
      String.prefix (sliceFront 6 t) t = true /\
      sliceBack 4 t = substring (String.length t - 4) 4 t).
Proof.
  assert (Hlong : forall t, (12 < String.length t)%nat ->
            nonEmpty t = true /\ (String.length t <=? 12)%nat = false /\
            String.length (sliceFront 6 t +:+ "..." +:+ sliceBack 4 t) = 13%nat).
  { intros t Hlen. split; [destruct t; [simpl in Hlen; lia | reflexivity]|].
    split; [apply Nat.leb_gt; lia|].
    unfold sliceFront, sliceBack.
    rewrite !length_append, !substring_length by lia. reflexivity. }
  split; [|split; [|split]].
  - unfold shortTransactionId. destruct transactionId' as [t|]; [|simpl; lia].
    destruct (nonEmpty t); cbn [negb]; [|simpl; lia].
    destruct (Nat.leb_spec (String.length t) 12); [lia|].
    destruct (Hlong t) as (_ & _ & ->); lia.
  - unfold shortTransactionId. destruct transactionId' as [t|]; [|reflexivity].
    simpl. intros ->. reflexivity.
  - intros t -> Hne Hlen. unfold shortTransactionId. rewrite Hne. cbn [negb].
    apply Nat.leb_le in Hlen. now rewrite Hlen.
  - intros t -> Hlen. destruct (Hlong t Hlen) as (Hne & Hgt & Hthirteen).
    unfold shortTransactionId. rewrite Hne, Hgt. cbn [negb].
    split; [reflexivity|]. split; [exact Hthirteen|].
    split; [apply prefix_substring | reflexivity].
Qed.

End MessageMore.

(** ** The pipeline under the default dependencies *)

Section DefaultPipeline.
Context {rt : JsRuntime} {zod : Zod} {fs : FileSystem} {apple : AppleLibrary}
        {responseObject : ResponseObject}.

Lemma onlyDedupMarkers_refl (w : World) : onlyDedupMarkers w w.
Proof.
  repeat split; try reflexivity; [now left|]. exists []. now rewrite app_nil_r.
Qed.

Lemma onlyDedupMarkers_trans (a b c : World) :
  onlyDedupMarkers a b -> onlyDedupMarkers b c -> onlyDedupMarkers a c.
Proof.
  intros (Hn & Hf & Hs & Hk & sent & Hi) (Hn' & Hf' & Hs' & Hk' & sent' & Hi').
  split; [congruence|]. split; [congruence|]. split; [congruence|]. split.
  - intros key. destruct (Hk' key) as [Hsame|Hmark]; [|now right].
    rewrite Hsame. apply Hk.
  - exists (sent ++ sent')%list. rewrite Hi', Hi. now rewrite app_assoc.
Qed.

Lemma getVerifiers_onlyDedupMarkers (config : AppConfig) (b : string) (appId : Z)
    (w : World) :
  onlyDedupMarkers w (getVerifiers config b appId w).2.
Proof.
  unfold getVerifiers.
  destruct (verifierCache w !! _); [apply onlyDedupMarkers_refl|].
  destruct (createVerifiers config b appId); simpl;
    repeat split; try reflexivity; try (now left);
    exists []; now rewrite app_nil_r.
Qed.

Lemma verifyLoop_onlyDedupMarkers (apps : list AppleAppConfig) (sp : string)
    (config : AppConfig) (le : option Error) (w : World) :
  onlyDedupMarkers w (verifyLoop apps sp config le w).2.
Proof.
  revert le w. induction apps as [|app rest IH]; intros le w.
  - simpl. destruct le; apply onlyDedupMarkers_refl.
  - rewrite verifyLoop_cons.
    destruct (truthyString (candidateBundleId app sp)); cbn [negb]; [|apply IH].
    unfold bind.
    pose proof (getVerifiers_onlyDedupMarkers config
                  (nullishOr (candidateBundleId app sp) EmptyString)
                  (app_appAppleId app) w) as Hget.
    destruct (getVerifiers config _ (app_appAppleId app) w) as [[vs|e] w1];
      [|exact Hget].
    cbn [snd] in Hget.
    destruct (decoded (tryVerifiers [production vs; sandbox vs] sp le))
      as [[p used]|]; [exact Hget|].
    eapply onlyDedupMarkers_trans; [exact Hget | apply IH].
Qed.

Lemma markNotificationAsNew_onlyDedupMarkers (uuid : string) (config : AppConfig)
    (w : World) :
  onlyDedupMarkers w (DedupeStore.markNotificationAsNew uuid config w).2.
Proof.
  destruct (kvFailure w) as [e|] eqn:Hkv.
  - destruct (markNotificationAsNew_unreachable uuid config w e Hkv) as (c & ->).
    repeat split; try reflexivity; [now left|]. exists []. now rewrite app_nil_r.
  - destruct (markNotificationAsNew_reachable uuid config w Hkv) as (c & ->).
    destruct (bool_decide _).
    + repeat split; try reflexivity; [now left|]. exists []. now rewrite app_nil_r.
    + repeat split; try reflexivity; [|exists []; now rewrite app_nil_r].
      intros key. simpl.
      destruct (decide (key = DedupeStore.getDedupeKey uuid)) as [->|Hother].
      * right. eexists _, _. split; [reflexivity|]. apply lookup_insert_eq.
      * left. apply lookup_insert_ne. congruence.
Qed.

Lemma sendPushoverNotification_onlyDedupMarkers (config : AppConfig)
    (title' message' : string) (target : option PushoverTarget) (w : World) :
  onlyDedupMarkers w (sendPushoverNotification config title' message' target w).2.
Proof.
  unfold sendPushoverNotification.
  destruct (pushoverUnreachable w); [apply onlyDedupMarkers_refl|].
  destruct (_ && _); simpl; repeat split; try reflexivity; try (now left);
    eexists; reflexivity.
Qed.

(** X27. Whatever the request is, a run of the handler with the default
    dependencies changes the store at most by writing the marker under
    deduplication keys: every other key, the subscription states among
    them, keeps its entry; requests already sent to the push channel stay;
    and the clock and the store's availability are as before. *)
Theorem default_handler_writes_only_dedup_markers (request : WebhookRequest)
    (w : World) :
  onlyDedupMarkers w (webhookHandler defaultDependencies request w).2.
Proof.
  apply webhookHandler_preserves.
  - apply onlyDedupMarkers_refl.
  - apply onlyDedupMarkers_trans.
  - intros s. simpl. destruct (processEnv s); apply onlyDedupMarkers_refl.
  - intros sp config s. apply verifyLoop_onlyDedupMarkers.
  - intros uuid config s. apply markNotificationAsNew_onlyDedupMarkers.
  - intros config t m target s. apply sendPushoverNotification_onlyDedupMarkers.
  - intros payload s. simpl.
    repeat split; try reflexivity; [now left|]. exists []. now rewrite app_nil_r.
Qed.

(** X28. Where the alert goes.  For a new purchase or refund, with the push
    channel reachable, exactly one request reaches the Pushover API, also
    when the API then answers with an error: it is addressed to the user
    key of the notification's tenant (never to the default key in its
    place), carries the application token of the configuration, priority 0,
    the title [Refund] for a refund and [In-App Kauf] for a purchase, and
    the tenant's device, or the default device when the tenant has none, and
    no device when that one is empty.  Its message is the one of
    [buildPushoverMessage] in [src/messageBuilder.ts], which the handler
    imports: the parts [app=], [type=], [product=], [env=] and [tx=] made of
    the notification's bundle id, type, product id, environment and
    shortened transaction id, then, for a finite price, [amount=] with the
    price as [formatAmount] of that module prints it, all joined
    by [ | ]. *)
Theorem push_is_addressed_to_the_tenant (request : WebhookRequest) (w0 w2 : World)
    (config : AppConfig) (sp : string) (verified : VerifiedNotification) :
  decodesSuccessfully defaultDependencies request w0 config sp verified w2 ->
  classifyNotificationType (notificationType verified) <> IGNORE ->
  kvFailure w2 = None ->
  kvLive w2 (DedupeStore.getDedupeKey (notificationUUID verified)) = None ->
  pushoverUnreachable w2 = None ->
  let run := webhookHandler (spy defaultDependencies) request ([], w0) in
  exists delivered : PushoverRequest,
    pushoverInbox run.2.2 = (pushoverInbox w2 ++ [delivered])%list /\
    push_user delivered = pushoverUserKey verified /\
    push_token delivered = pushoverAppToken config /\
    push_priority delivered = "0" /\
    push_title delivered
    = (if String.eqb (notificationType verified) "REFUND"
       then "Refund" else "In-App Kauf") /\
    push_message delivered
    = join " | "
        (["app=" +:+ bundleId verified;
          "type=" +:+ notificationType verified;
          "product=" +:+ nullishOr (txField (transactionInfo verified) productId) "n/a";
          "env=" +:+ environment verified;
          "tx=" +:+ shortTransactionId (txField (transactionInfo verified) transactionId)]
         ++ (let amount :=
               MessageBuilder.formatAmount (txField (transactionInfo verified) price)
                 (txField (transactionInfo verified) currency) in
             if negb (String.eqb amount "n/a") then ["amount=" +:+ amount] else []))%list /\
    push_device delivered
    = match pushoverDevice verified with
      | Some d => if nonEmpty d then Some d else None
      | None => if truthyString (defaultPushoverDevice config)
                then defaultPushoverDevice config else None
      end.
Proof.
  intros Hdec Hne Hup Hfresh Hreach run. subst run.
  rewrite (webhookHandler_decoded _ _ _ _ _ _ _ Hdec).
  destruct (markNotificationAsNew_reachable (notificationUUID verified) config w2 Hup)
    as (c & Hmark).
  rewrite bool_decide_eq_false_2 in Hmark
    by (rewrite Hfresh; intros [? ?]; discriminate).
  match type of Hmark with
  | _ = (_, ?w3) =>
      destruct (sendPushoverNotification config
                  (MessageBuilder.title (pushMessageOf verified))
                  (MessageBuilder.message (pushMessageOf verified))
                  (pushTargetOf verified) w3) as [sent w4] eqn:Hsend
  end.
  rewrite (handleVerified_new defaultDependencies config verified
             _ w2 _ w4 _ sent Hne Hmark Hsend (default_log _ _)).
  cbn [fst snd].
  assert (Hw4 : pushoverInbox w4
                = (pushoverInbox w2
                   ++ [pushoverRequestOf config
                         (MessageBuilder.title (pushMessageOf verified))
                         (MessageBuilder.message (pushMessageOf verified))
                         (pushTargetOf verified)])%list).
  { unfold sendPushoverNotification in Hsend. cbn in Hsend. rewrite Hreach in Hsend.
    destruct (_ && _); injection Hsend as _ <-; reflexivity. }
  eexists. split; [cbn; exact Hw4|].
  split; [reflexivity|]. split; [reflexivity|]. split; [reflexivity|].
  split; [|split; [reflexivity|]].
  - cbn. unfold classifyNotificationType in Hne |- *.
    destruct (String.eqb (notificationType verified) "REFUND"); [reflexivity|].
    destruct (bool_decide _); [reflexivity | congruence].
  - cbn. destruct (pushoverDevice verified) as [d|]; reflexivity.
Qed.

(** X29. A push that fails is not sent again.  When a new purchase or
    refund is decoded and the push channel does not accept the message, the
    request ends with the infrastructure error, yet the deduplication key
    stays written: a later delivery of a notification with the same id,
    within 2592000 seconds, ends DEDUPED without any push call. *)
Theorem rejected_push_is_not_retried (request request' : WebhookRequest)
    (w0 w2 wA wB : World) (config config' : AppConfig) (sp sp' : string)
    (verified verified' : VerifiedNotification) :
  decodesSuccessfully defaultDependencies request w0 config sp verified w2 ->
  classifyNotificationType (notificationType verified) <> IGNORE ->
  kvFailure w2 = None ->
  kvLive w2 (DedupeStore.getDedupeKey (notificationUUID verified)) = None ->
  pushoverAccepts w2 = false ->
  let first := webhookHandler (spy defaultDependencies) request ([], w0) in
  decodesSuccessfully defaultDependencies request' wA config' sp' verified' wB ->
  notificationUUID verified' = notificationUUID verified ->
  classifyNotificationType (notificationType verified') <> IGNORE ->
  kv wB = kv first.2.2 ->
  kvFailure wB = None ->
  now wB < now w2 + 2592000 * 1000 ->
  let second := webhookHandler (spy defaultDependencies) request' ([], wA) in
  first.1 = Ok INFRA_ERROR /\
  second.1 = Ok DEDUPED /\
  pushCalls second.2.1 = [] /\
  pushoverInbox second.2.2 = pushoverInbox wB.
Proof.
  intros Hdec Hne Hup Hfresh Hrejects first Hdec' Hsame Hne' Hkv Hup' Hwithin second.
  assert (Httl : dedupeTtlSeconds config = 2592000).
  { destruct Hdec as (_ & s1 & Hload & _). eapply default_loadConfig_ttl, Hload. }
  pose proof (handleVerified_default config verified
                [CalledLoadConfig; CalledVerifyNotification sp] w2 Hne) as Hfirst.
  pose proof (handleVerified_default config' verified'
                [CalledLoadConfig; CalledVerifyNotification sp'] wB Hne') as Hsecond.
  cbv zeta in Hfirst, Hsecond.
  rewrite <- (webhookHandler_decoded _ _ _ _ _ _ _ Hdec) in Hfirst.
  rewrite <- (webhookHandler_decoded _ _ _ _ _ _ _ Hdec') in Hsecond.
  fold first in Hfirst. fold second in Hsecond.
  rewrite Hup, Hrejects, Httl in Hfirst.
  rewrite bool_decide_eq_false_2 in Hfirst
    by (rewrite Hfresh; intros [? ?]; discriminate).
  destruct Hfirst as (Hresult & _ & _ & Hkey).
  rewrite Hup', Hsame in Hsecond.
  rewrite bool_decide_eq_true_2 in Hsecond.
  - destruct Hsecond as (Hresult' & Hpush & _ & Hinbox). tauto.
  - apply kvLive_Some_iff. eexists _, _. rewrite Hkv. split; [exact Hkey | exact Hwithin].
Qed.

End DefaultPipeline.

(** ** Instances of the further properties *)

Section OnScenarios.
Import Fixtures Scenarios.
#[local] Existing Instance objectRuntime.
#[local] Existing Instance noAppsSchema.
#[local] Existing Instance projectFiles.
#[local] Existing Instance mockResponse.

(** The request of the tests decodes under the default dependencies and the
    library of the scenarios, from any of the worlds used below. *)
Ltac fixture_decodes :=
  split; [reflexivity|]; eexists; split; [reflexivity|];
  split; [reflexivity|]; split; [reflexivity|];
  match goal with
  | |- ?run = (_, _) =>
      rewrite (surjective_pairing run) at 1; f_equal; vm_compute; reflexivity
  end.

(** Witness for C3: of two tenants read from [APPLE_APPS_JSON], the second
    one's sandbox verifier accepts the envelope, and the decoded payload
    names a third bundle id. *)
Lemma bundle_mismatch_fails_witness :
  loadConfig (rt := runtimeReading [twoApps]) (zod := entrySchema) twoTenantEnvironment
  = Ok twoTenantConfig /\
  exists e : Error,
    (verifyAppleNotification (apple := mismatchedLibrary) "jws-data" twoTenantConfig
       (worldAt 1700000000000 200)).1 = Threw e.
Proof.
  split; [reflexivity|].
  eapply (bundle_mismatch_fails (rt := runtimeReading [twoApps]) (zod := entrySchema)
            (apple := mismatchedLibrary)
            twoTenantEnvironment twoTenantConfig "jws-data" (tenant "com.x" 2) "com.x"
            (worldAt 1700000000000 200)).
  - intros verifier verifier' signedPayload raw raw'. simpl.
    destruct (sdv_environment verifier); [discriminate|].
    destruct (sdv_environment verifier'); [discriminate|].
    destruct (String.eqb (sdv_bundleId verifier) "com.x") eqn:Hone; [|discriminate].
    destruct (String.eqb (sdv_bundleId verifier') "com.x") eqn:Hother; [|discriminate].
    intros _ _. apply String.eqb_eq in Hone, Hother. congruence.
  - reflexivity.
  - intros b appId online dir pair Hhit.
    change (verifierCache (worldAt 1700000000000 200)) with (∅ : gmap (string * Z * bool * string) VerifierPair) in Hhit.
    rewrite lookup_empty in Hhit. discriminate Hhit.
  - right. left. reflexivity.
  - reflexivity.
  - reflexivity.
  - reflexivity.
  - reflexivity.
  - vm_compute. discriminate.
Defined.

(** Witness for X1: a GET with the right secret and a signed payload. *)
Lemma not_post_is_rejected_untouched_witness :
  webhookHandler (spy (doubles subscribedNotification (Ok true) (Ok tt)))
    (requestWith "GET" "super-secret" (VObject [("signedPayload", VString "jws-data")]))
    ([], tt)
  = (Ok (responseJson 405 (errorBody "method_not_allowed")), ([], tt)).
Proof. apply not_post_is_rejected_untouched. discriminate. Defined.

(** Witness for X2: the environment lacks the webhook secret. *)
Lemma configuration_failure_is_500_witness :
  (webhookHandler
     (spy (doublesWith (Threw (mkError "WEBHOOK_SECRET: Required"))
                       (Ok subscribedNotification)))
     postRequest ([], tt)).1
  = Ok (responseJson 500 (errorBody "invalid_configuration")).
Proof.
  rewrite (configuration_failure_is_500 _ postRequest tt tt tt
             (mkError "WEBHOOK_SECRET: Required"));
    reflexivity.
Defined.

(** Witness for X3: the test "returns 404 for wrong endpoint secret". *)
Lemma wrong_secret_is_404_witness :
  (webhookHandler (spy (doubles subscribedNotification (Ok true) (Ok tt)))
     (requestWith "POST" "wrong-secret" (VObject [("signedPayload", VString "jws-data")]))
     ([], tt)).1
  = Ok (responseJson 404 (errorBody "not_found")).
Proof.
  rewrite (wrong_secret_is_404 _ _ tt tt createConfig);
    [reflexivity | reflexivity | reflexivity | vm_compute; discriminate].
Defined.

(** Witness for X4: the test "returns 400 when signedPayload is missing". *)
Lemma missing_payload_is_400_witness :
  (webhookHandler (spy (doubles subscribedNotification (Ok true) (Ok tt)))
     (requestWith "POST" "super-secret" (VObject [])) ([], tt)).1
  = Ok (responseJson 400 (errorBody "invalid_payload")).
Proof.
  rewrite (missing_payload_is_400 _ _ tt tt createConfig); reflexivity.
Defined.

(** Witness for X5: the test "returns 400 when signature verification
    fails". *)
Lemma verification_failure_is_400_witness :
  let run := webhookHandler
               (spy (doublesWith (Ok createConfig) (Threw (mkError "bad signature"))))
               postRequest ([], tt) in
  run.1 = Ok (responseJson 400 (errorBody "invalid_signature")) /\
  dedupCalls run.2.1 = [] /\ pushCalls run.2.1 = [].
Proof.
  intros run.
  destruct (verification_failure_is_400
              (doublesWith (Ok createConfig) (Threw (mkError "bad signature")))
              postRequest tt tt tt tt createConfig "jws-data" (mkError "bad signature")
              ltac:(reflexivity) ltac:(reflexivity) ltac:(reflexivity)
              ltac:(reflexivity) ltac:(reflexivity) ltac:(reflexivity))
    as (Hrun & Hdedup & Hpush).
  fold run in Hrun, Hdedup, Hpush. rewrite Hrun. repeat split; reflexivity.
Defined.

(** Witness for X6: the test "sends one push for a valid purchase event". *)
Lemma handler_call_discipline_witness :
  let run := webhookHandler (spy (doubles subscribedNotification (Ok true) (Ok tt)))
               postRequest ([], tt) in
  (length (dedupCalls run.2.1) <= 1)%nat /\
  (length (pushCalls run.2.1) <= 1)%nat /\
  headers PUSHED = [("Cache-Control", "no-store")] /\
  In (statusCode PUSHED) [200; 400; 404; 405; 500].
Proof.
  intros run.
  pose proof (handler_call_discipline (doubles subscribedNotification (Ok true) (Ok tt))
                postRequest tt) as Hrun.
  cbv zeta in Hrun. fold run in Hrun. destruct Hrun as (Hdedup & Hpush & _ & Hresponse).
  split; [exact Hdedup|]. split; [exact Hpush|].
  apply (Hresponse PUSHED). reflexivity.
Defined.

(** Witness for X8: the body of the tests. *)
Lemma getSignedPayload_not_blank_witness :
  (0 < String.length (trim "jws-data"))%nat /\
  exists (front : string) (c : ascii) (back : string),
    "jws-data" = front +:+ String c back /\
    ~ In (nat_of_ascii c) [9; 10; 11; 12; 13; 32; 160]%nat.
Proof. apply (getSignedPayload_not_blank (body postRequest)). reflexivity. Defined.

(** A payload of no-break spaces is as blank as one of spaces. *)
Example getSignedPayload_no_break_space :
  getSignedPayload
    (VObject [("signedPayload",
               VString (String (ascii_of_nat 160) (String (ascii_of_nat 160) EmptyString)))])
  = None.
Proof. reflexivity. Qed.

(** Witness for X9: the library verifies for another bundle only, so the
    one tenant is passed over and the sandbox verifier's error comes out. *)
Lemma no_tenant_verifies_throws_last_error_witness :
  (verifyAppleNotification
     (apple := sandboxOnly "com.other" (payloadOf "uuid-1" "SUBSCRIBED" "com.other"))
     "jws-data" createConfig (worldAt 1700000000000 200)).1
  = Threw (mkError "INVALID_APP_IDENTIFIER").
Proof.
  erewrite (no_tenant_verifies_throws_last_error
              (apple := sandboxOnly "com.other" (payloadOf "uuid-1" "SUBSCRIBED" "com.other"))
              createConfig "jws-data" (worldAt 1700000000000 200)); cycle 1.
  - eapply passes_unverified;
      [reflexivity | reflexivity | reflexivity | apply passes_none].
  - reflexivity.
Defined.


(** Witness for X11: the verifiers created while the certificates were in
    place are returned after the certificate directory is gone. *)
Lemma getVerifiers_caches_witness :
  exists (vs : VerifierPair) (w' : World),
    getVerifiers (fs := projectFiles)
      createConfig "com.example.app" 1234567890 (worldAt 1700000000000 200)
    = (Ok vs, w') /\
    getVerifiers (fs := projectWithoutCertificates)
      createConfig "com.example.app" 1234567890 w'
    = (Ok vs, w').
Proof.
  eexists. eexists. split.
  - reflexivity.
  - apply (getVerifiers_caches
             projectFiles projectWithoutCertificates createConfig
             "com.example.app" 1234567890 (worldAt 1700000000000 200));
      reflexivity.
Defined.

(** Witness for X12: without the certificate directory nothing is cached. *)
Lemma getVerifiers_failure_not_cached_witness :
  (getVerifiers (fs := projectWithoutCertificates)
     createConfig "com.example.app" 1234567890 (worldAt 1700000000000 200)).2
  = worldAt 1700000000000 200.
Proof.
  pose (run := getVerifiers (fs := projectWithoutCertificates)
                 createConfig "com.example.app" 1234567890 (worldAt 1700000000000 200)).
  destruct (getVerifiers_failure_not_cached
              (fs := projectWithoutCertificates)
              createConfig "com.example.app" 1234567890 (worldAt 1700000000000 200)
              run.2
              (mkError "Apple root CA directory not found: /var/task/certs/apple. Add Apple root certificates to this folder."))
    as (Hworld & _).
  - reflexivity.
  - exact Hworld.
Defined.

(** Witness for X13: the project directory holds one certificate and a
    README; without the directory the error names it. *)
Lemma loadAppleRootCAs_outcome_witness :
  loadAppleRootCAs (fs := projectWithoutCertificates) "certs/apple"
  = Threw (mkError "Apple root CA directory not found: /var/task/certs/apple. Add Apple root certificates to this folder.") /\
  exists files : list string,
    readdirSync (FileSystem := projectFiles) "/var/task/certs/apple" = Ok files /\
    (0 < length (List.filter isCertificateFile files))%nat.
Proof.
  split.
  - apply (proj1 (loadAppleRootCAs_outcome (fs := projectWithoutCertificates)
                    "certs/apple")).
    reflexivity.
  - destruct (proj2 (proj2 (loadAppleRootCAs_outcome (fs := projectFiles) "certs/apple"))
                ["der"] ltac:(reflexivity))
      as (files & Hfiles & Hlength & Hsome).
    exists files. split; [exact Hfiles|]. rewrite <- Hlength. exact Hsome.
Defined.

(** Witness for X14: an upper-case extension. *)
Lemma isCertificateFile_by_extension_witness :
  isCertificateFile "AppleRootCA-G3.CER" = true.
Proof.
  apply (isCertificateFile_by_extension "AppleRootCA-G3" ".CER"). left. reflexivity.
Defined.

(** Witness for X15: a notification without signed transaction data. *)
Lemma decodeTransactionInfo_shape_witness :
  decodeTransactionInfo (apple := exampleLibrary "SUBSCRIBED")
    {| sdv_rootCAs := ["der"]; sdv_enableOnlineChecks := false;
       sdv_environment := SANDBOX; sdv_bundleId := "com.example.app";
       sdv_appAppleId := None |} None
  = Ok None /\
  decodeTransactionInfo (apple := exampleLibrary "SUBSCRIBED")
    {| sdv_rootCAs := ["der"]; sdv_enableOnlineChecks := false;
       sdv_environment := SANDBOX; sdv_bundleId := "com.example.app";
       sdv_appAppleId := None |} (Some "jws-transaction")
  = Threw (mkError "VERIFICATION_FAILURE").
Proof.
  split.
  - apply (proj1 (decodeTransactionInfo_shape (apple := exampleLibrary "SUBSCRIBED")
                    _ None)).
    reflexivity.
  - apply (proj1 (proj2 (decodeTransactionInfo_shape
                           (apple := exampleLibrary "SUBSCRIBED")
                           _ (Some "jws-transaction")))); reflexivity.
Defined.

(** Witness for X16: the environment of the tests gives one tenant. *)
Lemma loadConfig_tenants_witness :
  exists config : AppConfig,
    loadConfig environmentVariables = Ok config /\
    NoDup (explicitBundleIds (appleApps config)) /\
    appleApps config = [tenant "com.example.app" 1234567890].
Proof.
  exists createConfig. split; [reflexivity|].
  destruct (loadConfig_tenants environmentVariables createConfig ltac:(reflexivity))
    as (Hnodup & _ & Hsingle).
  split; [exact Hnodup|].
  destruct (Hsingle ltac:(reflexivity)) as (appId & _ & Happs). reflexivity.
Defined.

(** Witness for X17: the state of a subscription in its trial. *)
Lemma parseSubscriptionState_stateToJS_witness :
  SubscriptionStateStore.parseSubscriptionState
    (SubscriptionStateStore.stateToJS trialState) = Some trialState.
Proof.
  apply parseSubscriptionState_stateToJS;
    [reflexivity | reflexivity | right; eexists; reflexivity
     | left; reflexivity | left; reflexivity].
Defined.

(** Witness for X18: a notification without transaction info, with a
    subscription state in the store. *)
Lemma lifecycle_skipped_without_subscription_witness :
  SubscriptionStateStore.determineSubscriptionLifecycleHint "DID_RENEW" None
    createConfig (worldWithTrial 1700604800000)
  = (Ok None, worldWithTrial 1700604800000).
Proof. apply lifecycle_skipped_without_subscription. reflexivity. Defined.

(** Witness for X19: the renewal of [otx-2] while the store is down. *)
Lemma lifecycle_store_failure_propagates_witness :
  (SubscriptionStateStore.determineSubscriptionLifecycleHint "DID_RENEW"
     (Some renewalAfterTrial) createConfig
     (withStoreDown (mkError "upstash down") (worldWithTrial 1700604800000))).1
  = Threw (mkError "upstash down").
Proof.
  apply (lifecycle_store_failure_propagates "DID_RENEW" (Some renewalAfterTrial)
           createConfig
           (withStoreDown (mkError "upstash down") (worldWithTrial 1700604800000))
           "otx-2"); reflexivity.
Defined.


(** Witness for X21: the same renewal with an empty store. *)
Lemma first_event_creates_state_witness :
  (SubscriptionStateStore.determineSubscriptionLifecycleHint "DID_RENEW"
     (Some renewalAfterTrial) createConfig (worldAt 1700604800000 200)).1
  = Ok (Some SubscriptionStateStore.FIRST_PAID_AFTER_TRIAL).
Proof.
  pose proof (first_event_creates_state "DID_RENEW" (Some renewalAfterTrial) createConfig
                (worldAt 1700604800000 200) "otx-2"
                ltac:(reflexivity) ltac:(reflexivity) ltac:(reflexivity)
                ltac:(vm_compute; reflexivity)) as Hfirst.
  cbv zeta in Hfirst. destruct Hfirst as (Hrun & _).
  rewrite Hrun. reflexivity.
Defined.

(** Witness for X22: the renewal after the first paid one, a year later;
    the state of the trial is what the store wrote for the SUBSCRIBED
    notification that began it. *)
Lemma first_paid_only_by_dates_after_renewal_witness :
  SubscriptionStateStore.determineLifecycleHint "DID_RENEW" None
    (Some (SubscriptionStateStore.nextState "DID_RENEW" (Some renewalAfterTrial)
             (Some trialState) (Some SubscriptionStateStore.FIRST_PAID_AFTER_TRIAL)
             1700604800000))
  = Some SubscriptionStateStore.RENEWAL.
Proof.
  rewrite first_paid_only_by_dates_after_renewal; [reflexivity|].
  intros st [= <-].
  exact (LifecycleSpec.written_first "SUBSCRIBED" (Some trialPurchase) None 1700000000000).
Defined.

(** Witness for X24: two notification ids. *)
Lemma store_keys_do_not_collide_witness :
  DedupeStore.getDedupeKey "uuid-1"
  <> SubscriptionStateStore.getSubscriptionStateKey "uuid-1".
Proof. apply (store_keys_do_not_collide "uuid-1" "uuid-1" "uuid-1" "uuid-1"). Defined.

(** Witness for X25: the price of the tests, in the revised builder. *)
Lemma amount_part_iff_finite_price_witness :
  exists front : list string,
    MessageBuilderRevised.messageParts (revisedInput (Some (Finite 29990)) (Some "EUR"))
    = (front ++ ["amount=29.99 EUR"])%list /\
    Forall (fun part => String.prefix "amount=" part = false) front.
Proof.
  pose proof (amount_part_iff_finite_price
                (revisedInput (Some (Finite 29990)) (Some "EUR"))) as Hparts.
  cbn [MessageBuilderRevised.in_price revisedInput] in Hparts.
  apply Hparts. simpl. lia.
Defined.

(** Witness for X26: the transaction id of the tests. *)
Lemma shortTransactionId_shape_witness :
  shortTransactionId (Some "1000001234567890") = "100000...7890".
Proof.
  destruct (shortTransactionId_shape (Some "1000001234567890")) as (_ & _ & _ & Hlong).
  destruct (Hlong "1000001234567890" ltac:(reflexivity) ltac:(simpl; lia)) as (Hshape & _).
  rewrite Hshape. reflexivity.
Defined.

(** Witness for X27: a purchase handled while a subscription state is
    stored leaves that state as it is. *)
Lemma default_handler_writes_only_dedup_markers_witness :
  let w' := (webhookHandler (defaultDependencies (apple := exampleLibrary "SUBSCRIBED"))
               postRequest (worldWithTrial 1700604800000)).2 in
  kv w' !! "appstore:subscription:otx-2"
  = kv (worldWithTrial 1700604800000) !! "appstore:subscription:otx-2" /\
  now w' = 1700604800000.
Proof.
  intros w'.
  destruct (default_handler_writes_only_dedup_markers
              (apple := exampleLibrary "SUBSCRIBED")
              postRequest (worldWithTrial 1700604800000))
    as (Hnow & _ & _ & Hkeys & _).
  split; [|exact Hnow].
  destruct (Hkeys "appstore:subscription:otx-2") as [Hsame|(uuid & t & Hkey & _)];
    [exact Hsame|].
  vm_compute in Hkey. discriminate Hkey.
Defined.

(** Witness for X28: the purchase of the scenarios while the Pushover API
    answers 500: one request reached it, addressed to the tenant. *)
Lemma push_is_addressed_to_the_tenant_witness :
  exists delivered : PushoverRequest,
    pushoverInbox
      (webhookHandler (spy (defaultDependencies (apple := exampleLibrary "SUBSCRIBED")))
         postRequest ([], worldAt 1700000000000 500)).2.2
    = [delivered] /\
    push_user delivered = "pushover-user-key" /\
    push_title delivered = "In-App Kauf" /\
    push_message delivered
    = "app=com.example.app | type=SUBSCRIBED | product=n/a | env=Sandbox | tx=n/a".
Proof.
  pose (w2 := (verifyAppleNotification (apple := exampleLibrary "SUBSCRIBED")
                 "jws-data" createConfig (worldAt 1700000000000 500)).2).
  destruct (push_is_addressed_to_the_tenant (apple := exampleLibrary "SUBSCRIBED")
              postRequest (worldAt 1700000000000 500) w2 createConfig "jws-data"
              (exampleNotification "SUBSCRIBED"))
    as (delivered & Hinbox & Huser & _ & _ & Htitle & Hmessage & _).
  - fixture_decodes.
  - vm_compute. discriminate.
  - reflexivity.
  - reflexivity.
  - reflexivity.
  - exists delivered. split; [exact Hinbox|].
    split; [exact Huser|]. split; [exact Htitle | exact Hmessage].
Defined.

(** Witness for X29: that purchase delivered again an hour later, the
    Pushover API answering 200 by then. *)
Lemma rejected_push_is_not_retried_witness :
  let first :=
    webhookHandler (spy (defaultDependencies (apple := exampleLibrary "SUBSCRIBED")))
      postRequest ([], worldAt 1700000000000 500) in
  let later :=
    setKv (fun _ => kv first.2.2) (worldAt (1700000000000 + 3600000) 200) in
  let second :=
    webhookHandler (spy (defaultDependencies (apple := exampleLibrary "SUBSCRIBED")))
      postRequest ([], later) in
  first.1 = Ok INFRA_ERROR /\ second.1 = Ok DEDUPED /\ pushCalls second.2.1 = [].
Proof.
  intros first later second.
  pose (w2 := (verifyAppleNotification (apple := exampleLibrary "SUBSCRIBED")
                 "jws-data" createConfig (worldAt 1700000000000 500)).2).
  pose (wB := (verifyAppleNotification (apple := exampleLibrary "SUBSCRIBED")
                 "jws-data" createConfig later).2).
  destruct (rejected_push_is_not_retried (apple := exampleLibrary "SUBSCRIBED")
              postRequest postRequest (worldAt 1700000000000 500) w2 later wB
              createConfig createConfig "jws-data" "jws-data"
              (exampleNotification "SUBSCRIBED") (exampleNotification "SUBSCRIBED"))
    as (Hfirst & Hsecond & Hpush & _).
  - fixture_decodes.
  - vm_compute. discriminate.
  - reflexivity.
  - reflexivity.
  - reflexivity.
  - fixture_decodes.
  - reflexivity.
  - vm_compute. discriminate.
  - vm_compute. reflexivity.
  - reflexivity.
  - vm_compute. reflexivity.
  - split; [exact Hfirst|]. split; [exact Hsecond | exact Hpush].
Defined.

End OnScenarios.
